(** * OCRS: enrollment, waitlist and audit behaviour

    Two layers of the repository are embedded here.

    - [Schema]: the MySQL schema (database/schema.sql): the tables
      [section], [enrollment], [waitlist] and [audit_log] with their keys,
      and the four triggers [before_waitlist_insert],
      [before_enrollment_insert], [after_enrollment_insert] and
      [after_enrollment_update].  Tables are lists of rows in insertion
      order; a statement either fails with an error (and is rolled back) or
      yields the next database.

    - [App]: the React client (frontend/src/App.jsx): the in-memory
      database returned by [initializeDatabase], the handlers
      [handleEnroll] and [handleDrop], the [isEnrolled] predicate and the
      two Enroll buttons that call [handleEnroll].

    [Props] holds the predicates and the sample states the statements are
    written with; [SchemaFacts], [AppFacts] and [Ledger] hold the proofs.

    Beyond enrolling and dropping:

    - [Invariants] and [SchemaMore]: the unique keys, the order of the
      waitlist, when an insert is accepted, a freed seat;
    - [Arrivals] and [ArrivalFacts]: requests for one section served one
      after the other, in any order of arrival;
    - [Text]: the string built-ins the client calls ([includes],
      [toLowerCase], the regular expressions, [btoa]);
    - [Client] and [ClientProps]: the full user objects, [hashPassword],
      [validatePassword], [handleLogin], [handleRegister],
      [getEnrolledCourses], [getCourseRecommendations], [handleAddCourse]
      and [handleDeleteCourse];
    - [ListingFacts] and [AccountFacts]: their proofs;
    - [Wide] and [WideFacts]: passwords with code units above 255, on
      which [btoa] throws, and what [handleLogin] does with them. *)

From Stdlib Require Import ZArith List Bool String Ascii Lia.
From Stdlib Require Import Sorted DecimalString.
Import ListNotations.
Open Scope Z_scope.

(* ====================================================================== *)
(** ** The SQL schema and its triggers                                     *)
(* ====================================================================== *)

Module Schema.

(** [enrollment_status ENUM('Enrolled','Dropped','Completed','Withdrawn')] *)
Inductive enrollment_status : Set :=
  | Enrolled | Dropped | Completed | Withdrawn.

(** [status ENUM('Scheduled','Cancelled','Completed')] of [section]. *)
Inductive section_status : Set :=
  | Scheduled | Cancelled | SectionCompleted.

Definition status_eqb (a b : enrollment_status) : bool :=
  match a, b with
  | Enrolled, Enrolled | Dropped, Dropped
  | Completed, Completed | Withdrawn, Withdrawn => true
  | _, _ => false
  end.

(** Rows.  Only the columns that a key, a constraint or a trigger reads or
    writes are kept; column names carry the table's initial because several
    tables share [student_id] and [section_id]. *)
Record user_account_row : Set := { ua_user_id : Z }.

Record student_profile_row : Set :=
  { sp_student_id : Z; sp_user_id : Z }.

Record section_row : Set :=
  { s_section_id : Z; s_capacity : Z; s_status : section_status }.

Record enrollment_row : Set :=
  { e_enrollment_id : Z;
    e_student_id : Z;
    e_section_id : Z;
    e_enrollment_status : enrollment_status }.

Record waitlist_row : Set :=
  { w_waitlist_id : Z;
    w_section_id : Z;
    w_student_id : Z;
    w_position : Z }.

(** The two JSON objects the audit triggers build. *)
Inductive json_details : Set :=
  | json_create (section_id : Z) (status : enrollment_status)
  | json_update (old_status new_status : enrollment_status).

Record audit_log_row : Set :=
  { a_audit_id : Z;
    a_user_id : Z;
    a_action_type : string;
    a_object_type : string;
    a_object_id : Z;
    a_details : json_details }.

(** The database: the tables, and the AUTO_INCREMENT counters of the three
    tables that statements insert into. *)
Record database : Set :=
  { user_account : list user_account_row;
    student_profile : list student_profile_row;
    section : list section_row;
    enrollment : list enrollment_row;
    waitlist : list waitlist_row;
    audit_log : list audit_log_row;
    next_enrollment_id : Z;
    next_waitlist_id : Z;
    next_audit_id : Z }.

(** Errors a statement can end with. *)
Inductive error : Set :=
  | Signal (sqlstate message_text : string)
  | ForeignKeyFails (table : string)
  | DuplicateEntry (key : string)
  | OutOfRange (variable : string).

Inductive result (A : Type) : Type :=
  | Ok (a : A)
  | Err (e : error).
Arguments Ok {A} a.
Arguments Err {A} e.

Definition bind {A B : Type} (r : result A) (k : A -> result B) : result B :=
  match r with
  | Ok a => k a
  | Err e => Err e
  end.

Notation "x <- r ;; k" := (bind r (fun x => k))
  (at level 61, r at next level, right associativity).

(** *** Aggregates *)

(** [MAX(col)]: NULL ([None]) over no rows. *)
Fixpoint sql_max (l : list Z) : option Z :=
  match l with
  | [] => None
  | x :: t => Some (match sql_max t with
                    | None => x
                    | Some m => Z.max x m
                    end)
  end.

Definition COALESCE (v : option Z) (d : Z) : Z :=
  match v with
  | Some x => x
  | None => d
  end.

Definition INT_MAX : Z := 2147483647.

(** [SELECT position FROM waitlist WHERE section_id = sid], in row order. *)
Definition section_positions (db : database) (sid : Z) : list Z :=
  map w_position (filter (fun w => w_section_id w =? sid) (waitlist db)).

(** [SELECT capacity FROM section WHERE section_id = sid]; [section_id] is
    the primary key, so at most one row answers. *)
Definition section_capacity (db : database) (sid : Z) : option Z :=
  option_map s_capacity (find (fun s => s_section_id s =? sid) (section db)).

(** [SELECT COUNT( * ) FROM enrollment WHERE section_id = sid
    AND enrollment_status = 'Enrolled']. *)
Definition current_enrollment (db : database) (sid : Z) : Z :=
  Z.of_nat (List.length (filter
    (fun e => (e_section_id e =? sid) && status_eqb (e_enrollment_status e) Enrolled)
    (enrollment db))).

(** *** Triggers *)

(** [before_waitlist_insert]: [NEW.position] is overwritten with
    [COALESCE(MAX(position), 0) + 1] over the rows of [NEW.section_id].
    [next_position] is declared INT: a value above [INT_MAX] is an
    out-of-range error. *)
Definition before_waitlist_insert (db : database) (NEW : waitlist_row)
  : result waitlist_row :=
  let next_position :=
    COALESCE (sql_max (section_positions db (w_section_id NEW))) 0 + 1 in
  if next_position >? INT_MAX then Err (OutOfRange "next_position")
  else Ok {| w_waitlist_id := w_waitlist_id NEW;
             w_section_id := w_section_id NEW;
             w_student_id := w_student_id NEW;
             w_position := next_position |}.

(** [before_enrollment_insert]: signals SQLSTATE 45000 when the count of
    'Enrolled' rows of the section is at least its capacity.  When no
    section row answers, [section_capacity] stays NULL, the comparison is
    NULL and the IF is not taken. *)
Definition before_enrollment_insert (db : database) (NEW : enrollment_row)
  : result unit :=
  match section_capacity db (e_section_id NEW) with
  | Some section_capacity =>
      if current_enrollment db (e_section_id NEW) >=? section_capacity
      then Err (Signal "45000" "Section is at full capacity")
      else Ok tt
  | None => Ok tt
  end.

(** The row source of both audit triggers:
    [SELECT u.user_id FROM student_profile sp
     JOIN user_account u ON sp.user_id = u.user_id
     WHERE sp.student_id = student_id]. *)
Definition audit_users (db : database) (student_id : Z) : list Z :=
  flat_map
    (fun sp => map ua_user_id
       (filter (fun u => sp_user_id sp =? ua_user_id u) (user_account db)))
    (filter (fun sp => sp_student_id sp =? student_id) (student_profile db)).

(** [INSERT INTO audit_log (user_id, action_type, object_type, object_id,
    details)] of one row, with the next [audit_id]. *)
Definition insert_audit (db : database) (user_id : Z)
    (action_type object_type : string) (object_id : Z)
    (details : json_details) : database :=
  {| user_account := user_account db;
     student_profile := student_profile db;
     section := section db;
     enrollment := enrollment db;
     waitlist := waitlist db;
     audit_log := audit_log db ++
       [{| a_audit_id := next_audit_id db;
           a_user_id := user_id;
           a_action_type := action_type;
           a_object_type := object_type;
           a_object_id := object_id;
           a_details := details |}];
     next_enrollment_id := next_enrollment_id db;
     next_waitlist_id := next_waitlist_id db;
     next_audit_id := next_audit_id db + 1 |}.

(** [after_enrollment_insert]: one ENROLLMENT_CREATE row per row of the
    join. *)
Definition after_enrollment_insert (db : database) (NEW : enrollment_row)
  : database :=
  fold_left
    (fun d user_id =>
       insert_audit d user_id "ENROLLMENT_CREATE" "enrollment"
         (e_enrollment_id NEW)
         (json_create (e_section_id NEW) (e_enrollment_status NEW)))
    (audit_users db (e_student_id NEW)) db.

(** [after_enrollment_update]: one ENROLLMENT_UPDATE row per row of the
    join, carrying the old and the new status. *)
Definition after_enrollment_update (db : database) (OLD NEW : enrollment_row)
  : database :=
  fold_left
    (fun d user_id =>
       insert_audit d user_id "ENROLLMENT_UPDATE" "enrollment"
         (e_enrollment_id NEW)
         (json_update (e_enrollment_status OLD) (e_enrollment_status NEW)))
    (audit_users db (e_student_id NEW)) db.

(** *** Statements *)

Definition set_enrollment (db : database) (rows : list enrollment_row)
    (next : Z) : database :=
  {| user_account := user_account db;
     student_profile := student_profile db;
     section := section db;
     enrollment := rows;
     waitlist := waitlist db;
     audit_log := audit_log db;
     next_enrollment_id := next;
     next_waitlist_id := next_waitlist_id db;
     next_audit_id := next_audit_id db |}.

Definition set_waitlist (db : database) (rows : list waitlist_row)
    (next : Z) : database :=
  {| user_account := user_account db;
     student_profile := student_profile db;
     section := section db;
     enrollment := enrollment db;
     waitlist := rows;
     audit_log := audit_log db;
     next_enrollment_id := next_enrollment_id db;
     next_waitlist_id := next;
     next_audit_id := next_audit_id db |}.

Definition student_exists (db : database) (student_id : Z) : bool :=
  existsb (fun sp => sp_student_id sp =? student_id) (student_profile db).

Definition section_exists (db : database) (section_id : Z) : bool :=
  existsb (fun s => s_section_id s =? section_id) (section db).

Definition same_enrollment (student_id section_id : Z) (e : enrollment_row)
  : bool :=
  (e_student_id e =? student_id) && (e_section_id e =? section_id).

Definition same_waitlist (section_id student_id : Z) (w : waitlist_row)
  : bool :=
  (w_section_id w =? section_id) && (w_student_id w =? student_id).

(** [INSERT INTO enrollment (student_id, section_id, enrollment_status)]:
    the BEFORE trigger, the two foreign keys, the unique key
    [unique_enrollment (student_id, section_id)], the row with the next
    [enrollment_id], the AFTER trigger. *)
Definition insert_enrollment (db : database)
    (student_id section_id : Z) (status : enrollment_status)
  : result database :=
  let NEW := {| e_enrollment_id := 0;
                e_student_id := student_id;
                e_section_id := section_id;
                e_enrollment_status := status |} in
  _ <- before_enrollment_insert db NEW ;;
  if negb (student_exists db student_id) then Err (ForeignKeyFails "student_profile")
  else if negb (section_exists db section_id) then Err (ForeignKeyFails "section")
  else if existsb (same_enrollment student_id section_id) (enrollment db)
  then Err (DuplicateEntry "unique_enrollment")
  else
    let row := {| e_enrollment_id := next_enrollment_id db;
                  e_student_id := student_id;
                  e_section_id := section_id;
                  e_enrollment_status := status |} in
    Ok (after_enrollment_insert
          (set_enrollment db (enrollment db ++ [row]) (next_enrollment_id db + 1))
          row).

Definition set_status (e : enrollment_row) (status : enrollment_status)
  : enrollment_row :=
  {| e_enrollment_id := e_enrollment_id e;
     e_student_id := e_student_id e;
     e_section_id := e_section_id e;
     e_enrollment_status := status |}.

(** [UPDATE enrollment SET enrollment_status = status
     WHERE student_id = .. AND section_id = ..]: the only trigger on UPDATE
    is [after_enrollment_update]; MySQL fires it for each row the
    statement matches, whether or not the row's values change.  The
    trigger reads no table the statement writes, so the rows are rewritten
    first and the trigger is then run per matched row.  No trigger checks
    the capacity here. *)
Definition update_enrollment_status (db : database)
    (student_id section_id : Z) (status : enrollment_status)
  : result database :=
  let matched := filter (same_enrollment student_id section_id) (enrollment db) in
  let rows :=
    map (fun e => if same_enrollment student_id section_id e
                  then set_status e status else e) (enrollment db) in
  Ok (fold_left
        (fun d OLD => after_enrollment_update d OLD (set_status OLD status))
        matched
        (set_enrollment db rows (next_enrollment_id db))).

(** [INSERT INTO waitlist (section_id, student_id, position)]: the BEFORE
    trigger, the two foreign keys, the unique key
    [unique_waitlist (section_id, student_id)], the row with the next
    [waitlist_id].  No AFTER trigger is defined on [waitlist]. *)
Definition insert_waitlist (db : database)
    (section_id student_id position : Z) : result database :=
  NEW <- before_waitlist_insert db
           {| w_waitlist_id := 0;
              w_section_id := section_id;
              w_student_id := student_id;
              w_position := position |} ;;
  if negb (section_exists db section_id) then Err (ForeignKeyFails "section")
  else if negb (student_exists db student_id) then Err (ForeignKeyFails "student_profile")
  else if existsb (same_waitlist section_id student_id) (waitlist db)
  then Err (DuplicateEntry "unique_waitlist")
  else
    Ok (set_waitlist db
          (waitlist db ++
             [{| w_waitlist_id := next_waitlist_id db;
                 w_section_id := w_section_id NEW;
                 w_student_id := w_student_id NEW;
                 w_position := w_position NEW |}])
          (next_waitlist_id db + 1)).

(** [DELETE FROM waitlist WHERE section_id = .. AND student_id = ..]: no
    trigger is defined on DELETE; the matched rows go and nothing else
    changes. *)
Definition delete_waitlist (db : database) (section_id student_id : Z)
  : result database :=
  Ok (set_waitlist db
        (filter (fun w => negb (same_waitlist section_id student_id w))
                (waitlist db))
        (next_waitlist_id db)).

Inductive statement : Set :=
  | InsertEnrollment (student_id section_id : Z) (status : enrollment_status)
  | UpdateEnrollmentStatus (student_id section_id : Z) (status : enrollment_status)
  | InsertWaitlist (section_id student_id position : Z)
  | DeleteWaitlist (section_id student_id : Z).

Definition exec (db : database) (st : statement) : result database :=
  match st with
  | InsertEnrollment a s status => insert_enrollment db a s status
  | UpdateEnrollmentStatus a s status => update_enrollment_status db a s status
  | InsertWaitlist s a p => insert_waitlist db s a p
  | DeleteWaitlist s a => delete_waitlist db s a
  end.

(** A failed statement is rolled back: the database stays as it was. *)
Definition step (db : database) (st : statement) : database :=
  match exec db st with
  | Ok db' => db'
  | Err _ => db
  end.

Definition run (db : database) (stmts : list statement) : database :=
  fold_left step stmts db.

End Schema.

(* ====================================================================== *)
(** ** The client's in-memory database and its handlers                    *)
(* ====================================================================== *)

Module App.

Open Scope string_scope.

(** Records of the object [initializeDatabase] returns.  Every [id] field
    is prefixed by its record, since one module cannot hold two fields of
    the same name.  Of a user only the fields the handlers below can reach
    are kept. *)
Record user : Set :=
  { u_id : Z; email : string; username : string; name : string;
    role : string }.

Record department_row : Set :=
  { d_id : Z; d_name : string; d_code : string }.

Record course : Set :=
  { c_id : Z;
    code : string;
    title : string;
    credits : Z;
    department : string;
    description : string;
    capacity : Z;
    enrolled : Z;
    prerequisites : list string }.

Record enrollment : Set :=
  { e_id : Z;
    studentId : Z;
    courseId : Z;
    status : string;
    enrolledDate : string }.

Record failed_login : Set :=
  { timestamp : string; f_username : string; ipAddress : string;
    reason : string }.

Record gallery_image : Set :=
  { g_id : Z; g_title : string; url : string; g_description : string }.

Record database : Set :=
  { users : list user;
    departments : list department_row;
    courses : list course;
    enrollments : list enrollment;
    failedLogins : list failed_login;
    galleryImages : list gallery_image }.

(** [setNotification({ message, type })] *)
Record notification_msg : Set :=
  { message : string; type : string }.

(** The two pieces of React state the handlers write: [db] and
    [notification].  A handler runs on the state of the latest render, so
    the [db] it reads and the [prev] its updater receives are the same
    value. *)
Record state : Set :=
  { db : database; notification : option notification_msg }.

Definition initializeDatabase : database :=
  {| users :=
       [ {| u_id := 1; email := "student@umgc.edu"; username := "johndoe";
            name := "John Doe"; role := "student" |};
         {| u_id := 2; email := "admin@umgc.edu"; username := "drsmith";
            name := "Dr. Smith"; role := "admin" |} ];
     departments :=
       [ {| d_id := 1; d_name := "Computer Science"; d_code := "CMSC" |};
         {| d_id := 2; d_name := "Mathematics"; d_code := "MATH" |} ];
     courses :=
       [ {| c_id := 1; code := "CMSC495"; title := "CS Capstone";
            credits := 3; department := "Computer Science";
            description := "Senior capstone";
            capacity := 30; enrolled := 18;
            prerequisites := ["CMSC330"] |};
         {| c_id := 2; code := "CMSC330"; title := "Programming Languages";
            credits := 3; department := "Computer Science";
            description := "Language concepts";
            capacity := 25; enrolled := 20;
            prerequisites := ["CMSC220"] |};
         {| c_id := 3; code := "CMSC220"; title := "Data Structures";
            credits := 3; department := "Computer Science";
            description := "Data structures";
            capacity := 30; enrolled := 22;
            prerequisites := ["CMSC210"] |};
         {| c_id := 4; code := "CMSC351"; title := "Algorithms";
            credits := 3; department := "Computer Science";
            description := "Algorithm design";
            capacity := 28; enrolled := 15;
            prerequisites := ["CMSC220"] |} ];
     enrollments :=
       [ {| e_id := 1; studentId := 1; courseId := 1;
            status := "enrolled"; enrolledDate := "2025-10-15" |} ];
     failedLogins := [];
     galleryImages :=
       [ {| g_id := 1; g_title := "Library";
            url := "https://images.unsplash.com/photo-1481627834876-b7833e8f5570?w=400";
            g_description := "UMGC Library" |};
         {| g_id := 2; g_title := "Computer Lab";
            url := "https://images.unsplash.com/photo-1498050108023-c5249f4df085?w=400";
            g_description := "Computing Facilities" |} ] |}.

(** [showNotification(message, type)]: sets the notification (the timer
    that clears it four seconds later is not part of the handlers'
    effect on [db]). *)
Definition showNotification (st : state) (message type : string) : state :=
  {| db := db st;
     notification := Some {| message := message; type := type |} |}.

(** [setDb((prev) => f(prev))] *)
Definition setDb (st : state) (f : database -> database) : state :=
  {| db := f (db st); notification := notification st |}.

(** [isEnrolled(courseId)]:
    [db.enrollments.some(e => e.studentId === currentUser.id &&
       e.courseId === courseId && e.status === "enrolled")] *)
Definition isEnrolled (d : database) (currentUser : user) (courseId : Z)
  : bool :=
  existsb
    (fun e => (studentId e =? u_id currentUser)%Z
              && (App.courseId e =? courseId)%Z
              && (status e =? "enrolled"))
    (enrollments d).

Definition set_enrolled (c : course) (n : Z) : course :=
  {| c_id := c_id c; code := code c; title := title c; credits := credits c;
     department := department c; description := description c;
     capacity := capacity c; enrolled := n;
     prerequisites := prerequisites c |}.

Definition set_status (e : enrollment) (s : string) : enrollment :=
  {| e_id := e_id e; studentId := studentId e; courseId := courseId e;
     status := s; enrolledDate := enrolledDate e |}.

(** [{ ...prev, enrollments: es, courses: cs }] *)
Definition set_enrollments_courses (prev : database)
    (es : list enrollment) (cs : list course) : database :=
  {| users := users prev;
     departments := departments prev;
     courses := cs;
     enrollments := es;
     failedLogins := failedLogins prev;
     galleryImages := galleryImages prev |}.

(** [handleEnroll(courseId)].  [today] stands for
    [new Date().toISOString().split("T")[0]].  The handler is wired to the
    student dashboard only, where [currentUser] is a logged-in user. *)
Definition handleEnroll (st : state) (currentUser : user) (today : string)
    (courseId : Z) : state :=
  match find (fun c => (c_id c =? courseId)%Z) (courses (db st)) with
  | None => st
  | Some course =>
      if (enrolled course >=? capacity course)%Z
      then showNotification st "Course full" "error"
      else
        showNotification
          (setDb st (fun prev =>
             set_enrollments_courses prev
               (enrollments prev ++
                  [ {| e_id := Z.of_nat (List.length (enrollments prev)) + 1;
                       studentId := u_id currentUser;
                       courseId := courseId;
                       status := "enrolled";
                       enrolledDate := today |} ])
               (map (fun c => if (c_id c =? courseId)%Z
                              then set_enrolled c (enrolled c + 1) else c)
                    (courses prev))))
          "Enrolled successfully" "success"
  end.

(** [handleDrop(courseId)] *)
Definition handleDrop (st : state) (currentUser : user) (courseId : Z)
  : state :=
  showNotification
    (setDb st (fun prev =>
       set_enrollments_courses prev
         (map (fun e => if (studentId e =? u_id currentUser)%Z
                           && (App.courseId e =? courseId)%Z
                        then set_status e "dropped" else e)
              (enrollments prev))
         (map (fun c => if (c_id c =? courseId)%Z
                        then set_enrolled c (enrolled c - 1) else c)
              (courses prev))))
    "Course dropped" "success".

(** The Enroll button of a recommended course:
    [<button onClick={() => onEnroll(course.id)}
             disabled={isEnrolled(course.id)}>];
    a disabled button delivers no click. *)
Definition recommended_enroll_click (st : state) (currentUser : user)
    (today : string) (c : course) : state :=
  if isEnrolled (db st) currentUser (c_id c) then st
  else handleEnroll st currentUser today (c_id c).

(** The Enroll button of the course catalogue:
    [disabled={isEnrolled(course.id) || course.enrolled >= course.capacity}]. *)
Definition catalog_enroll_click (st : state) (currentUser : user)
    (today : string) (c : course) : state :=
  if isEnrolled (db st) currentUser (c_id c)
     || (enrolled c >=? capacity c)%Z
  then st
  else handleEnroll st currentUser today (c_id c).

End App.

(* ====================================================================== *)
(** ** Properties stated over the two models                               *)
(* ====================================================================== *)

Module Props.

Import Schema.

(** Invariant 1: no section holds more 'Enrolled' rows than its capacity. *)
Definition capacity_respected (db : database) : Prop :=
  forall sid cap,
    section_capacity db sid = Some cap -> current_enrollment db sid <= cap.

(** The rows [current_enrollment] counts for a section. *)
Definition counted (sid : Z) (e : enrollment_row) : bool :=
  (e_section_id e =? sid) && status_eqb (e_enrollment_status e) Enrolled.

(** Statements that give a row the status 'Enrolled' without inserting
    it. *)
Definition sets_enrolled (st : statement) : bool :=
  match st with
  | UpdateEnrollmentStatus _ _ Enrolled => true
  | _ => false
  end.

Definition is_delete (st : statement) : bool :=
  match st with
  | DeleteWaitlist _ _ => true
  | _ => false
  end.

(** The positions [1; 2; ...; n]. *)
Definition one_to (n : nat) : list Z := map Z.of_nat (seq 1 n).

(** Invariant 3 for one section: its positions, in arrival order, are
    [1 .. N]. *)
Definition gapless (db : database) (sid : Z) : Prop :=
  section_positions db sid = one_to (List.length (section_positions db sid)).

Fixpoint distinct (l : list Z) : bool :=
  match l with
  | [] => true
  | x :: t => negb (existsb (Z.eqb x) t) && distinct t
  end.

(** The keys the audit triggers' join relies on: [student_id] and [user_id]
    are primary keys, and [student_profile.user_id] references
    [user_account]. *)
Definition keys_ok (db : database) : bool :=
  distinct (map sp_student_id (student_profile db))
  && distinct (map ua_user_id (user_account db))
  && forallb
       (fun sp => existsb (fun u => sp_user_id sp =? ua_user_id u)
                    (user_account db))
       (student_profile db).

(** The foreign key of [enrollment.student_id]. *)
Definition enrollment_students_ok (db : database) : bool :=
  forallb (fun e => student_exists db (e_student_id e)) (enrollment db).

(** Invariant 4 for one transition: exactly one row joins [audit_log]. *)
Definition audited_once (before after : database) : Prop :=
  exists r, audit_log after = audit_log before ++ [r].

(** What a promotion would look like on the tables: the lowest-position
    entry of the section is gone and its student holds an 'Enrolled' row. *)
Definition promoted (before after : database) (sid : Z) : Prop :=
  exists w,
    In w (waitlist before) /\ w_section_id w = sid /\
    (forall w', In w' (waitlist before) -> w_section_id w' = sid ->
                w_position w <= w_position w') /\
    ~ In w (waitlist after) /\
    exists e, In e (enrollment after) /\
              e_student_id e = w_student_id w /\ e_section_id e = sid /\
              e_enrollment_status e = Enrolled.

(** A small database: one section with a single seat, four students. *)
Definition one_seat : database :=
  {| user_account := [ {| ua_user_id := 11 |}; {| ua_user_id := 12 |};
                       {| ua_user_id := 13 |}; {| ua_user_id := 14 |} ];
     student_profile := [ {| sp_student_id := 1; sp_user_id := 11 |};
                          {| sp_student_id := 2; sp_user_id := 12 |};
                          {| sp_student_id := 3; sp_user_id := 13 |};
                          {| sp_student_id := 4; sp_user_id := 14 |} ];
     section := [ {| s_section_id := 1; s_capacity := 1;
                     s_status := Scheduled |} ];
     enrollment := [];
     waitlist := [];
     audit_log := [];
     next_enrollment_id := 1;
     next_waitlist_id := 1;
     next_audit_id := 1 |}.

(** Student 1 takes the seat, students 2 and 3 queue. *)
Definition one_seat_full : database :=
  run one_seat [ InsertEnrollment 1 1 Enrolled;
                 InsertWaitlist 1 2 0;
                 InsertWaitlist 1 3 0 ].

(** Student 1 enrols, drops, student 2 takes the seat, and student 1's row
    is set back to 'Enrolled'. *)
Definition reenrol_script : list statement :=
  [ InsertEnrollment 1 1 Enrolled;
    UpdateEnrollmentStatus 1 1 Dropped;
    InsertEnrollment 2 1 Enrolled;
    UpdateEnrollmentStatus 1 1 Enrolled ].

(** Three students queue, the first leaves. *)
Definition queue_script : list statement :=
  [ InsertWaitlist 1 1 0; InsertWaitlist 1 2 0; InsertWaitlist 1 3 0;
    DeleteWaitlist 1 1 ].

(** Client side: the first render, and the student of the seed data. *)
Definition first_render : App.state :=
  {| App.db := App.initializeDatabase; App.notification := None |}.

Definition johndoe : App.user :=
  {| App.u_id := 1; App.email := "student@umgc.edu";
     App.username := "johndoe"; App.name := "John Doe";
     App.role := "student" |}.

(** A student registered later ([id: db.users.length + 1]). *)
Definition newcomer (id : Z) : App.user :=
  {| App.u_id := id; App.email := "new@umgc.edu"; App.username := "newcomer";
     App.name := "New Comer"; App.role := "student" |}.

(** Five more students enrol in course 2 (capacity 25, 20 enrolled), which
    fills it. *)
Definition course2_full : App.state :=
  fold_left (fun st u => App.handleEnroll st u "2025-11-12" 2)
    [ newcomer 3; newcomer 4; newcomer 5; newcomer 6; newcomer 7 ]
    first_render.

(** The [enrolled] counter of the course [find] returns for an id. *)
Definition enrolled_counter (d : App.database) (courseId : Z) : option Z :=
  option_map App.enrolled
    (find (fun c => App.c_id c =? courseId) (App.courses d)).

(** The records of a pair, and the identity of each record (everything but
    its status). *)
Definition same_pair (u : App.user) (courseId : Z) (e : App.enrollment)
  : bool :=
  (App.studentId e =? App.u_id u) && (App.courseId e =? courseId).

Definition record_key (e : App.enrollment) : Z * Z * Z * string :=
  (App.e_id e, App.studentId e, App.courseId e, App.enrolledDate e).

Definition row_key (e : enrollment_row) : Z * Z * Z :=
  (e_enrollment_id e, e_student_id e, e_section_id e).

End Props.

(* ====================================================================== *)
(** ** Further invariants of the schema                                    *)
(* ====================================================================== *)

Module Invariants.

Import Schema.

(** The columns of [unique_enrollment (student_id, section_id)]. *)
Definition enrollment_key (e : enrollment_row) : Z * Z :=
  (e_student_id e, e_section_id e).

(** The columns of [unique_waitlist (section_id, student_id)]. *)
Definition waitlist_key (w : waitlist_row) : Z * Z :=
  (w_section_id w, w_student_id w).

(** Both unique keys hold of the tables. *)
Definition unique_keys (db : database) : Prop :=
  NoDup (map enrollment_key (enrollment db))
  /\ NoDup (map waitlist_key (waitlist db)).

(** Every section's positions, read in arrival order, are strictly
    increasing and start at 1 or above. *)
Definition queue_ordered (db : database) : Prop :=
  forall sid,
    StronglySorted Z.lt (section_positions db sid)
    /\ Forall (fun p => 1 <= p) (section_positions db sid).

End Invariants.

(* ====================================================================== *)
(** ** Requests served one after the other                                *)
(* ====================================================================== *)

Module Arrivals.

Import Schema.

(** What each statement of a script ends with when the script runs in
    order: [None] for an accepted statement, its error otherwise. *)
Fixpoint outcomes (db : database) (stmts : list statement)
  : list (option error) :=
  match stmts with
  | [] => []
  | st :: rest =>
      match exec db st with
      | Ok _ => None
      | Err e => Some e
      end :: outcomes (step db st) rest
  end.

(** [SIGNAL SQLSTATE '45000' SET MESSAGE_TEXT = 'Section is at full
    capacity'] of [before_enrollment_insert]. *)
Definition full_capacity : error :=
  Signal "45000" "Section is at full capacity".

(** One [INSERT INTO enrollment ... 'Enrolled'] per student, in the order
    the students arrive. *)
Definition enrol_requests (section_id : Z) (students : list Z)
  : list statement :=
  map (fun a => InsertEnrollment a section_id Enrolled) students.

(** One [INSERT INTO waitlist] per student, in the order given; the
    position each statement supplies is immaterial. *)
Definition waitlist_requests (section_id : Z) (students : list Z)
  : list statement :=
  map (fun a => InsertWaitlist section_id a 0) students.

(** The rows of one section's waitlist, in arrival order. *)
Definition section_queue (db : database) (sid : Z) : list waitlist_row :=
  filter (fun w => w_section_id w =? sid) (waitlist db).

(** The six orders in which students 1, 2 and 3 can arrive. *)
Definition three_arrivals : list (list Z) :=
  [ [1; 2; 3]; [1; 3; 2]; [2; 1; 3]; [2; 3; 1]; [3; 1; 2]; [3; 2; 1] ].

End Arrivals.

(* ====================================================================== *)
(** ** JavaScript string built-ins the client relies on                    *)
(* ====================================================================== *)

(** A JavaScript string is modelled as a [string] whose characters are the
    code units 0..255: the strings [btoa] accepts. *)
Module Text.

Local Open Scope string_scope.

Definition code (c : ascii) : nat := nat_of_ascii c.

Definition chars (s : string) : list ascii := list_ascii_of_string s.

(** [s.includes(t)] *)
Fixpoint includes (s t : string) : bool :=
  prefix t s
  || match s with
     | EmptyString => false
     | String _ s' => includes s' t
     end.

(** [c.toLowerCase()] on one code unit: A-Z and the capital letters
    U+00C0..U+00DE (but the multiplication sign U+00D7) move up by 32. *)
Definition lower_char (c : ascii) : ascii :=
  let n := code c in
  if ((65 <=? n) && (n <=? 90))%nat
     || ((192 <=? n) && (n <=? 222) && negb (n =? 215))%nat
  then ascii_of_nat (n + 32)
  else c.

(** [s.toLowerCase()] *)
Fixpoint toLowerCase (s : string) : string :=
  match s with
  | EmptyString => EmptyString
  | String c s' => String (lower_char c) (toLowerCase s')
  end.

(** Character classes of the regular expressions. *)
Definition is_upper (c : ascii) : bool := ((65 <=? code c) && (code c <=? 90))%nat.
Definition is_lower (c : ascii) : bool := ((97 <=? code c) && (code c <=? 122))%nat.
Definition is_digit (c : ascii) : bool := ((48 <=? code c) && (code c <=? 57))%nat.

(** The class of special characters: ! @ # $ % ^ & * ( ) , . ? : { } | < >
    and the double quote (code unit 34). *)
Definition is_special (c : ascii) : bool :=
  existsb (Ascii.eqb c) (chars "!@#$%^&*(),.?:{}|<>")
  || Ascii.eqb c (ascii_of_nat 34).

(** [[a-zA-Z0-9_]] *)
Definition is_word (c : ascii) : bool :=
  is_upper c || is_lower c || is_digit c || Ascii.eqb c "_".

(** [\s] among the code units 0..255: tab, line feed, vertical tab, form
    feed, carriage return, space and the no-break space. *)
Definition is_space (c : ascii) : bool :=
  existsb (Nat.eqb (code c)) [9; 10; 11; 12; 13; 32; 160]%nat.

(** [[^\s@]] *)
Definition is_atom (c : ascii) : bool :=
  negb (is_space c) && negb (Ascii.eqb c "@").

(** [/[class]/.test(s)]: some character of [s] is in the class. *)
Definition test_some (class : ascii -> bool) (s : string) : bool :=
  existsb class (chars s).

(** [cls+ k]: one or more characters of the class, then whatever [k]
    accepts; every split is tried. *)
Fixpoint plus (class : ascii -> bool) (k : string -> bool) (s : string)
  : bool :=
  match s with
  | EmptyString => false
  | String c r => class c && (k r || plus class k r)
  end.

(** One literal character, then [k]. *)
Definition lit (c : ascii) (k : string -> bool) (s : string) : bool :=
  match s with
  | EmptyString => false
  | String c' r => Ascii.eqb c' c && k r
  end.

(** [$] *)
Definition at_end (s : string) : bool :=
  match s with
  | EmptyString => true
  | String _ _ => false
  end.

(** [/^[^\s@]+@[^\s@]+\.[^\s@]+$/.test(s)] *)
Definition email_regex (s : string) : bool :=
  plus is_atom (lit "@" (plus is_atom (lit "." (plus is_atom at_end)))) s.

(** [/^[a-zA-Z0-9_]{3,20}$/.test(s)] *)
Definition username_regex (s : string) : bool :=
  ((3 <=? String.length s) && (String.length s <=? 20))%nat
  && forallb is_word (chars s).

(** *** [btoa] *)

(** Six bits, most significant first. *)
Definition sextet : Set := (bool * bool * bool * bool * bool * bool)%type.

Definition sextet_index (s : sextet) : nat :=
  let '(b5, b4, b3, b2, b1, b0) := s in
  (Nat.b2n b5 * 32 + Nat.b2n b4 * 16 + Nat.b2n b3 * 8
   + Nat.b2n b2 * 4 + Nat.b2n b1 * 2 + Nat.b2n b0)%nat.

Definition base64_alphabet : string :=
  "ABCDEFGHIJKLMNOPQRSTUVWXYZabcdefghijklmnopqrstuvwxyz0123456789+/".

Definition base64_char (s : sextet) : ascii :=
  nth (sextet_index s) (chars base64_alphabet) "="%char.

(** [btoa(s)]: every three code units give four characters; one or two
    left-over units are padded with zero bits and [=].  ([Ascii] lists the
    bits of a code unit least significant first.)  A [string] holds code
    units 0 to 255, the inputs on which [btoa] returns; on a higher code
    unit it throws, which [Wide.btoa] adds. *)
Fixpoint btoa (s : string) : string :=
  match s with
  | EmptyString => EmptyString
  | String (Ascii a0 a1 a2 a3 a4 a5 a6 a7) EmptyString =>
      String (base64_char (a7, a6, a5, a4, a3, a2))
        (String (base64_char (a1, a0, false, false, false, false))
           "==")
  | String (Ascii a0 a1 a2 a3 a4 a5 a6 a7)
      (String (Ascii b0 b1 b2 b3 b4 b5 b6 b7) EmptyString) =>
      String (base64_char (a7, a6, a5, a4, a3, a2))
        (String (base64_char (a1, a0, b7, b6, b5, b4))
           (String (base64_char (b3, b2, b1, b0, false, false))
              "="))
  | String (Ascii a0 a1 a2 a3 a4 a5 a6 a7)
      (String (Ascii b0 b1 b2 b3 b4 b5 b6 b7)
         (String (Ascii c0 c1 c2 c3 c4 c5 c6 c7) r)) =>
      String (base64_char (a7, a6, a5, a4, a3, a2))
        (String (base64_char (a1, a0, b7, b6, b5, b4))
           (String (base64_char (b3, b2, b1, b0, c7, c6))
              (String (base64_char (c5, c4, c3, c2, c1, c0))
                 (btoa r))))
  end.

(** The sextet a base-64 character stands for (none for the padding
    character). *)
Definition base64_sextet (c : ascii) : option sextet :=
  find (fun s => Ascii.eqb (base64_char s) c)
    (map (fun n =>
            (Nat.testbit n 5, Nat.testbit n 4, Nat.testbit n 3,
             Nat.testbit n 2, Nat.testbit n 1, Nat.testbit n 0))
         (seq 0 64)).

End Text.

(* ====================================================================== *)
(** ** The rest of the client: accounts, listings, the admin's courses     *)
(* ====================================================================== *)

Module Client.

Local Open Scope string_scope.

(** A user object with the fields [handleLogin], [handleRegister] and
    [getCourseRecommendations] read or write; [undefined] and [null] are
    [None].  ([currentGPA], a float no handler reads, and the seed data's
    [year], [employeeId] and [department] are left out.) *)
Record account : Set :=
  { id : Z;
    email : string;
    username : string;
    password : string;
    name : string;
    role : string;
    createdAt : string;
    lastLogin : option string;
    studentNumber : option string;
    major : option string;
    completedCourses : option (list string) }.

(** The [db] object with full user objects. *)
Record store : Set :=
  { users : list account;
    departments : list App.department_row;
    courses : list App.course;
    enrollments : list App.enrollment;
    failedLogins : list App.failed_login;
    galleryImages : list App.gallery_image }.

(** The React state of [App]: [db], [currentUser], [view] and
    [notification]. *)
Record session : Set :=
  { db : store;
    currentUser : option account;
    view : string;
    notification : option App.notification_msg }.

(** What the enrollment handlers see of a user and of [db]. *)
Definition to_user (a : account) : App.user :=
  {| App.u_id := id a; App.email := email a; App.username := username a;
     App.name := name a; App.role := role a |}.

Definition to_database (d : store) : App.database :=
  {| App.users := map to_user (users d);
     App.departments := departments d;
     App.courses := courses d;
     App.enrollments := enrollments d;
     App.failedLogins := failedLogins d;
     App.galleryImages := galleryImages d |}.

(** *** Passwords *)

Definition COMMON_PASSWORDS : list string :=
  [ "password"; "123456"; "12345678"; "qwerty"; "abc123"; "monkey" ].

(** ["$2b$10$" + btoa(password).substring(0, 53)] *)
Definition hashPassword (password : string) : string :=
  "$2b$10$" ++ substring 0 53 (Text.btoa password).

(** [hashPassword(password) === hash] *)
Definition verifyPassword (password hash : string) : bool :=
  hashPassword password =? hash.

(** [validatePassword(password)]: the errors, in the order they are
    pushed. *)
Definition validatePassword (password : string) : list string :=
  (if (String.length password <? 12)%nat then ["Min 12 characters"] else [])
  ++ (if negb (Text.test_some Text.is_upper password)
      then ["Uppercase required"] else [])
  ++ (if negb (Text.test_some Text.is_lower password)
      then ["Lowercase required"] else [])
  ++ (if negb (Text.test_some Text.is_digit password)
      then ["Number required"] else [])
  ++ (if negb (Text.test_some Text.is_special password)
      then ["Special char required"] else [])
  ++ (if existsb (fun c => Text.includes (Text.toLowerCase password) c)
           COMMON_PASSWORDS
      then ["Too common"] else []).

(** *** Logging in and registering *)

Definition showNotification (st : session) (message type : string)
  : session :=
  {| db := db st; currentUser := currentUser st; view := view st;
     notification := Some {| App.message := message; App.type := type |} |}.

Definition setDb (st : session) (f : store -> store) : session :=
  {| db := f (db st); currentUser := currentUser st; view := view st;
     notification := notification st |}.

(** [{ ...prev, failedLogins: l }] *)
Definition set_failedLogins (prev : store) (l : list App.failed_login)
  : store :=
  {| users := users prev; departments := departments prev;
     courses := courses prev; enrollments := enrollments prev;
     failedLogins := l; galleryImages := galleryImages prev |}.

(** [{ ...prev, users: l }] *)
Definition set_users (prev : store) (l : list account) : store :=
  {| users := l; departments := departments prev;
     courses := courses prev; enrollments := enrollments prev;
     failedLogins := failedLogins prev; galleryImages := galleryImages prev |}.

(** [handleLogin(username, password)]; [now] stands for
    [new Date().toISOString()]. *)
Definition handleLogin (st : session) (now : string)
    (username password : string) : session :=
  let user :=
    find (fun u => (Client.username u =? username) || (email u =? username))
         (users (db st)) in
  match user with
  | Some u =>
      if verifyPassword password (Client.password u)
      then
        showNotification
          {| db := db st;
             currentUser := Some u;
             view := if role u =? "admin" then "admin" else "dashboard";
             notification := notification st |}
          ("Welcome " ++ name u ++ "!") "success"
      else
        showNotification
          (setDb st (fun prev =>
             set_failedLogins prev
               (failedLogins prev ++
                  [ {| App.timestamp := now; App.f_username := username;
                       App.ipAddress := "192.168.1.100";
                       App.reason := "Invalid password" |} ])))
          "Invalid credentials" "error"
  | None =>
      showNotification
        (setDb st (fun prev =>
           set_failedLogins prev
             (failedLogins prev ++
                [ {| App.timestamp := now; App.f_username := username;
                     App.ipAddress := "192.168.1.100";
                     App.reason := "User not found" |} ])))
        "Invalid credentials" "error"
  end.

(** The [userData] object of the registration form. *)
Record registration : Set :=
  { r_email : string;
    r_username : string;
    r_password : string;
    r_confirmPassword : string;
    r_name : string;
    r_role : string }.

(** ["S" + (10000 + db.users.length)] *)
Definition student_number (n : nat) : string :=
  "S" ++ NilEmpty.string_of_uint (N.to_uint (10000 + N.of_nat n)).

(** The [newUser] object; [role || "student"] takes the empty string for
    "student", while the student fields test [role] itself. *)
Definition newUser (d : store) (now : string) (userData : registration)
  : account :=
  {| id := Z.of_nat (List.length (users d)) + 1;
     email := r_email userData;
     username := r_username userData;
     password := hashPassword (r_password userData);
     name := r_name userData;
     role := if r_role userData =? EmptyString then "student" else r_role userData;
     createdAt := now;
     lastLogin := None;
     studentNumber :=
       if r_role userData =? "student"
       then Some (student_number (List.length (users d))) else None;
     major := if r_role userData =? "student" then Some "Undeclared" else None;
     completedCourses :=
       if r_role userData =? "student" then Some [] else None |}.

(** [handleRegister(userData)]: the next state and the boolean it
    returns. *)
Definition handleRegister (st : session) (now : string)
    (userData : registration) : session * bool :=
  if negb (Text.email_regex (r_email userData))
  then (showNotification st "Invalid email" "error", false)
  else if negb (Text.username_regex (r_username userData))
  then (showNotification st "Invalid username" "error", false)
  else if existsb (fun u => email u =? r_email userData) (users (db st))
  then (showNotification st "Email exists" "error", false)
  else if existsb (fun u => username u =? r_username userData) (users (db st))
  then (showNotification st "Username taken" "error", false)
  else
    match validatePassword (r_password userData) with
    | first_error :: _ => (showNotification st first_error "error", false)
    | [] =>
        if negb (r_password userData =? r_confirmPassword userData)
        then (showNotification st "Passwords mismatch" "error", false)
        else
          (showNotification
             (setDb st (fun prev =>
                set_users prev (users prev ++ [newUser (db st) now userData])))
             "Registration successful!" "success",
           true)
    end.

(** *** Listings of the student dashboard *)

(** [getEnrolledCourses()]; [.filter(Boolean)] drops the records whose
    course [find] does not return. *)
Definition getEnrolledCourses (d : App.database)
    (currentUser : option App.user) : list App.course :=
  match currentUser with
  | None => []
  | Some u =>
      flat_map
        (fun found => match found with Some c => [c] | None => [] end)
        (map (fun e =>
                find (fun c => (App.c_id c =? App.courseId e)%Z)
                     (App.courses d))
             (filter (fun e => (App.studentId e =? App.u_id u)%Z
                               && (App.status e =? "enrolled"))
                     (App.enrollments d)))
  end.

(** [arr.slice(0, 3)] *)
Definition slice_0_3 {A : Type} (l : list A) : list A := firstn 3 l.

(** [getCourseRecommendations()]: each recommended course with its
    [reason]. *)
Definition getCourseRecommendations (d : App.database)
    (currentUser : option account) : list (App.course * string) :=
  match currentUser with
  | None => []
  | Some u =>
      if negb (role u =? "student") then []
      else
        let completed :=
          match completedCourses u with Some l => l | None => [] end in
        map (fun c =>
               (c, if (0 <? List.length (App.prerequisites c))%nat
                   then "Prerequisites met" else "Foundation course"))
          (slice_0_3
             (filter
                (fun c =>
                   negb (existsb
                           (fun e => (App.studentId e =? id u)%Z
                                     && (App.courseId e =? App.c_id c)%Z
                                     && (App.status e =? "enrolled"))
                           (App.enrollments d))
                   && forallb (fun p => existsb (String.eqb p) completed)
                        (App.prerequisites c)
                   && match major u with
                      | Some m => App.department c =? m
                      | None => false
                      end)
                (App.courses d)))
  end.

(** *** The admin panel's courses *)

(** The course form as [handleAddCourse] reads it: [cf_credits] and
    [cf_capacity] are the integers [parseInt] returns for the two numeric
    fields, [cf_prerequisites] the list the prerequisites field splits
    into (empty for an empty field). *)
Record courseForm : Set :=
  { cf_code : string;
    cf_title : string;
    cf_credits : Z;
    cf_department : string;
    cf_description : string;
    cf_capacity : Z;
    cf_prerequisites : list string }.

(** [{ ...prev, courses: cs }] *)
Definition set_courses (prev : App.database) (cs : list App.course)
  : App.database :=
  {| App.users := App.users prev;
     App.departments := App.departments prev;
     App.courses := cs;
     App.enrollments := App.enrollments prev;
     App.failedLogins := App.failedLogins prev;
     App.galleryImages := App.galleryImages prev |}.

Definition newCourse (d : App.database) (form : courseForm) : App.course :=
  {| App.c_id := Z.of_nat (List.length (App.courses d)) + 1;
     App.code := cf_code form;
     App.title := cf_title form;
     App.credits := cf_credits form;
     App.department := cf_department form;
     App.description := cf_description form;
     App.capacity := cf_capacity form;
     App.enrolled := 0;
     App.prerequisites := cf_prerequisites form |}.

(** [handleAddCourse()] (the form is reset afterwards, which touches no
    state modelled here). *)
Definition handleAddCourse (st : App.state) (form : courseForm) : App.state :=
  if (cf_code form =? EmptyString) || (cf_title form =? EmptyString)
     || (cf_department form =? EmptyString)
  then App.showNotification st "Fill all required fields" "error"
  else
    App.showNotification
      (App.setDb st (fun prev =>
         set_courses prev (App.courses prev ++ [newCourse (App.db st) form])))
      "Course added successfully" "success".

(** [handleDeleteCourse(courseId)] *)
Definition handleDeleteCourse (st : App.state) (courseId : Z) : App.state :=
  App.showNotification
    (App.setDb st (fun prev =>
       set_courses prev
         (filter (fun c => negb (App.c_id c =? courseId)%Z)
                 (App.courses prev))))
    "Course deleted" "success".

End Client.

(* ====================================================================== *)
(** ** Properties stated over the client                                   *)
(* ====================================================================== *)

Module ClientProps.

Import Client.
Local Open Scope string_scope.

(** [db.courses.find((c) => c.id === courseId)] *)
Definition lookup (d : App.database) (courseId : Z) : option App.course :=
  find (fun c => (App.c_id c =? courseId)%Z) (App.courses d).

(** The number of enrolled records of a course. *)
Definition enrolled_records (d : App.database) (courseId : Z) : Z :=
  Z.of_nat (List.length
    (filter (fun e => (App.courseId e =? courseId)%Z
                      && (App.status e =? "enrolled"))
            (App.enrollments d))).


(** The course ids are 1, 2, ..., n in list order. *)
Definition course_ids_sequential (d : App.database) : Prop :=
  map App.c_id (App.courses d)
  = Props.one_to (List.length (App.courses d)).

(** What registration maintains about the accounts: ids 1..n in list
    order, well-formed e-mail addresses and usernames, and no address or
    username held twice. *)
Definition accounts_ok (d : store) : Prop :=
  map id (users d) = Props.one_to (List.length (users d))
  /\ Forall (fun u => Text.email_regex (email u) = true) (users d)
  /\ Forall (fun u => Text.username_regex (username u) = true) (users d)
  /\ NoDup (map email (users d))
  /\ NoDup (map username (users d)).

(** The two seeded accounts. *)
Definition johndoe : account :=
  {| id := 1; email := "student@umgc.edu"; username := "johndoe";
     password := hashPassword "StudentPass123!"; name := "John Doe";
     role := "student"; createdAt := "2025-10-01";
     lastLogin := Some "2025-11-10";
     studentNumber := Some "S12345";
     major := Some "Computer Science";
     completedCourses := Some ["CMSC210"; "CMSC215"] |}.

Definition drsmith : account :=
  {| id := 2; email := "admin@umgc.edu"; username := "drsmith";
     password := hashPassword "AdminPass123!"; name := "Dr. Smith";
     role := "admin"; createdAt := "2025-09-15";
     lastLogin := Some "2025-11-10";
     studentNumber := None; major := None; completedCourses := None |}.

(** [initializeDatabase()] with its full user objects. *)
Definition initializeDatabase : store :=
  {| users := [johndoe; drsmith];
     departments := App.departments App.initializeDatabase;
     courses := App.courses App.initializeDatabase;
     enrollments := App.enrollments App.initializeDatabase;
     failedLogins := App.failedLogins App.initializeDatabase;
     galleryImages := App.galleryImages App.initializeDatabase |}.

(** The state of the first render: nobody logged in, the login view. *)
Definition first_render : session :=
  {| db := initializeDatabase; currentUser := None; view := "login";
     notification := None |}.

(** A registration form as a new student fills it. *)
Definition jane_form : registration :=
  {| r_email := "jane@umgc.edu"; r_username := "jane_roe";
     r_password := "Correct.Horse.42!"; r_confirmPassword := "Correct.Horse.42!";
     r_name := "Jane Roe"; r_role := "student" |}.

(** A password of 44 characters and another that differs from it after
    the 40th. *)
Definition long_password : string :=
  "Correct-Horse-Battery-Staple-2025-November!!".

Definition other_long_password : string :=
  "Correct-Horse-Battery-Staple-2025-Novembxyz".

Definition long_form : registration :=
  {| r_email := "lena@umgc.edu"; r_username := "lena";
     r_password := long_password; r_confirmPassword := long_password;
     r_name := "Lena Long"; r_role := "student" |}.

(** A course form as the admin fills it. *)
Definition capstone2_form : courseForm :=
  {| cf_code := "CMSC498"; cf_title := "Special Topics"; cf_credits := 3;
     cf_department := "Computer Science"; cf_description := "Topics";
     cf_capacity := 20; cf_prerequisites := ["CMSC330"] |}.

End ClientProps.

(* ====================================================================== *)
(** ** Passwords with code units above 255                                *)
(* ====================================================================== *)

(** A [string] holds code units 0 to 255 only, the inputs on which the
    browser's [btoa] returns.  On any other input [btoa] throws
    [InvalidCharacterError]; nothing in [App] catches it, so the handler
    that called it stops there.  This module gives the password its full
    range of UTF-16 code units and the throw its own outcome. *)
Module Wide.

Import Client.
Local Open Scope string_scope.

(** A JavaScript string as the sequence of its UTF-16 code units. *)
Definition text : Set := list N.

(** A [string] read as such a sequence. *)
Definition widen (s : string) : text :=
  map N_of_ascii (list_ascii_of_string s).

(** The same characters as a [string], when every code unit is below
    256. *)
Definition narrow (s : text) : option string :=
  if forallb (fun c => (c <? 256)%N) s
  then Some (string_of_list_ascii (map ascii_of_N s))
  else None.

(** [btoa(s)]; [None] is the [InvalidCharacterError] thrown on a code unit
    above 255. *)
Definition btoa (s : text) : option string :=
  option_map Text.btoa (narrow s).

(** ["$2b$10$" + btoa(password).substring(0, 53)] *)
Definition hashPassword (password : text) : option string :=
  option_map (fun b => "$2b$10$" ++ substring 0 53 b) (btoa password).

(** [hashPassword(password) === hash] *)
Definition verifyPassword (password : text) (hash : string) : option bool :=
  option_map (fun h => h =? hash) (hashPassword password).

(** [handleLogin(username, password)].  [!user || !verifyPassword(...)]
    calls [verifyPassword] only when a user was found; when it throws, no
    setter has run yet: [None], and the state stays as it was. *)
Definition handleLogin (st : session) (now username : string)
    (password : text) : option session :=
  let user :=
    find (fun u => (Client.username u =? username) || (email u =? username))
         (users (db st)) in
  match user with
  | Some u =>
      match verifyPassword password (Client.password u) with
      | None => None
      | Some true =>
          Some (showNotification
                  {| db := db st;
                     currentUser := Some u;
                     view := if role u =? "admin" then "admin"
                             else "dashboard";
                     notification := notification st |}
                  ("Welcome " ++ name u ++ "!") "success")
      | Some false =>
          Some (showNotification
                  (setDb st (fun prev =>
                     set_failedLogins prev
                       (failedLogins prev ++
                          [ {| App.timestamp := now;
                               App.f_username := username;
                               App.ipAddress := "192.168.1.100";
                               App.reason := "Invalid password" |} ])))
                  "Invalid credentials" "error")
      end
  | None =>
      Some (showNotification
              (setDb st (fun prev =>
                 set_failedLogins prev
                   (failedLogins prev ++
                      [ {| App.timestamp := now; App.f_username := username;
                           App.ipAddress := "192.168.1.100";
                           App.reason := "User not found" |} ])))
              "Invalid credentials" "error")
  end.

(** A password that starts with the euro sign, code unit 8364. *)
Definition euro_password : text :=
  8364%N :: widen "uro-Horse-42!".

(** The first 40 characters of [ClientProps.long_password], then the
    euro sign. *)
Definition euro_long_password : text :=
  (widen "Correct-Horse-Battery-Staple-2025-Novemb" ++ [8364%N])%list.

End Wide.

(* ====================================================================== *)
(** ** Facts about the schema                                              *)
(* ====================================================================== *)

Module SchemaFacts.

Import Schema Props.

(** *** What the audit triggers leave alone *)

Section AuditFold.

Variables (action_type object_type : string) (object_id : Z)
          (details : json_details).

Let log (d : database) (user_id : Z) : database :=
  insert_audit d user_id action_type object_type object_id details.

Lemma audit_fold_enrollment us db :
  enrollment (fold_left log us db) = enrollment db.
Proof. revert db; induction us as [|u us IH]; intros db; simpl; [|rewrite IH]; reflexivity. Qed.

Lemma audit_fold_waitlist us db :
  waitlist (fold_left log us db) = waitlist db.
Proof. revert db; induction us as [|u us IH]; intros db; simpl; [|rewrite IH]; reflexivity. Qed.

Lemma audit_fold_section us db :
  section (fold_left log us db) = section db.
Proof. revert db; induction us as [|u us IH]; intros db; simpl; [|rewrite IH]; reflexivity. Qed.

Lemma audit_fold_student_profile us db :
  student_profile (fold_left log us db) = student_profile db.
Proof. revert db; induction us as [|u us IH]; intros db; simpl; [|rewrite IH]; reflexivity. Qed.

Lemma audit_fold_user_account us db :
  user_account (fold_left log us db) = user_account db.
Proof. revert db; induction us as [|u us IH]; intros db; simpl; [|rewrite IH]; reflexivity. Qed.

End AuditFold.

(** *** Inversion of the statements *)

Lemma insert_enrollment_inv db a s status db' :
  insert_enrollment db a s status = Ok db' ->
  (forall cap, section_capacity db s = Some cap -> current_enrollment db s < cap)
  /\ student_exists db a = true
  /\ section_exists db s = true
  /\ existsb (same_enrollment a s) (enrollment db) = false
  /\ db' = after_enrollment_insert
             (set_enrollment db
                (enrollment db ++
                   [{| e_enrollment_id := next_enrollment_id db;
                       e_student_id := a; e_section_id := s;
                       e_enrollment_status := status |}])
                (next_enrollment_id db + 1))
             {| e_enrollment_id := next_enrollment_id db;
                e_student_id := a; e_section_id := s;
                e_enrollment_status := status |}.
Proof.
  unfold insert_enrollment, before_enrollment_insert, bind; simpl.
  intros H.
  assert (Hcap : forall cap, section_capacity db s = Some cap ->
                             current_enrollment db s < cap).
  { intros cap Hc. rewrite Hc in H.
    destruct (current_enrollment db s >=? cap) eqn:E; [discriminate|].
    rewrite Z.geb_leb in E. apply Z.leb_gt in E. exact E. }
  assert (H' :
    (if negb (student_exists db a) then Err (ForeignKeyFails "student_profile")
     else if negb (section_exists db s) then Err (ForeignKeyFails "section")
     else if existsb (same_enrollment a s) (enrollment db)
          then Err (DuplicateEntry "unique_enrollment")
          else Ok (after_enrollment_insert
             (set_enrollment db
                (enrollment db ++
                   [{| e_enrollment_id := next_enrollment_id db;
                       e_student_id := a; e_section_id := s;
                       e_enrollment_status := status |}])
                (next_enrollment_id db + 1))
             {| e_enrollment_id := next_enrollment_id db;
                e_student_id := a; e_section_id := s;
                e_enrollment_status := status |})) = Ok db').
  { destruct (section_capacity db s) as [cap|]; [|exact H].
    destruct (current_enrollment db s >=? cap); [discriminate|exact H]. }
  clear H.
  destruct (student_exists db a); simpl in H'; [|discriminate].
  destruct (section_exists db s); simpl in H'; [|discriminate].
  destruct (existsb (same_enrollment a s) (enrollment db)); [discriminate|].
  injection H' as <-. repeat split; auto.
Qed.

Lemma update_enrollment_status_inv db a s status db' :
  update_enrollment_status db a s status = Ok db' ->
  db' = fold_left
          (fun d OLD => after_enrollment_update d OLD (set_status OLD status))
          (filter (same_enrollment a s) (enrollment db))
          (set_enrollment db
             (map (fun e => if same_enrollment a s e
                            then set_status e status else e) (enrollment db))
             (next_enrollment_id db)).
Proof. unfold update_enrollment_status; intros H; injection H as <-; reflexivity. Qed.

(** The per-row audit triggers of an UPDATE leave every table but
    [audit_log] alone. *)
Lemma update_fold_tables status rows db :
  let db' := fold_left
      (fun d OLD => after_enrollment_update d OLD (set_status OLD status))
      rows db in
  enrollment db' = enrollment db /\ waitlist db' = waitlist db
  /\ section db' = section db /\ student_profile db' = student_profile db
  /\ user_account db' = user_account db.
Proof.
  revert db; induction rows as [|r rows IH]; intros db; simpl.
  - repeat split.
  - destruct (IH (after_enrollment_update db r (set_status r status)))
      as (He & Hw & Hs & Hp & Hu).
    unfold after_enrollment_update in He, Hw, Hs, Hp, Hu.
    rewrite audit_fold_enrollment in He. rewrite audit_fold_waitlist in Hw.
    rewrite audit_fold_section in Hs. rewrite audit_fold_student_profile in Hp.
    rewrite audit_fold_user_account in Hu.
    repeat split; assumption.
Qed.

(** No statement writes the [section] table. *)
Lemma step_section db st : section (step db st) = section db.
Proof.
  unfold step. destruct (exec db st) as [db'|e] eqn:E; [|reflexivity].
  destruct st as [a s status|a s status|s a p|s a]; simpl in E.
  - apply insert_enrollment_inv in E as (_ & _ & _ & _ & ->).
    unfold after_enrollment_insert. rewrite audit_fold_section. reflexivity.
  - apply update_enrollment_status_inv in E as ->.
    destruct (update_fold_tables status
                (filter (same_enrollment a s) (enrollment db))
                (set_enrollment db
                   (map (fun e => if same_enrollment a s e
                                  then set_status e status else e)
                        (enrollment db))
                   (next_enrollment_id db))) as (_ & _ & Hs & _).
    exact Hs.
  - unfold insert_waitlist, before_waitlist_insert, bind in E.
    destruct (_ >? INT_MAX); [discriminate|]. simpl in E.
    destruct (negb (section_exists db s)); [discriminate|].
    destruct (negb (student_exists db a)); [discriminate|].
    destruct (existsb _ _); [discriminate|].
    injection E as <-. reflexivity.
  - injection E as <-. reflexivity.
Qed.

Lemma section_capacity_ext db1 db2 sid :
  section db1 = section db2 ->
  section_capacity db1 sid = section_capacity db2 sid.
Proof. unfold section_capacity; intros ->; reflexivity. Qed.

Lemma current_enrollment_ext db1 db2 sid :
  enrollment db1 = enrollment db2 ->
  current_enrollment db1 sid = current_enrollment db2 sid.
Proof. unfold current_enrollment; intros ->; reflexivity. Qed.

(** *** Counting 'Enrolled' rows *)

Lemma count_after_insert rows row sid :
  Z.of_nat (List.length (filter (counted sid) (rows ++ [row])))
  = Z.of_nat (List.length (filter (counted sid) rows))
    + (if counted sid row then 1 else 0).
Proof.
  rewrite filter_app, length_app. simpl.
  destruct (counted sid row); simpl; lia.
Qed.

Lemma count_after_leaving rows a s status sid :
  status <> Enrolled ->
  (List.length (filter (counted sid)
     (map (fun e => if same_enrollment a s e then set_status e status else e)
          rows))
   <= List.length (filter (counted sid) rows))%nat.
Proof.
  intros Hst. induction rows as [|e rows IH]; simpl; [lia|].
  destruct (same_enrollment a s e).
  - assert (counted sid (set_status e status) = false) as ->.
    { unfold counted, set_status; simpl.
      destruct status; try (now rewrite andb_false_r). congruence. }
    destruct (counted sid e); simpl; lia.
  - destruct (counted sid e); simpl; lia.
Qed.

(** One statement that does not set a row to 'Enrolled' keeps the capacity
    bound. *)
Lemma step_capacity db st :
  sets_enrolled st = false ->
  capacity_respected db -> capacity_respected (step db st).
Proof.
  intros Hst Hinv sid cap Hcap.
  rewrite (section_capacity_ext _ db) in Hcap by apply step_section.
  specialize (Hinv sid cap Hcap).
  unfold step. destruct (exec db st) as [db'|e] eqn:E; [|exact Hinv].
  destruct st as [a s status|a s status|s a p|s a]; simpl in E.
  - apply insert_enrollment_inv in E as (Hfree & _ & _ & _ & ->).
    unfold after_enrollment_insert, current_enrollment.
    rewrite audit_fold_enrollment. simpl enrollment.
    change (fun e => (e_section_id e =? sid)
                     && status_eqb (e_enrollment_status e) Enrolled)
      with (counted sid).
    rewrite count_after_insert.
    unfold current_enrollment in Hinv, Hfree.
    change (fun e => (e_section_id e =? sid)
                     && status_eqb (e_enrollment_status e) Enrolled)
      with (counted sid) in Hinv.
    destruct (counted sid _) eqn:Ec; [|lia].
    unfold counted in Ec; simpl in Ec.
    apply andb_prop in Ec as [Es _]. apply Z.eqb_eq in Es. subst s.
    specialize (Hfree cap Hcap).
    change (fun e => (e_section_id e =? sid)
                     && status_eqb (e_enrollment_status e) Enrolled)
      with (counted sid) in Hfree.
    lia.
  - apply update_enrollment_status_inv in E as ->.
    match goal with |- current_enrollment (fold_left _ ?rows ?d) _ <= _ =>
      destruct (update_fold_tables status rows d) as (He & _) end.
    rewrite (current_enrollment_ext _ _ sid He).
    unfold current_enrollment in *. simpl enrollment.
    assert (status <> Enrolled) as Hne
      by (destruct status; simpl in Hst; congruence).
    pose proof (count_after_leaving (enrollment db) a s status sid Hne) as Hle.
    unfold counted in Hle at 1 2. lia.
  - unfold insert_waitlist, before_waitlist_insert, bind in E.
    destruct (_ >? INT_MAX); [discriminate|]. simpl in E.
    destruct (negb (section_exists db s)); [discriminate|].
    destruct (negb (student_exists db a)); [discriminate|].
    destruct (existsb _ _); [discriminate|].
    injection E as <-. exact Hinv.
  - injection E as <-. exact Hinv.
Qed.

Lemma run_capacity stmts db :
  forallb (fun st => negb (sets_enrolled st)) stmts = true ->
  capacity_respected db -> capacity_respected (run db stmts).
Proof.
  unfold run. revert db.
  induction stmts as [|st stmts IH]; intros db Hall Hinv; simpl; [exact Hinv|].
  simpl in Hall. apply andb_prop in Hall as [Hst Hall].
  apply IH; [exact Hall|].
  apply step_capacity; [|exact Hinv].
  now apply negb_true_iff.
Qed.

(** The BEFORE INSERT trigger turns away every insert into a full
    section. *)
Lemma insert_enrollment_full db a s status cap :
  section_capacity db s = Some cap ->
  cap <= current_enrollment db s ->
  insert_enrollment db a s status
  = Err (Signal "45000" "Section is at full capacity").
Proof.
  intros Hcap Hfull.
  unfold insert_enrollment, before_enrollment_insert, bind; simpl.
  rewrite Hcap.
  assert ((current_enrollment db s >=? cap) = true) as ->
    by (rewrite Z.geb_leb; apply Z.leb_le; exact Hfull).
  reflexivity.
Qed.

Lemma one_seat_capacity : capacity_respected one_seat.
Proof.
  intros sid cap. unfold section_capacity, current_enrollment, one_seat.
  cbn -[Z.eqb].
  destruct (1 =? sid); simpl; intros H; inversion H; lia.
Qed.

(** *** The waitlist *)

Lemma sql_max_spec l :
  match sql_max l with
  | None => l = []
  | Some m => In m l /\ forall x, In x l -> x <= m
  end.
Proof.
  induction l as [|a l IH]; simpl; [reflexivity|].
  destruct (sql_max l) as [m|].
  - destruct IH as [Hin Hmax]. split.
    + destruct (Z.max_spec a m) as [[_ ->]|[_ ->]]; auto.
    + intros x [<-|Hx]; [lia|]. specialize (Hmax x Hx). lia.
  - subst l. split; [now left|]. intros x [<-|[]]. lia.
Qed.

Lemma sql_max_snoc l x :
  sql_max (l ++ [x])
  = Some (match sql_max l with None => x | Some m => Z.max m x end).
Proof.
  induction l as [|a l IH]; simpl; [reflexivity|].
  rewrite IH. destruct (sql_max l) as [m|]; f_equal; lia.
Qed.

Lemma one_to_S n : one_to (S n) = one_to n ++ [Z.of_nat (S n)].
Proof. unfold one_to. rewrite seq_S, map_app. reflexivity. Qed.

Lemma length_one_to n : List.length (one_to n) = n.
Proof. unfold one_to. rewrite length_map. apply length_seq. Qed.

Lemma sql_max_one_to n :
  sql_max (one_to n)
  = match n with O => None | S _ => Some (Z.of_nat n) end.
Proof.
  induction n as [|n IH]; [reflexivity|].
  rewrite one_to_S, sql_max_snoc, IH.
  destruct n; [reflexivity|]. f_equal. lia.
Qed.

Lemma next_after_one_to n :
  COALESCE (sql_max (one_to n)) 0 + 1 = Z.of_nat (S n).
Proof. rewrite sql_max_one_to. destruct n; simpl COALESCE; lia. Qed.

Lemma insert_waitlist_inv db s a p db' :
  insert_waitlist db s a p = Ok db' ->
  COALESCE (sql_max (section_positions db s)) 0 + 1 <= INT_MAX
  /\ section_exists db s = true
  /\ student_exists db a = true
  /\ existsb (same_waitlist s a) (waitlist db) = false
  /\ db' = set_waitlist db
             (waitlist db ++
                [{| w_waitlist_id := next_waitlist_id db;
                    w_section_id := s;
                    w_student_id := a;
                    w_position :=
                      COALESCE (sql_max (section_positions db s)) 0 + 1 |}])
             (next_waitlist_id db + 1).
Proof.
  unfold insert_waitlist, before_waitlist_insert, bind; simpl.
  destruct (_ >? INT_MAX) eqn:E; [discriminate|]. simpl.
  destruct (section_exists db s); [|discriminate].
  destruct (student_exists db a); [|discriminate]. simpl.
  destruct (existsb _ _); [discriminate|].
  intros H; injection H as <-.
  repeat split; auto.
  rewrite Z.gtb_ltb in E. apply Z.ltb_ge in E. exact E.
Qed.

(** The insert goes through whenever the keys allow it and the next
    position fits an INT. *)
Lemma insert_waitlist_accepts db s a p :
  COALESCE (sql_max (section_positions db s)) 0 + 1 <= INT_MAX ->
  section_exists db s = true ->
  student_exists db a = true ->
  existsb (same_waitlist s a) (waitlist db) = false ->
  exists db', insert_waitlist db s a p = Ok db'.
Proof.
  intros Hmax Hs Ha Hdup.
  unfold insert_waitlist, before_waitlist_insert, bind; simpl.
  assert ((COALESCE (sql_max (section_positions db s)) 0 + 1 >? INT_MAX)
          = false) as ->
    by (rewrite Z.gtb_ltb; apply Z.ltb_ge; exact Hmax).
  simpl. rewrite Hs, Ha, Hdup. simpl. eexists; reflexivity.
Qed.

Lemma section_positions_In db sid m :
  In m (section_positions db sid)
  <-> exists w, In w (waitlist db) /\ w_section_id w = sid /\ w_position w = m.
Proof.
  unfold section_positions. rewrite in_map_iff. split.
  - intros (w & Hm & Hin). apply filter_In in Hin as [Hin Hs].
    apply Z.eqb_eq in Hs. exists w. repeat split; assumption.
  - intros (w & Hin & Hs & Hm). exists w. split; [exact Hm|].
    apply filter_In. split; [exact Hin|]. now apply Z.eqb_eq.
Qed.

(** C10: an insert into [waitlist] that stores a row stores it with
    position 1 + the highest position among the rows of the same section
    already in the table, 1 when the table holds no row of that section,
    whatever position the statement gave: any other supplied position
    yields the very same database. *)
Theorem waitlist_position_assigned db section_id student_id position db' :
  insert_waitlist db section_id student_id position = Ok db' ->
  exists row,
    waitlist db' = waitlist db ++ [row]
    /\ w_section_id row = section_id
    /\ w_student_id row = student_id
    /\ w_position row
       = 1 + COALESCE (sql_max (section_positions db section_id)) 0
    /\ ((forall w, In w (waitlist db) -> w_section_id w <> section_id) ->
        w_position row = 1)
    /\ (forall top,
          In top (waitlist db) ->
          w_section_id top = section_id ->
          (forall w, In w (waitlist db) -> w_section_id w = section_id ->
                     w_position w <= w_position top) ->
          w_position row = 1 + w_position top)
    /\ (forall supplied,
          insert_waitlist db section_id student_id supplied = Ok db').
Proof.
  intros H.
  assert (Hany : forall supplied,
             insert_waitlist db section_id student_id supplied = Ok db')
    by (intros supplied; exact H).
  apply insert_waitlist_inv in H as (_ & _ & _ & _ & ->).
  eexists. split; [reflexivity|]. cbn [w_section_id w_student_id w_position].
  pose proof (sql_max_spec (section_positions db section_id)) as Hs.
  repeat split.
  - lia.
  - intros Hnone.
    destruct (sql_max (section_positions db section_id)) as [m|];
      cbn [COALESCE]; [|reflexivity].
    destruct Hs as [Hin _].
    apply section_positions_In in Hin as (w & Hin & Hsec & _).
    now destruct (Hnone w Hin).
  - intros top Hin Hsec Htop.
    assert (Hpos : In (w_position top) (section_positions db section_id))
      by (apply section_positions_In; exists top; repeat split; assumption).
    destruct (sql_max (section_positions db section_id)) as [m|];
      cbn [COALESCE].
    + destruct Hs as [Hm Hmax]. specialize (Hmax _ Hpos).
      apply section_positions_In in Hm as (w & Hw & Hws & Hwm).
      specialize (Htop w Hw Hws). lia.
    + rewrite Hs in Hpos. destruct Hpos.
  - exact Hany.
Qed.

Lemma waitlist_position_assigned_witness :
  exists row,
    waitlist (step one_seat_full (InsertWaitlist 1 4 99))
    = waitlist one_seat_full ++ [row]
    /\ w_section_id row = 1
    /\ w_student_id row = 4
    /\ w_position row = 3
    /\ insert_waitlist one_seat_full 1 4 0
       = Ok (step one_seat_full (InsertWaitlist 1 4 99)).
Proof.
  destruct (waitlist_position_assigned one_seat_full 1 4 99
              (step one_seat_full (InsertWaitlist 1 4 99)) eq_refl)
    as (row & Hrows & Hsec & Hstu & _ & _ & Htop & Hany).
  exists row. split; [exact Hrows|]. split; [exact Hsec|].
  split; [exact Hstu|]. split; [|apply Hany].
  apply (Htop {| w_waitlist_id := 2; w_section_id := 1; w_student_id := 3;
                 w_position := 2 |}).
  - simpl. right. left. reflexivity.
  - reflexivity.
  - intros w Hin _. simpl in Hin.
    destruct Hin as [<-|[<-|[]]]; simpl; lia.
Defined.

(** Statements on [enrollment] leave the [waitlist] table alone. *)
Lemma step_waitlist_enrollment db st :
  match st with
  | InsertEnrollment _ _ _ | UpdateEnrollmentStatus _ _ _ =>
      waitlist (step db st) = waitlist db
  | _ => True
  end.
Proof.
  destruct st as [a s status|a s status|s a p|s a]; try exact I;
    unfold step; destruct (exec _ _) as [db'|e] eqn:E; try reflexivity;
    simpl in E.
  - apply insert_enrollment_inv in E as (_ & _ & _ & _ & ->).
    unfold after_enrollment_insert. rewrite audit_fold_waitlist. reflexivity.
  - apply update_enrollment_status_inv in E as ->.
    match goal with |- waitlist (fold_left _ ?rows ?d) = _ =>
      destruct (update_fold_tables status rows d) as (_ & Hw & _) end.
    exact Hw.
Qed.

Lemma positions_after_insert rows row sid :
  map w_position (filter (fun w => w_section_id w =? sid) (rows ++ [row]))
  = map w_position (filter (fun w => w_section_id w =? sid) rows)
    ++ (if w_section_id row =? sid then [w_position row] else []).
Proof.
  rewrite filter_app, map_app. simpl.
  destruct (w_section_id row =? sid); reflexivity.
Qed.

Lemma step_gapless db st :
  is_delete st = false ->
  (forall sid, gapless db sid) -> forall sid, gapless (step db st) sid.
Proof.
  intros Hst Hinv sid.
  pose proof (step_waitlist_enrollment db st) as Hw.
  destruct st as [a s status|a s status|s a p|s a].
  - unfold gapless, section_positions. rewrite Hw. apply Hinv.
  - unfold gapless, section_positions. rewrite Hw. apply Hinv.
  - clear Hw. unfold step.
    destruct (exec _ _) as [db'|e] eqn:E; [|apply Hinv]. simpl in E.
    apply insert_waitlist_inv in E as (_ & _ & _ & _ & ->).
    unfold gapless, section_positions. simpl waitlist.
    rewrite positions_after_insert. cbn [w_section_id w_position].
    destruct (Z.eqb_spec s sid) as [->|Hne];
      change (map w_position
                (filter (fun w => w_section_id w =? sid) (waitlist db)))
        with (section_positions db sid).
    + pose proof (Hinv sid) as H. unfold gapless in H.
      remember (List.length (section_positions db sid)) as n eqn:Hn.
      rewrite H, next_after_one_to, <- one_to_S, length_one_to.
      reflexivity.
    + rewrite app_nil_r. apply Hinv.
  - discriminate.
Qed.

Lemma run_gapless stmts db :
  forallb (fun st => negb (is_delete st)) stmts = true ->
  (forall sid, gapless db sid) -> forall sid, gapless (run db stmts) sid.
Proof.
  unfold run. revert db.
  induction stmts as [|st stmts IH]; intros db Hall Hinv; simpl; [exact Hinv|].
  simpl in Hall. apply andb_prop in Hall as [Hst Hall].
  apply IH; [exact Hall|].
  apply step_gapless; [|exact Hinv].
  now apply negb_true_iff.
Qed.

Lemma one_seat_gapless sid : gapless one_seat sid.
Proof. reflexivity. Qed.

(** C4, as amended: as long as no entry is removed, the positions of each
    section's waitlist entries, read in arrival order, are 1, 2, ..., N:
    the property holds of an empty waitlist and every statement other than
    a DELETE on [waitlist] keeps it. *)
Theorem waitlist_gapless_without_removal db stmts :
  (forall sid, gapless db sid) ->
  forallb (fun st => negb (is_delete st)) stmts = true ->
  forall sid, gapless (run db stmts) sid.
Proof. intros Hinv Hall. now apply run_gapless. Qed.

Lemma waitlist_gapless_without_removal_witness :
  gapless
    (run one_seat [ InsertEnrollment 1 1 Enrolled; InsertWaitlist 1 2 7;
                    InsertWaitlist 1 3 7; UpdateEnrollmentStatus 1 1 Dropped;
                    InsertWaitlist 1 1 7 ])
    1.
Proof.
  apply (waitlist_gapless_without_removal one_seat).
  - exact one_seat_gapless.
  - reflexivity.
Defined.

(** C4, as stated, fails: nothing renumbers the entries left behind by a
    removal.  Three students queue for section 1 and the first is deleted:
    the remaining positions are 2 and 3. *)
Lemma positions_not_renumbered_on_delete :
  waitlist one_seat = []
  /\ section_positions (run one_seat queue_script) 1 = [2; 3]
  /\ ~ gapless (run one_seat queue_script) 1.
Proof.
  split; [reflexivity|]. split; [reflexivity|].
  unfold gapless. vm_compute. discriminate.
Qed.

(** *** The audit log *)

Section Keys.

Context {A : Type} (key : A -> Z).

Lemma existsb_pointwise (f g : A -> bool) (l : list A) :
  (forall x, f x = g x) -> existsb f l = existsb g l.
Proof.
  intros H. induction l as [|x l IH]; simpl; [reflexivity|].
  now rewrite H, IH.
Qed.

Lemma no_key_no_row (l : list A) k :
  existsb (Z.eqb k) (map key l) = false ->
  filter (fun x => key x =? k) l = [].
Proof.
  induction l as [|x l IH]; simpl; [reflexivity|].
  intros H. apply orb_false_elim in H as [Hx Hl].
  rewrite Z.eqb_sym, Hx. now apply IH.
Qed.

(** A primary key selects exactly one row when it selects any. *)
Lemma primary_key_one_row (l : list A) k :
  distinct (map key l) = true ->
  existsb (fun x => key x =? k) l = true ->
  exists x, In x l /\ key x = k /\ filter (fun x => key x =? k) l = [x].
Proof.
  induction l as [|x l IH]; simpl; [discriminate|].
  intros Hd Hex. apply andb_prop in Hd as [Hx Hd].
  destruct (Z.eqb_spec (key x) k) as [Hk|Hk].
  - exists x. split; [now left|]. split; [exact Hk|].
    rewrite no_key_no_row; [reflexivity|].
    rewrite <- Hk. now apply negb_true_iff.
  - simpl in Hex. destruct (IH Hd Hex) as (y & Hin & Hy & Hf).
    exists y. split; [now right|]. split; assumption.
Qed.

End Keys.

(** With the keys in place the join of the audit triggers yields exactly
    one user for an existing student. *)
Lemma audit_users_one db a :
  keys_ok db = true ->
  student_exists db a = true ->
  exists u,
    In {| sp_student_id := a; sp_user_id := u |} (student_profile db)
    /\ audit_users db a = [u].
Proof.
  unfold keys_ok, student_exists. intros Hk Ha.
  apply andb_prop in Hk as [Hk Hfk]. apply andb_prop in Hk as [Hsp Hua].
  destruct (primary_key_one_row sp_student_id _ a Hsp Ha)
    as (sp & Hin & Hid & Hf).
  rewrite forallb_forall in Hfk. specialize (Hfk sp Hin).
  assert (Hex : existsb (fun u => ua_user_id u =? sp_user_id sp)
                  (user_account db) = true).
  { erewrite existsb_pointwise; [exact Hfk|]. intros u. apply Z.eqb_sym. }
  destruct (primary_key_one_row ua_user_id _ (sp_user_id sp) Hua Hex)
    as (u & _ & Hu & Hfu).
  exists (sp_user_id sp). split.
  - destruct sp as [i v]; simpl in *; subst i. exact Hin.
  - unfold audit_users. rewrite Hf. simpl.
    erewrite filter_ext; [rewrite Hfu|intros v; apply Z.eqb_sym].
    simpl. rewrite Hu. reflexivity.
Qed.

Lemma insert_enrollment_audit db a s status db' :
  keys_ok db = true ->
  insert_enrollment db a s status = Ok db' ->
  exists u,
    In {| sp_student_id := a; sp_user_id := u |} (student_profile db)
    /\ audit_log db'
       = audit_log db ++
         [{| a_audit_id := next_audit_id db;
             a_user_id := u;
             a_action_type := "ENROLLMENT_CREATE";
             a_object_type := "enrollment";
             a_object_id := next_enrollment_id db;
             a_details := json_create s status |}].
Proof.
  intros Hk H. apply insert_enrollment_inv in H as (_ & Ha & _ & _ & ->).
  destruct (audit_users_one db a Hk Ha) as (u & Hin & Hu).
  exists u. split; [exact Hin|].
  unfold after_enrollment_insert. cbn [e_student_id].
  match goal with |- context [audit_users ?d a] =>
    change (audit_users d a) with (audit_users db a) end.
  rewrite Hu. reflexivity.
Qed.

Lemma update_enrollment_audit db a s status old db' :
  keys_ok db = true ->
  enrollment_students_ok db = true ->
  filter (same_enrollment a s) (enrollment db) = [old] ->
  update_enrollment_status db a s status = Ok db' ->
  exists u,
    In {| sp_student_id := a; sp_user_id := u |} (student_profile db)
    /\ audit_log db'
       = audit_log db ++
         [{| a_audit_id := next_audit_id db;
             a_user_id := u;
             a_action_type := "ENROLLMENT_UPDATE";
             a_object_type := "enrollment";
             a_object_id := e_enrollment_id old;
             a_details := json_update (e_enrollment_status old) status |}].
Proof.
  intros Hk Hfk Hone H. apply update_enrollment_status_inv in H as ->.
  rewrite Hone. cbn [fold_left].
  assert (Hold : In old (enrollment db) /\ same_enrollment a s old = true).
  { apply filter_In. rewrite Hone. now left. }
  destruct Hold as [Hin Hsame].
  unfold enrollment_students_ok in Hfk. rewrite forallb_forall in Hfk.
  specialize (Hfk old Hin).
  unfold same_enrollment in Hsame. apply andb_prop in Hsame as [Hs _].
  apply Z.eqb_eq in Hs. rewrite Hs in Hfk.
  destruct (audit_users_one db a Hk Hfk) as (u & Hinu & Hu).
  exists u. split; [exact Hinu|].
  unfold after_enrollment_update. cbn [e_student_id set_status].
  rewrite Hs.
  match goal with |- context [audit_users ?d a] =>
    change (audit_users d a) with (audit_users db a) end.
  rewrite Hu. reflexivity.
Qed.

(** C5, as amended: with the primary and foreign keys of [student_profile]
    and [user_account] in place, every insert into [enrollment] appends
    exactly one ENROLLMENT_CREATE row to [audit_log] and every status
    update of the record of a (student, section) pair appends exactly one
    ENROLLMENT_UPDATE row; inserts into and deletes from [waitlist] append
    none. *)
Theorem enrollment_changes_audited_once (db : database) :
  keys_ok db = true ->
  (forall a s status db',
      insert_enrollment db a s status = Ok db' ->
      exists u,
        In {| sp_student_id := a; sp_user_id := u |} (student_profile db)
        /\ audit_log db'
           = audit_log db ++
             [{| a_audit_id := next_audit_id db;
                 a_user_id := u;
                 a_action_type := "ENROLLMENT_CREATE";
                 a_object_type := "enrollment";
                 a_object_id := next_enrollment_id db;
                 a_details := json_create s status |}])
  /\ (forall a s status old db',
        enrollment_students_ok db = true ->
        filter (same_enrollment a s) (enrollment db) = [old] ->
        update_enrollment_status db a s status = Ok db' ->
        exists u,
          In {| sp_student_id := a; sp_user_id := u |} (student_profile db)
          /\ audit_log db'
             = audit_log db ++
               [{| a_audit_id := next_audit_id db;
                   a_user_id := u;
                   a_action_type := "ENROLLMENT_UPDATE";
                   a_object_type := "enrollment";
                   a_object_id := e_enrollment_id old;
                   a_details :=
                     json_update (e_enrollment_status old) status |}])
  /\ (forall s a p db',
        insert_waitlist db s a p = Ok db' -> audit_log db' = audit_log db)
  /\ (forall s a db',
        delete_waitlist db s a = Ok db' -> audit_log db' = audit_log db).
Proof.
  intros Hk. repeat split.
  - intros a s status db'. now apply insert_enrollment_audit.
  - intros a s status old db' Hfk. now apply update_enrollment_audit.
  - intros s a p db' H.
    apply insert_waitlist_inv in H as (_ & _ & _ & _ & ->). reflexivity.
  - intros s a db' H. injection H as <-. reflexivity.
Qed.

Lemma enrollment_changes_audited_once_witness :
  (exists u,
      In {| sp_student_id := 1; sp_user_id := u |} (student_profile one_seat)
      /\ audit_log (step one_seat (InsertEnrollment 1 1 Enrolled))
         = audit_log one_seat ++
           [{| a_audit_id := next_audit_id one_seat;
               a_user_id := u;
               a_action_type := "ENROLLMENT_CREATE";
               a_object_type := "enrollment";
               a_object_id := next_enrollment_id one_seat;
               a_details := json_create 1 Enrolled |}])
  /\ (exists u,
        In {| sp_student_id := 1; sp_user_id := u |}
           (student_profile one_seat_full)
        /\ audit_log (step one_seat_full (UpdateEnrollmentStatus 1 1 Dropped))
           = audit_log one_seat_full ++
             [{| a_audit_id := next_audit_id one_seat_full;
                 a_user_id := u;
                 a_action_type := "ENROLLMENT_UPDATE";
                 a_object_type := "enrollment";
                 a_object_id := 1;
                 a_details := json_update Enrolled Dropped |}])
  /\ audit_log (step one_seat (InsertWaitlist 1 2 0)) = audit_log one_seat
  /\ audit_log (step one_seat_full (DeleteWaitlist 1 2))
     = audit_log one_seat_full.
Proof.
  split; [|split; [|split]].
  - apply (proj1 (enrollment_changes_audited_once one_seat eq_refl)
             1 1 Enrolled).
    reflexivity.
  - apply (proj1 (proj2 (enrollment_changes_audited_once one_seat_full eq_refl))
             1 1 Dropped
             {| e_enrollment_id := 1; e_student_id := 1; e_section_id := 1;
                e_enrollment_status := Enrolled |});
      reflexivity.
  - apply (proj1 (proj2 (proj2
             (enrollment_changes_audited_once one_seat eq_refl))) 1 2 0).
    reflexivity.
  - apply (proj2 (proj2 (proj2
             (enrollment_changes_audited_once one_seat_full eq_refl))) 1 2).
    reflexivity.
Defined.

(** C5, as stated, fails: no trigger logs the waitlist.  An insert adds a
    waitlist entry, a delete removes one, and [audit_log] gains no row
    either time. *)
Lemma waitlist_changes_not_audited :
  waitlist one_seat = []
  /\ List.length (waitlist (step one_seat (InsertWaitlist 1 2 0))) = 1%nat
  /\ ~ audited_once one_seat (step one_seat (InsertWaitlist 1 2 0))
  /\ List.length (waitlist one_seat_full) = 2%nat
  /\ List.length (waitlist (step one_seat_full (DeleteWaitlist 1 2))) = 1%nat
  /\ ~ audited_once one_seat_full (step one_seat_full (DeleteWaitlist 1 2)).
Proof.
  repeat split; try reflexivity.
  - intros [r H]. vm_compute in H. discriminate.
  - intros [r H]. vm_compute in H. injection H as H. destruct r; discriminate.
Qed.

(** *** Drops and duplicates, as the schema sees them *)

(** A status update rewrites statuses only: the waitlist keeps its rows
    and the enrollment table keeps its rows' identities. *)
Lemma update_only_rewrites_status db a s status db' :
  update_enrollment_status db a s status = Ok db' ->
  waitlist db' = waitlist db
  /\ map row_key (enrollment db') = map row_key (enrollment db).
Proof.
  intros H. apply update_enrollment_status_inv in H as ->.
  match goal with |- waitlist (fold_left _ ?rows ?d) = _ /\ _ =>
    destruct (update_fold_tables status rows d) as (He & Hw & _) end.
  rewrite He, Hw. simpl. split; [reflexivity|].
  rewrite map_map. apply map_ext. intros e.
  destruct (same_enrollment a s e); reflexivity.
Qed.

(** The unique key [unique_enrollment] (or, on a full section, the
    capacity trigger before it) turns away a second row for a pair. *)
Lemma insert_enrollment_duplicate db a s status :
  existsb (same_enrollment a s) (enrollment db) = true ->
  exists e, insert_enrollment db a s status = Err e.
Proof.
  intros Hdup.
  unfold insert_enrollment, before_enrollment_insert, bind; simpl.
  destruct (section_capacity db s) as [cap|].
  - destruct (current_enrollment db s >=? cap); [eexists; reflexivity|].
    destruct (negb (student_exists db a)); [eexists; reflexivity|].
    destruct (negb (section_exists db s)); [eexists; reflexivity|].
    rewrite Hdup. eexists; reflexivity.
  - destruct (negb (student_exists db a)); [eexists; reflexivity|].
    destruct (negb (section_exists db s)); [eexists; reflexivity|].
    rewrite Hdup. eexists; reflexivity.
Qed.

End SchemaFacts.

(* ====================================================================== *)
(** ** Facts about the client's handlers                                   *)
(* ====================================================================== *)

Module AppFacts.

Import App Props.
Local Open Scope Z_scope.

Lemma find_absent (courseId : Z) (l : list course) :
  (forall c, In c l -> c_id c <> courseId) ->
  find (fun c => c_id c =? courseId) l = None.
Proof.
  intros H. destruct (find _ l) as [c|] eqn:E; [|reflexivity].
  apply find_some in E as [Hin Hid]. apply Z.eqb_eq in Hid.
  now destruct (H c Hin).
Qed.

Lemma handleEnroll_missing st u today courseId :
  find (fun c => c_id c =? courseId) (courses (db st)) = None ->
  handleEnroll st u today courseId = st.
Proof. unfold handleEnroll. now intros ->. Qed.

Lemma handleEnroll_full st u today courseId c :
  find (fun c => c_id c =? courseId) (courses (db st)) = Some c ->
  capacity c <= enrolled c ->
  handleEnroll st u today courseId = showNotification st "Course full" "error".
Proof.
  unfold handleEnroll. intros -> Hfull.
  assert ((enrolled c >=? capacity c) = true) as ->
    by (rewrite Z.geb_leb; apply Z.leb_le; exact Hfull).
  reflexivity.
Qed.

(** C9: when no course has the requested id, or the course found has
    [enrolled >= capacity], [handleEnroll] leaves the whole [db] (users,
    courses, enrollments and the rest) as it was. *)
Theorem handleEnroll_refused_keeps_db st u today courseId :
  (forall c, In c (courses (db st)) -> c_id c <> courseId)
  \/ (exists c,
        find (fun c => c_id c =? courseId) (courses (db st)) = Some c
        /\ capacity c <= enrolled c) ->
  db (handleEnroll st u today courseId) = db st.
Proof.
  intros [Habsent|(c & Hfind & Hfull)].
  - rewrite handleEnroll_missing; [reflexivity|]. now apply find_absent.
  - rewrite (handleEnroll_full _ _ _ _ c Hfind Hfull). reflexivity.
Qed.

Lemma handleEnroll_refused_keeps_db_witness :
  db (handleEnroll first_render johndoe "2025-11-12" 99) = db first_render
  /\ db (handleEnroll course2_full (newcomer 8) "2025-11-12" 2)
     = db course2_full.
Proof.
  split.
  - apply (handleEnroll_refused_keeps_db first_render johndoe "2025-11-12" 99).
    left. intros c Hin.
    repeat (destruct Hin as [<-|Hin]; [discriminate|]). destruct Hin.
  - apply (handleEnroll_refused_keeps_db course2_full (newcomer 8)
             "2025-11-12" 2).
    right. eexists. split; [reflexivity|]. simpl. lia.
Defined.

(** *** The [enrolled] counter *)

Lemma find_map_same_id (g : course -> course) (courseId : Z) (l : list course) :
  (forall c, c_id (g c) = c_id c) ->
  find (fun c => c_id c =? courseId) (map g l)
  = option_map g (find (fun c => c_id c =? courseId) l).
Proof.
  intros Hg. induction l as [|c l IH]; simpl; [reflexivity|].
  rewrite Hg. destruct (c_id c =? courseId); [reflexivity|exact IH].
Qed.

(** [handleEnroll] never takes the counter of the course it finds past the
    capacity. *)
Lemma handleEnroll_counter_bounded st u today courseId c c' :
  find (fun c => c_id c =? courseId) (courses (db st)) = Some c ->
  enrolled c <= capacity c ->
  find (fun c => c_id c =? courseId)
       (courses (db (handleEnroll st u today courseId))) = Some c' ->
  enrolled c' <= capacity c'.
Proof.
  intros Hfind Hle. unfold handleEnroll. rewrite Hfind.
  destruct (enrolled c >=? capacity c) eqn:E.
  - simpl. rewrite Hfind. intros H; injection H as <-. exact Hle.
  - simpl. rewrite find_map_same_id.
    + rewrite Hfind. simpl.
      apply find_some in Hfind as [_ Hid]. rewrite Hid.
      intros H; injection H as <-. simpl.
      rewrite Z.geb_leb in E. apply Z.leb_gt in E. lia.
    + intros x. destruct (c_id x =? courseId); reflexivity.
Qed.


(** *** Dropping *)

Lemma handleDrop_enrollments st u courseId :
  enrollments (db (handleDrop st u courseId))
  = map (fun e => if same_pair u courseId e then set_status e "dropped" else e)
        (enrollments (db st)).
Proof. reflexivity. Qed.

(** A drop creates and removes no record. *)
Lemma handleDrop_record_keys st u courseId :
  map record_key (enrollments (db (handleDrop st u courseId)))
  = map record_key (enrollments (db st)).
Proof.
  rewrite handleDrop_enrollments, map_map. apply map_ext.
  intros e. destruct (same_pair u courseId e); reflexivity.
Qed.

Lemma handleDrop_pair_dropped st u courseId e :
  In e (enrollments (db (handleDrop st u courseId))) ->
  same_pair u courseId e = true -> status e = "dropped".
Proof.
  rewrite handleDrop_enrollments. intros Hin Hsame.
  apply in_map_iff in Hin as (e0 & <- & _).
  destruct (same_pair u courseId e0) eqn:E; [reflexivity|].
  congruence.
Qed.

Lemma handleDrop_not_enrolled st u courseId :
  isEnrolled (db (handleDrop st u courseId)) u courseId = false.
Proof.
  unfold isEnrolled. rewrite handleDrop_enrollments.
  induction (enrollments (db st)) as [|e l IH]; [reflexivity|].
  simpl. rewrite IH, orb_false_r.
  fold (same_pair u courseId e).
  destruct (same_pair u courseId e) eqn:E.
  - simpl. unfold same_pair in E. rewrite E. reflexivity.
  - fold (same_pair u courseId e). rewrite E. reflexivity.
Qed.

Lemma handleDrop_again_enrollments st u courseId :
  enrollments (db (handleDrop (handleDrop st u courseId) u courseId))
  = enrollments (db (handleDrop st u courseId)).
Proof.
  rewrite (handleDrop_enrollments (handleDrop st u courseId)).
  rewrite handleDrop_enrollments, map_map. apply map_ext.
  intros e. destruct (same_pair u courseId e) eqn:E.
  - assert (same_pair u courseId (set_status e "dropped") = true) as ->
      by exact E.
    reflexivity.
  - rewrite E. reflexivity.
Qed.

(** C3, as amended: when the student holds an enrolled record for the
    course, the first [handleDrop] turns every record of the pair to
    "dropped" (so the student is no longer enrolled) and adds or removes
    no record; a second [handleDrop] changes no enrollment record, and it
    reports "Course dropped" as a success, not an error. *)
Theorem drop_twice_drops_once st u courseId :
  isEnrolled (db st) u courseId = true ->
  (exists e,
      In e (enrollments (db st)) /\ same_pair u courseId e = true
      /\ status e = "enrolled"
      /\ In (set_status e "dropped")
            (enrollments (db (handleDrop st u courseId))))
  /\ isEnrolled (db (handleDrop st u courseId)) u courseId = false
  /\ (forall e, In e (enrollments (db (handleDrop st u courseId))) ->
                same_pair u courseId e = true -> status e = "dropped")
  /\ map record_key (enrollments (db (handleDrop st u courseId)))
     = map record_key (enrollments (db st))
  /\ enrollments (db (handleDrop (handleDrop st u courseId) u courseId))
     = enrollments (db (handleDrop st u courseId))
  /\ notification (handleDrop (handleDrop st u courseId) u courseId)
     = Some {| message := "Course dropped"; type := "success" |}.
Proof.
  intros Henrolled. split.
  { unfold isEnrolled in Henrolled.
    apply existsb_exists in Henrolled as (e & Hin & He).
    apply andb_prop in He as [Hpair Hst]. apply String.eqb_eq in Hst.
    exists e. repeat split; try assumption.
    rewrite handleDrop_enrollments. apply in_map_iff. exists e.
    unfold same_pair. rewrite Hpair. split; [reflexivity|exact Hin]. }
  split; [apply handleDrop_not_enrolled|].
  split; [apply handleDrop_pair_dropped|].
  split; [apply handleDrop_record_keys|].
  split; [apply handleDrop_again_enrollments|reflexivity].
Qed.

Lemma drop_twice_drops_once_witness :
  (exists e,
      In e (enrollments (db first_render)) /\ same_pair johndoe 1 e = true
      /\ status e = "enrolled"
      /\ In (set_status e "dropped")
            (enrollments (db (handleDrop first_render johndoe 1))))
  /\ isEnrolled (db (handleDrop first_render johndoe 1)) johndoe 1 = false
  /\ (forall e, In e (enrollments (db (handleDrop first_render johndoe 1))) ->
                same_pair johndoe 1 e = true -> status e = "dropped")
  /\ map record_key (enrollments (db (handleDrop first_render johndoe 1)))
     = map record_key (enrollments (db first_render))
  /\ enrollments (db (handleDrop (handleDrop first_render johndoe 1) johndoe 1))
     = enrollments (db (handleDrop first_render johndoe 1))
  /\ notification (handleDrop (handleDrop first_render johndoe 1) johndoe 1)
     = Some {| message := "Course dropped"; type := "success" |}.
Proof.
  apply (drop_twice_drops_once first_render johndoe 1).
  reflexivity.
Defined.

(** C3, as stated, fails: the second [handleDrop] is no NotEnrolled
    failure.  It reports success and lowers the course's [enrolled]
    counter once more (18, then 17, then 16), so the state changes. *)
Lemma second_drop_succeeds_and_decrements :
  isEnrolled (db first_render) johndoe 1 = true
  /\ enrolled_counter (db first_render) 1 = Some 18
  /\ enrolled_counter (db (handleDrop first_render johndoe 1)) 1 = Some 17
  /\ enrolled_counter
       (db (handleDrop (handleDrop first_render johndoe 1) johndoe 1)) 1
     = Some 16
  /\ db (handleDrop (handleDrop first_render johndoe 1) johndoe 1)
     <> db (handleDrop first_render johndoe 1)
  /\ notification (handleDrop (handleDrop first_render johndoe 1) johndoe 1)
     = Some {| message := "Course dropped"; type := "success" |}.
Proof.
  repeat split; try reflexivity.
  intros H. apply (f_equal (fun d => enrolled_counter d 1)) in H.
  vm_compute in H. discriminate.
Qed.

(** *** The Enroll buttons *)

Lemma enroll_buttons_disabled st u today c :
  isEnrolled (db st) u (c_id c) = true ->
  recommended_enroll_click st u today c = st
  /\ catalog_enroll_click st u today c = st.
Proof.
  unfold recommended_enroll_click, catalog_enroll_click.
  intros ->. split; reflexivity.
Qed.

End AppFacts.

(* ====================================================================== *)
(** ** Enrol and drop across both layers                                   *)
(* ====================================================================== *)

Module Ledger.

Import Schema Props.

(** X22: what the capacity guard does cover.  The BEFORE INSERT trigger
    rejects every insert into a section whose 'Enrolled' count has reached
    its capacity, and the bound count('Enrolled') <= capacity, once true,
    stays true along every sequence of statements (inserts into
    [enrollment], status updates, inserts into and deletes from
    [waitlist]) in which no UPDATE sets a status to 'Enrolled'.  In the
    client, [handleEnroll] keeps the [enrolled] counter of the course it
    finds within the capacity. *)
Theorem capacity_kept_by_inserts :
  (forall db a s status cap,
      section_capacity db s = Some cap ->
      cap <= current_enrollment db s ->
      insert_enrollment db a s status
      = Err (Signal "45000" "Section is at full capacity"))
  /\ (forall db stmts,
        capacity_respected db ->
        forallb (fun st => negb (sets_enrolled st)) stmts = true ->
        capacity_respected (run db stmts))
  /\ (forall st u today courseId c c',
        find (fun c => App.c_id c =? courseId) (App.courses (App.db st))
        = Some c ->
        App.enrolled c <= App.capacity c ->
        find (fun c => App.c_id c =? courseId)
             (App.courses (App.db (App.handleEnroll st u today courseId)))
        = Some c' ->
        App.enrolled c' <= App.capacity c').
Proof.
  split; [|split].
  - intros db a s status cap. apply SchemaFacts.insert_enrollment_full.
  - intros db stmts Hinv Hall. now apply SchemaFacts.run_capacity.
  - apply AppFacts.handleEnroll_counter_bounded.
Qed.

Lemma capacity_kept_by_inserts_witness :
  insert_enrollment one_seat_full 2 1 Enrolled
  = Err (Signal "45000" "Section is at full capacity")
  /\ capacity_respected
       (run one_seat [ InsertEnrollment 1 1 Enrolled;
                       InsertWaitlist 1 2 0;
                       InsertEnrollment 2 1 Enrolled;
                       UpdateEnrollmentStatus 1 1 Dropped;
                       InsertEnrollment 2 1 Enrolled ])
  /\ enrolled_counter
       (App.db (App.handleEnroll first_render (newcomer 3) "2025-11-12" 2)) 2
     = Some 21
  /\ App.enrolled
       {| App.c_id := 2; App.code := "CMSC330";
          App.title := "Programming Languages"; App.credits := 3;
          App.department := "Computer Science";
          App.description := "Language concepts";
          App.capacity := 25; App.enrolled := 21;
          App.prerequisites := ["CMSC220"%string] |}
     <= App.capacity
          {| App.c_id := 2; App.code := "CMSC330";
             App.title := "Programming Languages"; App.credits := 3;
             App.department := "Computer Science";
             App.description := "Language concepts";
             App.capacity := 25; App.enrolled := 21;
             App.prerequisites := ["CMSC220"%string] |}.
Proof.
  split; [|split].
  - apply (proj1 capacity_kept_by_inserts one_seat_full 2 1 Enrolled 1).
    + reflexivity.
    + vm_compute. discriminate.
  - apply (proj1 (proj2 capacity_kept_by_inserts) one_seat).
    + exact SchemaFacts.one_seat_capacity.
    + reflexivity.
  - split; [reflexivity|].
    eapply (proj2 (proj2 capacity_kept_by_inserts) first_render (newcomer 3)
              "2025-11-12"%string 2).
    + reflexivity.
    + simpl. lia.
    + reflexivity.
Defined.

(** C1: the code breaks the bound.  The schema guards the INSERT (the
    trigger commented 'Prevent enrollment over capacity') and leaves the
    UPDATE unguarded.  On a section of capacity 1 that respects the bound,
    student 1 enrols and drops, student 2 enrols, and the UPDATE that sets
    student 1's row back to 'Enrolled' goes through: the section ends with
    two 'Enrolled' rows for one seat. *)
Lemma capacity_exceeded_by_status_update :
  capacity_respected one_seat
  /\ section_capacity (run one_seat reenrol_script) 1 = Some 1
  /\ current_enrollment (run one_seat reenrol_script) 1 = 2
  /\ ~ capacity_respected (run one_seat reenrol_script).
Proof.
  split; [exact SchemaFacts.one_seat_capacity|].
  split; [reflexivity|]. split; [reflexivity|].
  intros H. specialize (H 1 1 eq_refl). vm_compute in H. apply H. reflexivity.
Qed.

(** C2, as amended: a drop promotes nobody.  In the schema the UPDATE that
    sets a record to 'Dropped' always goes through, leaves every waitlist
    row (and so every position) as it was and creates no enrollment row;
    in the client [handleDrop] creates no enrollment record either: the
    records keep their identities, only statuses change. *)
Theorem drop_promotes_nobody :
  (forall db a s,
      exists db',
        update_enrollment_status db a s Dropped = Ok db'
        /\ waitlist db' = waitlist db
        /\ map row_key (enrollment db') = map row_key (enrollment db))
  /\ (forall st u courseId,
        map record_key (App.enrollments (App.db (App.handleDrop st u courseId)))
        = map record_key (App.enrollments (App.db st))).
Proof.
  split.
  - intros db a s. eexists. split; [reflexivity|].
    now apply (SchemaFacts.update_only_rewrites_status db a s Dropped).
  - apply AppFacts.handleDrop_record_keys.
Qed.

(** C2, as stated, fails: section 1 has one seat, held by student 1, and
    students 2 and 3 wait at positions 1 and 2.  After student 1's drop
    the waitlist is what it was and student 2 holds no enrollment row. *)
Lemma drop_leaves_waitlist_untouched :
  section_capacity one_seat_full 1 = Some 1
  /\ current_enrollment one_seat_full 1 = 1
  /\ section_positions one_seat_full 1 = [1; 2]
  /\ exec one_seat_full (UpdateEnrollmentStatus 1 1 Dropped)
     = Ok (step one_seat_full (UpdateEnrollmentStatus 1 1 Dropped))
  /\ current_enrollment
       (step one_seat_full (UpdateEnrollmentStatus 1 1 Dropped)) 1 = 0
  /\ waitlist (step one_seat_full (UpdateEnrollmentStatus 1 1 Dropped))
     = waitlist one_seat_full
  /\ ~ promoted one_seat_full
         (step one_seat_full (UpdateEnrollmentStatus 1 1 Dropped)) 1.
Proof.
  repeat split; try reflexivity.
  intros (w & Hin & _ & _ & Hout & _). apply Hout. exact Hin.
Qed.

(** C6, as amended: an enrol request on a full course is refused and
    queues nobody.  [handleEnroll] answers "Course full" as an error and
    changes nothing; in the schema the insert fails with SQLSTATE 45000
    and the database, waitlist included, stays as it was.  A waitlist
    entry comes only from an insert into [waitlist], and then its section
    gains the position 1 + the highest existing one (1 when there is
    none). *)
Theorem enrol_on_full_is_refused :
  (forall st u today courseId c,
      find (fun c => App.c_id c =? courseId) (App.courses (App.db st)) = Some c ->
      App.capacity c <= App.enrolled c ->
      App.handleEnroll st u today courseId
      = App.showNotification st "Course full" "error")
  /\ (forall db a s status cap,
        section_capacity db s = Some cap ->
        cap <= current_enrollment db s ->
        exec db (InsertEnrollment a s status)
        = Err (Signal "45000" "Section is at full capacity")
        /\ step db (InsertEnrollment a s status) = db)
  /\ (forall db s a p db',
        insert_waitlist db s a p = Ok db' ->
        section_positions db' s
        = section_positions db s
          ++ [1 + COALESCE (sql_max (section_positions db s)) 0]).
Proof.
  split; [|split].
  - intros st u today courseId c. apply AppFacts.handleEnroll_full.
  - intros db a s status cap Hcap Hfull.
    pose proof (SchemaFacts.insert_enrollment_full db a s status cap Hcap Hfull)
      as H.
    split; [exact H|]. unfold step. simpl exec. now rewrite H.
  - intros db s a p db' H.
    apply SchemaFacts.insert_waitlist_inv in H as (_ & _ & _ & _ & ->).
    unfold section_positions at 1. simpl waitlist.
    rewrite SchemaFacts.positions_after_insert. cbn [w_section_id w_position].
    rewrite Z.eqb_refl. unfold section_positions. f_equal. f_equal. lia.
Qed.

Lemma enrol_on_full_is_refused_witness :
  App.handleEnroll course2_full (newcomer 8) "2025-11-12" 2
  = App.showNotification course2_full "Course full" "error"
  /\ (exec one_seat_full (InsertEnrollment 2 1 Enrolled)
      = Err (Signal "45000" "Section is at full capacity")
      /\ step one_seat_full (InsertEnrollment 2 1 Enrolled) = one_seat_full)
  /\ section_positions (step one_seat_full (InsertWaitlist 1 4 5)) 1
     = section_positions one_seat_full 1
       ++ [1 + COALESCE (sql_max (section_positions one_seat_full 1)) 0].
Proof.
  split; [|split].
  - eapply (proj1 enrol_on_full_is_refused).
    + reflexivity.
    + simpl. lia.
  - apply (proj1 (proj2 enrol_on_full_is_refused) one_seat_full 2 1 Enrolled 1).
    + reflexivity.
    + vm_compute. discriminate.
  - apply (proj2 (proj2 enrol_on_full_is_refused) one_seat_full 1 4 5).
    reflexivity.
Defined.

(** C6, as stated, fails: with the only seat of section 1 taken, student
    2's insert into [enrollment] ends in an error and no waitlist entry
    exists afterwards; in the client the request on the full course 2
    ends in the error notification with [db] unchanged. *)
Lemma full_enrol_is_an_error_not_a_queue :
  current_enrollment (step one_seat (InsertEnrollment 1 1 Enrolled)) 1 = 1
  /\ section_capacity (step one_seat (InsertEnrollment 1 1 Enrolled)) 1 = Some 1
  /\ exec (step one_seat (InsertEnrollment 1 1 Enrolled))
          (InsertEnrollment 2 1 Enrolled)
     = Err (Signal "45000" "Section is at full capacity")
  /\ waitlist (run one_seat [ InsertEnrollment 1 1 Enrolled;
                              InsertEnrollment 2 1 Enrolled ]) = []
  /\ enrolled_counter (App.db course2_full) 2 = Some 25
  /\ App.notification
       (App.handleEnroll course2_full (newcomer 8) "2025-11-12" 2)
     = Some {| App.message := "Course full"; App.type := "error" |}
  /\ App.db (App.handleEnroll course2_full (newcomer 8) "2025-11-12" 2)
     = App.db course2_full.
Proof. repeat split; reflexivity. Qed.

(** C7, as amended: what keeps an enrolled student from enrolling again
    is the disabled Enroll button and, in the schema, the keys.  When
    [isEnrolled] holds, a click on either Enroll button changes nothing
    (and shows no error); an insert into [enrollment] for a (student,
    section) pair that already has a row fails and leaves the database as
    it was. *)
Theorem second_enrolment_is_gated :
  (forall st u today c,
      App.isEnrolled (App.db st) u (App.c_id c) = true ->
      App.recommended_enroll_click st u today c = st
      /\ App.catalog_enroll_click st u today c = st)
  /\ (forall db a s status,
        existsb (same_enrollment a s) (enrollment db) = true ->
        (exists e, exec db (InsertEnrollment a s status) = Err e)
        /\ step db (InsertEnrollment a s status) = db).
Proof.
  split.
  - apply AppFacts.enroll_buttons_disabled.
  - intros db a s status Hdup.
    destruct (SchemaFacts.insert_enrollment_duplicate db a s status Hdup)
      as [e He].
    split; [exists e; exact He|]. unfold step. simpl exec. now rewrite He.
Qed.

Lemma second_enrolment_is_gated_witness :
  (App.recommended_enroll_click first_render johndoe "2025-11-12"
     {| App.c_id := 1; App.code := "CMSC495"; App.title := "CS Capstone";
        App.credits := 3; App.department := "Computer Science";
        App.description := "Senior capstone";
        App.capacity := 30; App.enrolled := 18;
        App.prerequisites := ["CMSC330"%string] |} = first_render
   /\ App.catalog_enroll_click first_render johndoe "2025-11-12"
        {| App.c_id := 1; App.code := "CMSC495"; App.title := "CS Capstone";
           App.credits := 3; App.department := "Computer Science";
           App.description := "Senior capstone";
           App.capacity := 30; App.enrolled := 18;
           App.prerequisites := ["CMSC330"%string] |} = first_render)
  /\ ((exists e,
         exec (run one_seat reenrol_script) (InsertEnrollment 1 1 Enrolled)
         = Err e)
      /\ step (run one_seat reenrol_script) (InsertEnrollment 1 1 Enrolled)
         = run one_seat reenrol_script).
Proof.
  split.
  - apply (proj1 second_enrolment_is_gated first_render johndoe
             "2025-11-12"%string).
    reflexivity.
  - apply (proj2 second_enrolment_is_gated (run one_seat reenrol_script)
             1 1 Enrolled).
    reflexivity.
Defined.

(** C7, as stated, fails: [handleEnroll] itself never looks for an
    existing record.  The seed student is enrolled in course 1; a second
    [handleEnroll] adds a second enrolled record, raises the counter and
    reports success.  In the schema a waitlisted student is not turned
    away either: with a free seat the insert into [enrollment] goes
    through. *)
Lemma handler_enrols_twice :
  App.isEnrolled (App.db first_render) johndoe 1 = true
  /\ List.length (App.enrollments (App.db first_render)) = 1%nat
  /\ List.length
       (filter (fun e => same_pair johndoe 1 e
                         && String.eqb (App.status e) "enrolled")
          (App.enrollments
             (App.db (App.handleEnroll first_render johndoe "2025-11-12" 1))))
     = 2%nat
  /\ enrolled_counter
       (App.db (App.handleEnroll first_render johndoe "2025-11-12" 1)) 1
     = Some 19
  /\ App.notification (App.handleEnroll first_render johndoe "2025-11-12" 1)
     = Some {| App.message := "Enrolled successfully";
               App.type := "success" |}
  /\ existsb (same_waitlist 1 2)
       (waitlist (step one_seat (InsertWaitlist 1 2 0))) = true
  /\ exec (step one_seat (InsertWaitlist 1 2 0)) (InsertEnrollment 2 1 Enrolled)
     = Ok (run one_seat [ InsertWaitlist 1 2 0; InsertEnrollment 2 1 Enrolled ])
  /\ List.length
       (enrollment
          (run one_seat [ InsertWaitlist 1 2 0; InsertEnrollment 2 1 Enrolled ]))
     = 1%nat.
Proof. repeat split; reflexivity. Qed.

End Ledger.

(* ====================================================================== *)
(** ** More about the schema: keys, queue order, acceptance, audit trail   *)
(* ====================================================================== *)

Module SchemaMore.

Import Schema Props Invariants.

(** *** The two unique keys *)

Lemma NoDup_snoc {A : Type} (l : list A) (x : A) :
  NoDup l -> ~ In x l -> NoDup (l ++ [x]).
Proof.
  intros Hl Hx. induction Hl as [|a l Ha Hl IH]; simpl.
  - constructor; [intros []|constructor].
  - constructor.
    + rewrite in_app_iff. intros [H|[H|[]]]; [now apply Ha|].
      apply Hx. now left.
    + apply IH. intros H. apply Hx. now right.
Qed.

(** Deleting rows cannot break the unique key of the waitlist. *)
Lemma waitlist_keys_after_delete (keep : waitlist_row -> bool)
    (rows : list waitlist_row) :
  NoDup (map waitlist_key rows) ->
  NoDup (map waitlist_key (filter keep rows)).
Proof.
  induction rows as [|w rows IH]; simpl; intros Hnd; [constructor|].
  apply NoDup_cons_iff in Hnd as [Hout Hrest].
  destruct (keep w); simpl; [|now apply IH].
  apply NoDup_cons; [|now apply IH].
  contradict Hout. apply in_map_iff in Hout as (w' & Hk & Hin).
  apply filter_In in Hin as [Hin _]. rewrite <- Hk. now apply in_map.
Qed.

Lemma no_enrollment_key db a s :
  existsb (same_enrollment a s) (enrollment db) = false ->
  ~ In (a, s) (map enrollment_key (enrollment db)).
Proof.
  intros Hex Hin. apply in_map_iff in Hin as (e & Hk & Hin).
  assert (existsb (same_enrollment a s) (enrollment db) = true) as Habs.
  { apply existsb_exists. exists e. split; [exact Hin|].
    unfold enrollment_key in Hk. injection Hk as <- <-.
    unfold same_enrollment. now rewrite !Z.eqb_refl. }
  congruence.
Qed.

Lemma no_waitlist_key db s a :
  existsb (same_waitlist s a) (waitlist db) = false ->
  ~ In (s, a) (map waitlist_key (waitlist db)).
Proof.
  intros Hex Hin. apply in_map_iff in Hin as (w & Hk & Hin).
  assert (existsb (same_waitlist s a) (waitlist db) = true) as Habs.
  { apply existsb_exists. exists w. split; [exact Hin|].
    unfold waitlist_key in Hk. injection Hk as <- <-.
    unfold same_waitlist. now rewrite !Z.eqb_refl. }
  congruence.
Qed.

(** The shape of the two tables after one statement. *)
Lemma step_tables db st :
  match st with
  | InsertEnrollment a s status =>
      waitlist (step db st) = waitlist db
      /\ (enrollment (step db st) = enrollment db
          \/ (existsb (same_enrollment a s) (enrollment db) = false
              /\ student_exists db a = true
              /\ (forall cap, section_capacity db s = Some cap ->
                              current_enrollment db s < cap)
              /\ enrollment (step db st)
                 = enrollment db ++
                   [{| e_enrollment_id := next_enrollment_id db;
                       e_student_id := a; e_section_id := s;
                       e_enrollment_status := status |}]))
  | UpdateEnrollmentStatus a s status =>
      waitlist (step db st) = waitlist db
      /\ enrollment (step db st)
         = map (fun e => if same_enrollment a s e
                         then set_status e status else e) (enrollment db)
  | InsertWaitlist s a p =>
      enrollment (step db st) = enrollment db
      /\ (waitlist (step db st) = waitlist db
          \/ (existsb (same_waitlist s a) (waitlist db) = false
              /\ waitlist (step db st)
                 = waitlist db ++
                   [{| w_waitlist_id := next_waitlist_id db;
                       w_section_id := s; w_student_id := a;
                       w_position :=
                         COALESCE (sql_max (section_positions db s)) 0 + 1 |}]))
  | DeleteWaitlist s a =>
      enrollment (step db st) = enrollment db
      /\ waitlist (step db st)
         = filter (fun w => negb (same_waitlist s a w)) (waitlist db)
  end.
Proof.
  destruct st as [a s status|a s status|s a p|s a]; unfold step;
    destruct (exec _ _) as [db'|e] eqn:E; simpl in E; try discriminate.
  - apply SchemaFacts.insert_enrollment_inv in E as (Hcap & Ha & _ & Hdup & ->).
    unfold after_enrollment_insert.
    rewrite SchemaFacts.audit_fold_waitlist, SchemaFacts.audit_fold_enrollment.
    split; [reflexivity|]. right. repeat split; assumption.
  - split; [reflexivity|]. now left.
  - apply SchemaFacts.update_enrollment_status_inv in E as ->.
    match goal with |- waitlist (fold_left _ ?rows ?d) = _ /\ _ =>
      destruct (SchemaFacts.update_fold_tables status rows d)
        as (He & Hw & _) end.
    rewrite He, Hw. split; reflexivity.
  - apply SchemaFacts.insert_waitlist_inv in E as (_ & _ & _ & Hdup & ->).
    split; [reflexivity|]. right. split; [exact Hdup|reflexivity].
  - split; [reflexivity|]. now left.
  - injection E as <-. split; reflexivity.
Qed.

Lemma step_unique_keys db st :
  unique_keys db -> unique_keys (step db st).
Proof.
  intros [He Hw]. pose proof (step_tables db st) as H. unfold unique_keys.
  destruct st as [a s status|a s status|s a p|s a].
  - destruct H as [-> [->|(Hdup & _ & _ & ->)]]; split; try assumption.
    rewrite map_app. apply NoDup_snoc; [exact He|].
    now apply no_enrollment_key.
  - destruct H as [-> ->]. split; [|exact Hw].
    rewrite map_map.
    erewrite map_ext; [exact He|].
    intros e. destruct (same_enrollment a s e); reflexivity.
  - destruct H as [-> [->|(Hdup & ->)]]; split; try assumption.
    rewrite map_app. apply NoDup_snoc; [exact Hw|].
    now apply no_waitlist_key.
  - destruct H as [-> ->]. split; [exact He|].
    now apply waitlist_keys_after_delete.
Qed.

(** X1: the unique keys of [enrollment] (student, section) and of
    [waitlist] (section, student) hold in every state the statements reach
    from a state where they hold: no sequence of inserts, status updates
    and deletes gives a pair two rows. *)
Theorem unique_keys_kept db stmts :
  unique_keys db -> unique_keys (run db stmts).
Proof.
  unfold run. revert db.
  induction stmts as [|st stmts IH]; intros db H; simpl; [exact H|].
  apply IH. now apply step_unique_keys.
Qed.

Lemma unique_keys_kept_witness :
  unique_keys
    (run one_seat [ InsertEnrollment 1 1 Enrolled;
                    InsertEnrollment 1 1 Enrolled;
                    InsertWaitlist 1 2 0; InsertWaitlist 1 2 0;
                    UpdateEnrollmentStatus 1 1 Dropped;
                    InsertEnrollment 1 1 Enrolled;
                    DeleteWaitlist 1 2; InsertWaitlist 1 2 0 ]).
Proof.
  apply (unique_keys_kept one_seat).
  split; constructor.
Defined.

(** *** The order of the queue *)

Lemma sorted_snoc (l : list Z) (x : Z) :
  StronglySorted Z.lt l -> Forall (fun y => y < x) l ->
  StronglySorted Z.lt (l ++ [x]).
Proof.
  intros Hs Hlt. induction Hs as [|a l Hs IH Ha]; simpl.
  - constructor; constructor.
  - inversion Hlt as [|? ? Hax Hl]; subst.
    constructor; [now apply IH|].
    apply Forall_app. split; [exact Ha|]. constructor; [exact Hax|constructor].
Qed.

Lemma sorted_positions_filter (p q : waitlist_row -> bool)
    (l : list waitlist_row) :
  StronglySorted Z.lt (map w_position (filter p l)) ->
  StronglySorted Z.lt (map w_position (filter p (filter q l))).
Proof.
  induction l as [|w l IH]; simpl; intros H; [constructor|].
  destruct (q w); simpl; destruct (p w); simpl in *; auto.
  - inversion H as [|? ? Hs Hall]; subst.
    constructor; [now apply IH|].
    rewrite Forall_forall in *. intros x Hx. apply Hall.
    apply in_map_iff in Hx as (y & <- & Hy).
    apply in_map_iff. exists y. split; [reflexivity|].
    apply filter_In in Hy as [Hy Hp]. apply filter_In in Hy as [Hy _].
    apply filter_In. now split.
  - inversion H; subst. now apply IH.
Qed.

Lemma forall_positions_filter (P : Z -> Prop) (p q : waitlist_row -> bool)
    (l : list waitlist_row) :
  Forall P (map w_position (filter p l)) ->
  Forall P (map w_position (filter p (filter q l))).
Proof.
  rewrite !Forall_forall. intros H x Hx. apply H.
  apply in_map_iff in Hx as (y & <- & Hy).
  apply in_map_iff. exists y. split; [reflexivity|].
  apply filter_In in Hy as [Hy Hp]. apply filter_In in Hy as [Hy _].
  apply filter_In. now split.
Qed.

Lemma step_queue_ordered db st :
  queue_ordered db -> queue_ordered (step db st).
Proof.
  intros Hinv sid. pose proof (step_tables db st) as H.
  destruct (Hinv sid) as [Hs Hpos].
  unfold section_positions in *.
  destruct st as [a s status|a s status|s a p|s a].
  - destruct H as [-> _]. now split.
  - destruct H as [-> _]. now split.
  - destruct H as [_ [->|(_ & ->)]]; [now split|].
    rewrite SchemaFacts.positions_after_insert. cbn [w_section_id w_position].
    destruct (Z.eqb_spec s sid) as [->|Hne]; [|rewrite app_nil_r; now split].
    change (map w_position
              (filter (fun w => w_section_id w =? sid) (waitlist db)))
      with (section_positions db sid) in *.
    pose proof (SchemaFacts.sql_max_spec (section_positions db sid)) as Hmax.
    destruct (sql_max (section_positions db sid)) as [m|]; cbn [COALESCE].
    + destruct Hmax as [Hin Hmax].
      assert (1 <= m) by (rewrite Forall_forall in Hpos; now apply Hpos).
      split.
      * apply sorted_snoc; [exact Hs|]. rewrite Forall_forall.
        intros x Hx. specialize (Hmax x Hx). lia.
      * apply Forall_app. split; [exact Hpos|]. constructor; [lia|constructor].
    + rewrite Hmax. simpl. split; repeat constructor. lia.
  - destruct H as [_ ->]. split.
    + now apply sorted_positions_filter.
    + now apply forall_positions_filter.
Qed.

(** X2: whatever is inserted into or deleted from the waitlist, each
    section's positions stay strictly increasing in arrival order and at
    least 1: no two entries of a section ever share a position and nobody
    is ever placed ahead of an earlier arrival, with or without gaps. *)
Theorem queue_order_kept db stmts :
  queue_ordered db ->
  queue_ordered (run db stmts)
  /\ forall sid, NoDup (section_positions (run db stmts) sid).
Proof.
  intros H.
  assert (Hrun : queue_ordered (run db stmts)).
  { unfold run. revert db H.
    induction stmts as [|st stmts IH]; intros db H; simpl; [exact H|].
    apply IH. now apply step_queue_ordered. }
  split; [exact Hrun|].
  intros sid. destruct (Hrun sid) as [Hs _].
  induction Hs as [|x l Hs IH Hx]; constructor; [|exact IH].
  intros Hin. rewrite Forall_forall in Hx. specialize (Hx x Hin). lia.
Qed.

Lemma queue_order_kept_witness :
  queue_ordered (run one_seat queue_script)
  /\ forall sid, NoDup (section_positions (run one_seat queue_script) sid).
Proof.
  apply (queue_order_kept one_seat).
  intros sid. split; constructor.
Defined.

(** *** When an enrollment insert is accepted *)

Lemma section_exists_capacity db s :
  section_exists db s = true <-> exists cap, section_capacity db s = Some cap.
Proof.
  unfold section_exists, section_capacity.
  induction (section db) as [|r l IH]; simpl.
  - split; [discriminate|intros [cap H]; discriminate].
  - destruct (s_section_id r =? s); simpl.
    + split; [intros _; eexists; reflexivity|reflexivity].
    + exact IH.
Qed.

Lemma insert_enrollment_accepts db a s status cap :
  student_exists db a = true ->
  section_capacity db s = Some cap ->
  current_enrollment db s < cap ->
  existsb (same_enrollment a s) (enrollment db) = false ->
  insert_enrollment db a s status
  = Ok (after_enrollment_insert
          (set_enrollment db
             (enrollment db ++
                [{| e_enrollment_id := next_enrollment_id db;
                    e_student_id := a; e_section_id := s;
                    e_enrollment_status := status |}])
             (next_enrollment_id db + 1))
          {| e_enrollment_id := next_enrollment_id db;
             e_student_id := a; e_section_id := s;
             e_enrollment_status := status |}).
Proof.
  intros Ha Hc Hlt Hdup.
  unfold insert_enrollment, before_enrollment_insert, bind; simpl.
  rewrite Hc.
  assert ((current_enrollment db s >=? cap) = false) as ->
    by (rewrite Z.geb_leb; apply Z.leb_gt; exact Hlt).
  rewrite Ha. simpl.
  assert (section_exists db s = true) as ->
    by (apply section_exists_capacity; eauto).
  simpl. rewrite Hdup. reflexivity.
Qed.

(** X3: an insert into [enrollment] is accepted exactly when the student
    exists, the section exists with fewer 'Enrolled' rows than its
    capacity, and the pair has no row yet (of any status); in every other
    case it ends in an error. *)
Theorem insert_enrollment_accepted_iff db a s status :
  (exists db', insert_enrollment db a s status = Ok db')
  <-> (student_exists db a = true
       /\ (exists cap, section_capacity db s = Some cap
                       /\ current_enrollment db s < cap)
       /\ existsb (same_enrollment a s) (enrollment db) = false).
Proof.
  split.
  - intros [db' H].
    apply SchemaFacts.insert_enrollment_inv in H as (Hcap & Ha & Hs & Hdup & _).
    split; [exact Ha|]. split; [|exact Hdup].
    apply section_exists_capacity in Hs as [cap Hc].
    exists cap. split; [exact Hc|now apply Hcap].
  - intros (Ha & (cap & Hc & Hlt) & Hdup).
    eexists. now apply (insert_enrollment_accepts db a s status cap).
Qed.

Lemma insert_enrollment_accepted_iff_witness :
  exists db', insert_enrollment one_seat 2 1 Enrolled = Ok db'.
Proof.
  apply (proj2 (insert_enrollment_accepted_iff one_seat 2 1 Enrolled)).
  split; [reflexivity|]. split; [|reflexivity].
  exists 1. split; [reflexivity|]. vm_compute. reflexivity.
Defined.

(** *** A freed seat *)

Lemma count_after_drop rows a s sid :
  (List.length (filter (counted sid)
     (map (fun e => if same_enrollment a s e then set_status e Dropped else e)
          rows))
   + List.length (filter (counted sid) (filter (same_enrollment a s) rows))
   = List.length (filter (counted sid) rows))%nat.
Proof.
  induction rows as [|e rows IH]; simpl; [reflexivity|].
  destruct (same_enrollment a s e); simpl.
  - assert (counted sid (set_status e Dropped) = false) as ->
      by (unfold counted; simpl; apply andb_false_r).
    destruct (counted sid e); simpl; lia.
  - destruct (counted sid e); simpl; lia.
Qed.

Lemma same_enrollment_after_update rows a s b status :
  existsb (same_enrollment b s)
    (map (fun e => if same_enrollment a s e then set_status e status else e)
         rows)
  = existsb (same_enrollment b s) rows.
Proof.
  induction rows as [|e rows IH]; simpl; [reflexivity|].
  rewrite IH. destruct (same_enrollment a s e); reflexivity.
Qed.

Lemma step_update_keys db a s status :
  section (step db (UpdateEnrollmentStatus a s status)) = section db
  /\ student_profile (step db (UpdateEnrollmentStatus a s status))
     = student_profile db.
Proof.
  unfold step. simpl exec. unfold update_enrollment_status.
  match goal with |- section (fold_left _ ?rows ?d) = _ /\ _ =>
    destruct (SchemaFacts.update_fold_tables status rows d)
      as (_ & _ & Hs & Hp & _) end.
  rewrite Hs, Hp. split; reflexivity.
Qed.

(** X5: in a section that holds no more 'Enrolled' rows than its
    capacity, a drop frees exactly one seat, and the seat goes to whoever
    inserts next.  When a student's only row in such a section is
    'Enrolled', the UPDATE to 'Dropped' lowers the section's 'Enrolled'
    count by one and leaves the waitlist alone; the next insert by any
    other existing student without a row there is then accepted,
    waitlisted students or not, and brings the count back to what it was.
    (In a section already over its capacity the freed seat may not be
    enough: the insert is still refused.) *)
Theorem freed_seat_goes_to_next_insert db a b s cap old :
  section_capacity db s = Some cap ->
  current_enrollment db s <= cap ->
  filter (same_enrollment a s) (enrollment db) = [old] ->
  e_enrollment_status old = Enrolled ->
  student_exists db b = true ->
  existsb (same_enrollment b s) (enrollment db) = false ->
  current_enrollment (step db (UpdateEnrollmentStatus a s Dropped)) s
  = current_enrollment db s - 1
  /\ waitlist (step db (UpdateEnrollmentStatus a s Dropped)) = waitlist db
  /\ exists db',
       exec (step db (UpdateEnrollmentStatus a s Dropped))
            (InsertEnrollment b s Enrolled) = Ok db'
       /\ current_enrollment db' s = current_enrollment db s.
Proof.
  intros Hc Hle Hone Hst Hb Hdup.
  destruct (step_tables db (UpdateEnrollmentStatus a s Dropped)) as [Hw He].
  destruct (step_update_keys db a s Dropped) as (Hs & Hp).
  set (dropped := step db (UpdateEnrollmentStatus a s Dropped)) in *.
  assert (Hold : counted s old = true).
  { assert (In old (filter (same_enrollment a s) (enrollment db))) as Hin
      by (rewrite Hone; now left).
    apply filter_In in Hin as [_ Hsame].
    unfold same_enrollment in Hsame. apply andb_prop in Hsame as [_ Hs'].
    unfold counted. rewrite Hs', Hst. reflexivity. }
  assert (Hcount : current_enrollment dropped s = current_enrollment db s - 1).
  { unfold current_enrollment. rewrite He.
    pose proof (count_after_drop (enrollment db) a s s) as H.
    rewrite Hone in H. simpl in H. rewrite Hold in H. simpl in H.
    unfold counted in H at 1 2. lia. }
  split; [exact Hcount|]. split; [exact Hw|].
  assert (Hacc := insert_enrollment_accepts dropped b s Enrolled cap).
  rewrite (SchemaFacts.section_capacity_ext dropped db s Hs) in Hacc.
  unfold student_exists in Hacc at 1. rewrite Hp in Hacc.
  rewrite He, same_enrollment_after_update in Hacc.
  specialize (Hacc Hb Hc ltac:(lia) Hdup).
  eexists. split; [exact Hacc|].
  unfold after_enrollment_insert, current_enrollment.
  rewrite SchemaFacts.audit_fold_enrollment. simpl enrollment.
  change (fun e => (e_section_id e =? s)
                   && status_eqb (e_enrollment_status e) Enrolled)
    with (counted s).
  rewrite SchemaFacts.count_after_insert.
  unfold counted at 2. cbn [e_section_id e_enrollment_status].
  rewrite Z.eqb_refl. simpl.
  unfold current_enrollment in Hcount. rewrite He in Hcount.
  unfold counted. lia.
Qed.

Lemma freed_seat_goes_to_next_insert_witness :
  current_enrollment (step one_seat_full (UpdateEnrollmentStatus 1 1 Dropped)) 1
  = current_enrollment one_seat_full 1 - 1
  /\ waitlist (step one_seat_full (UpdateEnrollmentStatus 1 1 Dropped))
     = waitlist one_seat_full
  /\ exists db',
       exec (step one_seat_full (UpdateEnrollmentStatus 1 1 Dropped))
            (InsertEnrollment 4 1 Enrolled) = Ok db'
       /\ current_enrollment db' 1 = current_enrollment one_seat_full 1.
Proof.
  apply (freed_seat_goes_to_next_insert one_seat_full 1 4 1 1
           {| e_enrollment_id := 1; e_student_id := 1; e_section_id := 1;
              e_enrollment_status := Enrolled |}).
  - reflexivity.
  - vm_compute. discriminate.
  - reflexivity.
  - reflexivity.
  - reflexivity.
  - reflexivity.
Defined.

(** *** Statements about a pair that has no row *)

Lemma map_unmatched {A : Type} (p : A -> bool) (f : A -> A) (l : list A) :
  existsb p l = false -> map (fun x => if p x then f x else x) l = l.
Proof.
  induction l as [|a l IH]; simpl; [reflexivity|].
  intros H. apply orb_false_elim in H as [-> Hl]. now rewrite IH.
Qed.

Lemma filter_unmatched {A : Type} (p : A -> bool) (l : list A) :
  existsb p l = false ->
  filter p l = [] /\ filter (fun x => negb (p x)) l = l.
Proof.
  induction l as [|a l IH]; simpl; [split; reflexivity|].
  intros H. apply orb_false_elim in H as [-> Hl].
  destruct (IH Hl) as [-> ->]. split; reflexivity.
Qed.

(** X19: a status update or a waitlist delete aimed at a pair that has no
    row is not an error: the statement is accepted and the database is
    left exactly as it was, with nothing logged. *)
Theorem absent_pair_is_a_silent_no_op db a s status :
  (existsb (same_enrollment a s) (enrollment db) = false ->
   exec db (UpdateEnrollmentStatus a s status) = Ok db)
  /\ (existsb (same_waitlist s a) (waitlist db) = false ->
      exec db (DeleteWaitlist s a) = Ok db).
Proof.
  split; intros H; simpl.
  - unfold update_enrollment_status.
    destruct (filter_unmatched _ _ H) as [-> _].
    rewrite map_unmatched by exact H. destruct db; reflexivity.
  - unfold delete_waitlist.
    destruct (filter_unmatched _ _ H) as [_ ->]. destruct db; reflexivity.
Qed.

Lemma absent_pair_is_a_silent_no_op_witness :
  exec one_seat_full (UpdateEnrollmentStatus 4 1 Dropped) = Ok one_seat_full
  /\ exec one_seat_full (DeleteWaitlist 1 4) = Ok one_seat_full.
Proof.
  split.
  - apply (proj1 (absent_pair_is_a_silent_no_op one_seat_full 4 1 Dropped)).
    reflexivity.
  - apply (proj2 (absent_pair_is_a_silent_no_op one_seat_full 4 1 Dropped)).
    reflexivity.
Defined.

End SchemaMore.

(* ====================================================================== *)
(** ** Requests served one after the other: what each one gets            *)
(* ====================================================================== *)

Module ArrivalFacts.

Import Schema Props Arrivals.

(** An accepted insert into [enrollment] changes the [enrollment] table
    and the audit log only. *)
Lemma accepted_enrol_tables db a s cap :
  student_exists db a = true ->
  section_capacity db s = Some cap ->
  current_enrollment db s < cap ->
  existsb (same_enrollment a s) (enrollment db) = false ->
  exec db (InsertEnrollment a s Enrolled)
  = Ok (step db (InsertEnrollment a s Enrolled))
  /\ section (step db (InsertEnrollment a s Enrolled)) = section db
  /\ student_profile (step db (InsertEnrollment a s Enrolled))
     = student_profile db
  /\ waitlist (step db (InsertEnrollment a s Enrolled)) = waitlist db
  /\ enrollment (step db (InsertEnrollment a s Enrolled))
     = enrollment db ++
       [{| e_enrollment_id := next_enrollment_id db;
           e_student_id := a; e_section_id := s;
           e_enrollment_status := Enrolled |}].
Proof.
  intros Ha Hc Hlt Hdup.
  pose proof (SchemaMore.insert_enrollment_accepts db a s Enrolled cap
                Ha Hc Hlt Hdup) as Hok.
  unfold step. cbn [exec]. rewrite Hok.
  split; [reflexivity|]. unfold after_enrollment_insert.
  rewrite SchemaFacts.audit_fold_section,
    SchemaFacts.audit_fold_student_profile,
    SchemaFacts.audit_fold_waitlist, SchemaFacts.audit_fold_enrollment.
  repeat split.
Qed.

Lemma no_row_after_other a b s rows row :
  e_student_id row = a ->
  a <> b ->
  existsb (same_enrollment b s) rows = false ->
  existsb (same_enrollment b s) (rows ++ [row]) = false.
Proof.
  intros Hrow Hne Hno. rewrite existsb_app, Hno. simpl.
  unfold same_enrollment. rewrite Hrow.
  destruct (Z.eqb_spec a b); [contradiction|reflexivity].
Qed.

Lemma run_cons db st stmts : run db (st :: stmts) = run (step db st) stmts.
Proof. reflexivity. Qed.

(** Serial inserts into a section: the free seats go to the first
    arrivals, everyone after them is turned away. *)
Lemma enrol_requests_outcomes s cap students :
  forall db,
    section_capacity db s = Some cap ->
    NoDup students ->
    (forall a, In a students ->
               student_exists db a = true
               /\ existsb (same_enrollment a s) (enrollment db) = false) ->
    outcomes db (enrol_requests s students)
    = repeat None
        (Nat.min (Z.to_nat (cap - current_enrollment db s))
                 (List.length students))
      ++ repeat (Some full_capacity)
           (List.length students - Z.to_nat (cap - current_enrollment db s))
    /\ current_enrollment (run db (enrol_requests s students)) s
       = current_enrollment db s
         + Z.of_nat (Nat.min (Z.to_nat (cap - current_enrollment db s))
                             (List.length students))
    /\ waitlist (run db (enrol_requests s students)) = waitlist db
    /\ section (run db (enrol_requests s students)) = section db
    /\ student_profile (run db (enrol_requests s students))
       = student_profile db.
Proof.
  induction students as [|a rest IH]; intros db Hc Hnd Hall.
  - simpl. rewrite Nat.min_0_r. simpl. repeat split. lia.
  - inversion Hnd as [|? ? Hnotin Hnd']; subst.
    destruct (Hall a (or_introl eq_refl)) as [Ha Hdup].
    change (enrol_requests s (a :: rest))
      with (InsertEnrollment a s Enrolled :: enrol_requests s rest).
    rewrite run_cons. cbn [outcomes List.length].
    destruct (Z_lt_le_dec (current_enrollment db s) cap) as [Hlt|Hge].
    + destruct (accepted_enrol_tables db a s cap Ha Hc Hlt Hdup)
        as (Hex & Hsec & Hsp & Hw & Hen).
      set (db1 := step db (InsertEnrollment a s Enrolled)) in *.
      assert (Hc1 : section_capacity db1 s = Some cap)
        by (rewrite (SchemaFacts.section_capacity_ext db1 db s Hsec);
            exact Hc).
      assert (Hcount : current_enrollment db1 s = current_enrollment db s + 1).
      { unfold current_enrollment. rewrite Hen.
        rewrite (SchemaFacts.count_after_insert (enrollment db) _ s).
        unfold counted. cbn [e_section_id e_enrollment_status].
        rewrite Z.eqb_refl. reflexivity. }
      assert (Hall1 : forall b, In b rest ->
                student_exists db1 b = true
                /\ existsb (same_enrollment b s) (enrollment db1) = false).
      { intros b Hb. destruct (Hall b (or_intror Hb)) as [Hb1 Hb2]. split.
        - unfold student_exists. rewrite Hsp. exact Hb1.
        - rewrite Hen. apply (no_row_after_other a); auto.
          intros ->. contradiction. }
      destruct (IH db1 Hc1 Hnd' Hall1) as (Hout & Hcnt & Hw1 & Hs1 & Hp1).
      cbn [exec] in Hex |- *. rewrite Hex, Hout, Hcnt, Hw1, Hs1, Hp1, Hcount.
      assert (Hfree : Z.to_nat (cap - current_enrollment db s)
                      = S (Z.to_nat (cap - (current_enrollment db s + 1))))
        by lia.
      rewrite Hfree. cbn [Nat.min Nat.sub repeat app].
      repeat split; auto. lia.
    + pose proof (SchemaFacts.insert_enrollment_full db a s Enrolled cap
                    Hc Hge) as Herr.
      assert (Hstep : step db (InsertEnrollment a s Enrolled) = db)
        by (unfold step; cbn [exec]; rewrite Herr; reflexivity).
      rewrite Hstep. cbn [exec]. rewrite Herr.
      destruct (IH db Hc Hnd' (fun b Hb => Hall b (or_intror Hb)))
        as (Hout & Hcnt & Hw1 & Hs1 & Hp1).
      rewrite Hout, Hcnt, Hw1, Hs1, Hp1.
      assert (Hfree : Z.to_nat (cap - current_enrollment db s) = 0%nat)
        by lia.
      rewrite Hfree, Nat.sub_0_r. cbn [Nat.min Nat.sub repeat app].
      repeat split; auto.
Qed.

Lemma no_entry_after_other a b s rows row :
  w_student_id row = a ->
  a <> b ->
  existsb (same_waitlist s b) rows = false ->
  existsb (same_waitlist s b) (rows ++ [row]) = false.
Proof.
  intros Hrow Hne Hno. rewrite existsb_app, Hno. simpl.
  unfold same_waitlist. rewrite Hrow.
  destruct (Z.eqb_spec a b); [contradiction|].
  now rewrite andb_false_r.
Qed.

(** Serial inserts into a section's waitlist: each one is accepted and
    takes the next position. *)
Lemma waitlist_requests_positions s students :
  forall db m,
    section_exists db s = true ->
    NoDup students ->
    (forall a, In a students ->
               student_exists db a = true
               /\ existsb (same_waitlist s a) (waitlist db) = false) ->
    section_positions db s = one_to m ->
    Z.of_nat (m + List.length students) <= INT_MAX ->
    outcomes db (waitlist_requests s students)
    = repeat None (List.length students)
    /\ section_positions (run db (waitlist_requests s students)) s
       = one_to (m + List.length students)
    /\ map w_student_id
         (section_queue (run db (waitlist_requests s students)) s)
       = map w_student_id (section_queue db s) ++ students.
Proof.
  induction students as [|a rest IH]; intros db m Hs Hnd Hall Hpos Hmax.
  - simpl. rewrite Nat.add_0_r, app_nil_r. repeat split. exact Hpos.
  - inversion Hnd as [|? ? Hnotin Hnd']; subst.
    destruct (Hall a (or_introl eq_refl)) as [Ha Hdup].
    change (waitlist_requests s (a :: rest))
      with (InsertWaitlist s a 0 :: waitlist_requests s rest).
    rewrite run_cons. cbn [outcomes List.length].
    assert (Hnext : COALESCE (sql_max (section_positions db s)) 0 + 1
                    = Z.of_nat (S m))
      by (rewrite Hpos; apply SchemaFacts.next_after_one_to).
    destruct (SchemaFacts.insert_waitlist_accepts db s a 0) as [db1 Hok];
      auto.
    { rewrite Hnext. cbn [List.length] in Hmax. lia. }
    assert (Hstep : step db (InsertWaitlist s a 0) = db1)
      by (unfold step; cbn [exec]; rewrite Hok; reflexivity).
    rewrite Hstep. cbn [exec]. rewrite Hok.
    apply SchemaFacts.insert_waitlist_inv in Hok as (_ & _ & _ & _ & Hdb1).
    assert (Hsec : section db1 = section db) by (rewrite Hdb1; reflexivity).
    assert (Hsp : student_profile db1 = student_profile db)
      by (rewrite Hdb1; reflexivity).
    assert (Hw : waitlist db1
                 = waitlist db ++
                   [{| w_waitlist_id := next_waitlist_id db;
                       w_section_id := s; w_student_id := a;
                       w_position := Z.of_nat (S m) |}])
      by (rewrite Hdb1, <- Hnext; reflexivity).
    assert (Hpos1 : section_positions db1 s = one_to (S m)).
    { unfold section_positions. rewrite Hw.
      rewrite SchemaFacts.positions_after_insert.
      cbn [w_section_id w_position]. rewrite Z.eqb_refl.
      change (map w_position
                (filter (fun w => w_section_id w =? s) (waitlist db)))
        with (section_positions db s).
      rewrite Hpos. symmetry. apply SchemaFacts.one_to_S. }
    assert (Hall1 : forall b, In b rest ->
              student_exists db1 b = true
              /\ existsb (same_waitlist s b) (waitlist db1) = false).
    { intros b Hb. destruct (Hall b (or_intror Hb)) as [Hb1 Hb2]. split.
      - unfold student_exists. rewrite Hsp. exact Hb1.
      - rewrite Hw. apply (no_entry_after_other a); auto.
        intros ->. contradiction. }
    destruct (IH db1 (S m)) as (Hout & Hp & Hq); auto.
    { unfold section_exists. rewrite Hsec. exact Hs. }
    { cbn [List.length] in Hmax. lia. }
    rewrite Hout, Hp, Hq. repeat split.
    + f_equal. lia.
    + unfold section_queue at 1. rewrite Hw, filter_app, map_app.
      cbn [filter w_section_id]. rewrite Z.eqb_refl.
      cbn [map w_student_id]. rewrite <- app_assoc. reflexivity.
Qed.

Lemma NoDup_skipn {A : Type} (n : nat) (l : list A) :
  NoDup l -> NoDup (skipn n l).
Proof.
  intros H. rewrite <- (firstn_skipn n l) in H.
  now apply NoDup_app_remove_l in H.
Qed.

Lemma skipped_from {A : Type} (n : nat) (l : list A) (x : A) :
  In x (skipn n l) -> In x l.
Proof.
  intros H. rewrite <- (firstn_skipn n l). apply in_or_app. now right.
Qed.

Lemma section_without_rows rows s :
  (forall e, In e rows -> e_section_id e <> s) ->
  filter (counted s) rows = []
  /\ forall a, existsb (same_enrollment a s) rows = false.
Proof.
  induction rows as [|e l IH]; intros Hnone; [now split|].
  destruct IH as [IH1 IH2]; [intros x Hx; apply Hnone; now right|].
  assert (Hne : (e_section_id e =? s) = false)
    by (apply Z.eqb_neq, Hnone; now left).
  split.
  - simpl. unfold counted at 1. rewrite Hne. exact IH1.
  - intros a. simpl. unfold same_enrollment at 1.
    rewrite Hne, andb_false_r. apply IH2.
Qed.

Lemma section_without_queue rows s :
  (forall w, In w rows -> w_section_id w <> s) ->
  filter (fun w => w_section_id w =? s) rows = []
  /\ forall a, existsb (same_waitlist s a) rows = false.
Proof.
  induction rows as [|w l IH]; intros Hnone; [now split|].
  destruct IH as [IH1 IH2]; [intros x Hx; apply Hnone; now right|].
  assert (Hne : (w_section_id w =? s) = false)
    by (apply Z.eqb_neq, Hnone; now left).
  split.
  - simpl. rewrite Hne. exact IH1.
  - intros a. simpl. unfold same_waitlist at 1. rewrite Hne. apply IH2.
Qed.

(** C8, as amended: requests served one after the other, in any order.
    [students] are N distinct students in their order of arrival, each
    with a profile, and the section has capacity K, no enrollment row and
    no waitlist row.  Their N inserts into [enrollment] end as follows:
    the first min(K, N) are accepted, every later one is refused with
    SQLSTATE 45000 'Section is at full capacity', the section ends with
    min(K, N) 'Enrolled' rows and the waitlist is as it was: nobody is
    waitlisted.  When the refused students are then inserted into the
    waitlist in their order of arrival, every insert is accepted and they
    hold positions 1 .. N - K in that order. *)
Theorem serial_requests_fill_then_refuse db s cap students :
  section_capacity db s = Some cap ->
  (forall e, In e (enrollment db) -> e_section_id e <> s) ->
  (forall w, In w (waitlist db) -> w_section_id w <> s) ->
  NoDup students ->
  (forall a, In a students -> student_exists db a = true) ->
  Z.of_nat (List.length students) <= INT_MAX ->
  outcomes db (enrol_requests s students)
  = repeat None (Nat.min (Z.to_nat cap) (List.length students))
    ++ repeat (Some full_capacity) (List.length students - Z.to_nat cap)
  /\ current_enrollment (run db (enrol_requests s students)) s
     = Z.of_nat (Nat.min (Z.to_nat cap) (List.length students))
  /\ waitlist (run db (enrol_requests s students)) = waitlist db
  /\ outcomes (run db (enrol_requests s students))
       (waitlist_requests s (skipn (Z.to_nat cap) students))
     = repeat None (List.length students - Z.to_nat cap)
  /\ section_positions
       (run (run db (enrol_requests s students))
            (waitlist_requests s (skipn (Z.to_nat cap) students))) s
     = one_to (List.length students - Z.to_nat cap)
  /\ map w_student_id
       (section_queue
          (run (run db (enrol_requests s students))
               (waitlist_requests s (skipn (Z.to_nat cap) students))) s)
     = skipn (Z.to_nat cap) students.
Proof.
  intros Hc Hnone Hqueue Hnd Hex Hmax.
  destruct (section_without_rows (enrollment db) s Hnone) as [Hrows Hfresh].
  destruct (section_without_queue (waitlist db) s Hqueue) as [Hempty Habsent].
  assert (Hcount : current_enrollment db s = 0)
    by (unfold current_enrollment; fold (counted s); now rewrite Hrows).
  destruct (enrol_requests_outcomes s cap students db Hc Hnd)
    as (Hout & Hcnt & Hw & Hsec & Hsp).
  { intros a Ha. split; [now apply Hex|apply Hfresh]. }
  rewrite Hcount, Z.sub_0_r in Hout, Hcnt. rewrite Z.add_0_l in Hcnt.
  set (db1 := run db (enrol_requests s students)) in *.
  destruct (waitlist_requests_positions s (skipn (Z.to_nat cap) students)
              db1 0%nat) as (Hq1 & Hq2 & Hq3).
  - unfold section_exists. rewrite Hsec.
    apply SchemaMore.section_exists_capacity. eauto.
  - now apply NoDup_skipn.
  - intros a Ha. apply skipped_from in Ha. split.
    + unfold student_exists. rewrite Hsp. now apply Hex.
    + rewrite Hw. apply Habsent.
  - unfold section_positions. rewrite Hw. now rewrite Hempty.
  - rewrite length_skipn. lia.
  - unfold section_queue in Hq3 at 2. rewrite Hw, Hempty in Hq3.
    rewrite length_skipn in Hq1, Hq2.
    repeat split; assumption.
Qed.

Lemma serial_requests_fill_then_refuse_witness :
  outcomes one_seat (enrol_requests 1 [3; 1; 2])
  = [None; Some full_capacity; Some full_capacity]
  /\ current_enrollment (run one_seat (enrol_requests 1 [3; 1; 2])) 1 = 1
  /\ waitlist (run one_seat (enrol_requests 1 [3; 1; 2])) = []
  /\ outcomes (run one_seat (enrol_requests 1 [3; 1; 2]))
       (waitlist_requests 1 [1; 2])
     = [None; None]
  /\ section_positions
       (run (run one_seat (enrol_requests 1 [3; 1; 2]))
            (waitlist_requests 1 [1; 2])) 1
     = [1; 2]
  /\ map w_student_id
       (section_queue
          (run (run one_seat (enrol_requests 1 [3; 1; 2]))
               (waitlist_requests 1 [1; 2])) 1)
     = [1; 2].
Proof.
  apply (serial_requests_fill_then_refuse one_seat 1 1 [3; 1; 2]).
  - reflexivity.
  - intros e [].
  - intros w [].
  - repeat constructor; simpl; intuition discriminate.
  - intros a [<-|[<-|[<-|[]]]]; reflexivity.
  - vm_compute. discriminate.
Defined.

(** C8, as stated, fails in every order of arrival: three students ask
    for the one seat of a section; the first to arrive is enrolled and the
    other two get the error, no waitlist row is written, so nobody is
    waitlisted and nobody holds position 1 or 2. *)
Lemma late_arrivals_get_an_error_not_a_position :
  Forall
    (fun students =>
       outcomes one_seat (enrol_requests 1 students)
       = [None; Some full_capacity; Some full_capacity]
       /\ current_enrollment (run one_seat (enrol_requests 1 students)) 1 = 1
       /\ waitlist (run one_seat (enrol_requests 1 students)) = []
       /\ section_positions (run one_seat (enrol_requests 1 students)) 1 = [])
    three_arrivals.
Proof. repeat constructor. Qed.

End ArrivalFacts.

(* ====================================================================== *)
(** ** More about the client: listings, seats and the admin's courses      *)
(* ====================================================================== *)

Module ListingFacts.

Import App.
Local Open Scope list_scope.
Local Open Scope Z_scope.

(** *** The list of enrolled courses *)

Lemma getEnrolledCourses_In d u c :
  In c (Client.getEnrolledCourses d (Some u))
  <-> exists e,
        In e (enrollments d) /\ studentId e = u_id u
        /\ status e = "enrolled"%string /\ ClientProps.lookup d (App.courseId e) = Some c.
Proof.
  unfold Client.getEnrolledCourses, ClientProps.lookup.
  rewrite in_flat_map. split.
  - intros (found & Hin & Hc).
    apply in_map_iff in Hin as (e & <- & He).
    apply filter_In in He as [He Hp]. apply andb_prop in Hp as [Hs Hst].
    apply Z.eqb_eq in Hs. apply String.eqb_eq in Hst.
    exists e. repeat split; try assumption.
    destruct (find _ _) as [c'|]; simpl in Hc; [|destruct Hc].
    destruct Hc as [->|[]]. reflexivity.
  - intros (e & He & Hs & Hst & Hf).
    exists (Some c). split; [|now left].
    apply in_map_iff. exists e. split; [exact Hf|].
    apply filter_In. split; [exact He|].
    rewrite Hs, Hst, Z.eqb_refl. reflexivity.
Qed.

Lemma isEnrolled_iff d u courseId :
  isEnrolled d u courseId = true
  <-> exists e,
        In e (enrollments d) /\ studentId e = u_id u
        /\ App.courseId e = courseId /\ status e = "enrolled"%string.
Proof.
  unfold isEnrolled. rewrite existsb_exists. split.
  - intros (e & He & Hp). apply andb_prop in Hp as [Hp Hst].
    apply andb_prop in Hp as [Hs Hc].
    apply Z.eqb_eq in Hs, Hc. apply String.eqb_eq in Hst.
    exists e. repeat split; assumption.
  - intros (e & He & Hs & Hc & Hst). exists e. split; [exact He|].
    rewrite Hs, Hc, Hst, !Z.eqb_refl. reflexivity.
Qed.

Lemma listed_iff_enrolled d u c :
  In c (Client.getEnrolledCourses d (Some u))
  <-> exists courseId,
        isEnrolled d u courseId = true /\ ClientProps.lookup d courseId = Some c.
Proof.
  rewrite getEnrolledCourses_In. split.
  - intros (e & He & Hs & Hst & Hf). exists (App.courseId e).
    split; [|exact Hf]. apply isEnrolled_iff. exists e. repeat split; auto.
  - intros (courseId & Hen & Hf).
    apply isEnrolled_iff in Hen as (e & He & Hs & Hc & Hst).
    exists e. subst courseId. repeat split; assumption.
Qed.

(** X6: [getEnrolledCourses] lists exactly the courses the student is
    enrolled in that still exist: nothing when nobody is logged in, and
    otherwise a course is listed if and only if it is the course [find]
    returns for an id for which [isEnrolled] holds. *)
Theorem enrolled_courses_listed d u c :
  Client.getEnrolledCourses d None = []
  /\ (In c (Client.getEnrolledCourses d (Some u))
      <-> exists courseId,
            isEnrolled d u courseId = true /\ ClientProps.lookup d courseId = Some c).
Proof. split; [reflexivity|apply listed_iff_enrolled]. Qed.

Lemma enrolled_courses_listed_witness :
  In {| c_id := 1; code := "CMSC495"; title := "CS Capstone";
        credits := 3; department := "Computer Science";
        description := "Senior capstone";
        capacity := 30; enrolled := 18;
        prerequisites := ["CMSC330"%string] |}
     (Client.getEnrolledCourses initializeDatabase (Some Props.johndoe)).
Proof.
  apply (proj2 (enrolled_courses_listed initializeDatabase Props.johndoe _)).
  exists 1. split; reflexivity.
Defined.

(** *** Enrolling and dropping *)

Lemma handleEnroll_success st u today courseId c :
  ClientProps.lookup (db st) courseId = Some c ->
  enrolled c < capacity c ->
  handleEnroll st u today courseId
  = showNotification
      (setDb st (fun prev =>
         set_enrollments_courses prev
           (enrollments prev ++
              [ {| e_id := Z.of_nat (List.length (enrollments prev)) + 1;
                   studentId := u_id u;
                   App.courseId := courseId;
                   status := "enrolled";
                   enrolledDate := today |} ])
           (map (fun c => if c_id c =? courseId
                          then set_enrolled c (enrolled c + 1) else c)
                (courses prev))))
      "Enrolled successfully" "success".
Proof.
  unfold ClientProps.lookup, handleEnroll. intros -> Hlt.
  assert ((enrolled c >=? capacity c) = false) as ->
    by (rewrite Z.geb_leb; apply Z.leb_gt; exact Hlt).
  reflexivity.
Qed.

Lemma lookup_after_bump d courseId delta courseId' :
  find (fun c => c_id c =? courseId')
    (map (fun c => if c_id c =? courseId
                   then set_enrolled c (enrolled c + delta) else c)
         (courses d))
  = option_map
      (fun c => if c_id c =? courseId
                then set_enrolled c (enrolled c + delta) else c)
      (ClientProps.lookup d courseId').
Proof.
  unfold ClientProps.lookup. apply AppFacts.find_map_same_id.
  intros c. destruct (c_id c =? courseId); reflexivity.
Qed.

Lemma records_after_enroll l r courseId' :
  Z.of_nat (List.length
    (filter (fun e => (App.courseId e =? courseId')
                      && (status e =? "enrolled")%string) (l ++ [r])))
  = Z.of_nat (List.length
      (filter (fun e => (App.courseId e =? courseId')
                        && (status e =? "enrolled")%string) l))
    + (if (App.courseId r =? courseId') && (status r =? "enrolled")%string
       then 1 else 0).
Proof.
  rewrite filter_app, length_app. simpl.
  destruct ((App.courseId r =? courseId') && (status r =? "enrolled")%string);
    simpl; lia.
Qed.

(** X7: a successful [handleEnroll] can be read back.  When the course is
    found with a free seat, afterwards [isEnrolled] holds for the pair,
    the course counts one more enrolled record and one more on its
    [enrolled] counter, it appears in the student's [getEnrolledCourses],
    and the success notification is shown. *)
Theorem enrol_then_listed st u today courseId c :
  ClientProps.lookup (db st) courseId = Some c ->
  enrolled c < capacity c ->
  isEnrolled (db (handleEnroll st u today courseId)) u courseId = true
  /\ ClientProps.lookup (db (handleEnroll st u today courseId)) courseId
     = Some (set_enrolled c (enrolled c + 1))
  /\ ClientProps.enrolled_records (db (handleEnroll st u today courseId)) courseId
     = ClientProps.enrolled_records (db st) courseId + 1
  /\ In (set_enrolled c (enrolled c + 1))
        (Client.getEnrolledCourses (db (handleEnroll st u today courseId))
           (Some u))
  /\ notification (handleEnroll st u today courseId)
     = Some {| message := "Enrolled successfully"; type := "success" |}.
Proof.
  intros Hf Hlt. rewrite (handleEnroll_success st u today courseId c Hf Hlt).
  assert (Hid : c_id c = courseId).
  { unfold ClientProps.lookup in Hf. apply find_some in Hf as [_ H].
    now apply Z.eqb_eq. }
  assert (Hen : isEnrolled
            (db (showNotification
               (setDb st (fun prev =>
                  set_enrollments_courses prev
                    (enrollments prev ++
                       [ {| e_id := Z.of_nat (List.length (enrollments prev)) + 1;
                            studentId := u_id u;
                            App.courseId := courseId;
                            status := "enrolled";
                            enrolledDate := today |} ])
                    (map (fun c => if c_id c =? courseId
                                   then set_enrolled c (enrolled c + 1) else c)
                         (courses prev))))
               "Enrolled successfully" "success")) u courseId = true).
  { apply isEnrolled_iff. eexists. split.
    - simpl. apply in_or_app. right. left. reflexivity.
    - repeat split. }
  assert (Hlk : ClientProps.lookup
            (db (showNotification
               (setDb st (fun prev =>
                  set_enrollments_courses prev
                    (enrollments prev ++
                       [ {| e_id := Z.of_nat (List.length (enrollments prev)) + 1;
                            studentId := u_id u;
                            App.courseId := courseId;
                            status := "enrolled";
                            enrolledDate := today |} ])
                    (map (fun c => if c_id c =? courseId
                                   then set_enrolled c (enrolled c + 1) else c)
                         (courses prev))))
               "Enrolled successfully" "success")) courseId
          = Some (set_enrolled c (enrolled c + 1))).
  { unfold ClientProps.lookup at 1. simpl courses.
    rewrite lookup_after_bump, Hf. simpl. now rewrite Hid, Z.eqb_refl. }
  split; [exact Hen|]. split; [exact Hlk|]. split; [|split; [|reflexivity]].
  - unfold ClientProps.enrolled_records. simpl enrollments.
    rewrite records_after_enroll. simpl. now rewrite Z.eqb_refl.
  - apply listed_iff_enrolled. exists courseId. split; assumption.
Qed.

Lemma enrol_then_listed_witness :
  isEnrolled
    (db (handleEnroll Props.first_render Props.johndoe "2025-11-12" 3))
    Props.johndoe 3 = true
  /\ ClientProps.lookup
       (db (handleEnroll Props.first_render Props.johndoe "2025-11-12" 3)) 3
     = Some (set_enrolled
               {| c_id := 3; code := "CMSC220"; title := "Data Structures";
                  credits := 3; department := "Computer Science";
                  description := "Data structures";
                  capacity := 30; enrolled := 22;
                  prerequisites := ["CMSC210"%string] |} (22 + 1))
  /\ ClientProps.enrolled_records
       (db (handleEnroll Props.first_render Props.johndoe "2025-11-12" 3)) 3
     = ClientProps.enrolled_records (db Props.first_render) 3 + 1
  /\ In (set_enrolled
           {| c_id := 3; code := "CMSC220"; title := "Data Structures";
              credits := 3; department := "Computer Science";
              description := "Data structures";
              capacity := 30; enrolled := 22;
              prerequisites := ["CMSC210"%string] |} (22 + 1))
        (Client.getEnrolledCourses
           (db (handleEnroll Props.first_render Props.johndoe "2025-11-12" 3))
           (Some Props.johndoe))
  /\ notification (handleEnroll Props.first_render Props.johndoe "2025-11-12" 3)
     = Some {| message := "Enrolled successfully"; type := "success" |}.
Proof.
  apply (enrol_then_listed Props.first_render Props.johndoe "2025-11-12"%string 3
           {| c_id := 3; code := "CMSC220"; title := "Data Structures";
              credits := 3; department := "Computer Science";
              description := "Data structures";
              capacity := 30; enrolled := 22;
              prerequisites := ["CMSC210"%string] |}).
  - reflexivity.
  - simpl. lia.
Defined.

Lemma set_enrolled_back c delta :
  set_enrolled (set_enrolled c (enrolled c + delta))
    (enrolled (set_enrolled c (enrolled c + delta)) - delta) = c.
Proof. destruct c; unfold set_enrolled; simpl. f_equal. lia. Qed.

(** X8: enrolling and then dropping gives the seat back.  After a
    successful [handleEnroll] followed by [handleDrop] of the same course
    by the same student, the list of courses, counters included, is
    exactly what it was, the student is no longer enrolled, and the
    enrollment list is one (dropped) record longer. *)
Theorem enrol_then_drop_restores_courses st u today courseId c :
  ClientProps.lookup (db st) courseId = Some c ->
  enrolled c < capacity c ->
  courses (db (handleDrop (handleEnroll st u today courseId) u courseId))
  = courses (db st)
  /\ isEnrolled
       (db (handleDrop (handleEnroll st u today courseId) u courseId))
       u courseId = false
  /\ List.length
       (enrollments
          (db (handleDrop (handleEnroll st u today courseId) u courseId)))
     = S (List.length (enrollments (db st))).
Proof.
  intros Hf Hlt. split; [|split].
  - rewrite (handleEnroll_success st u today courseId c Hf Hlt).
    simpl. rewrite map_map. rewrite <- (map_id (courses (db st))) at 2.
    apply map_ext. intros c0.
    destruct (c_id c0 =? courseId) eqn:E.
    + change (c_id (set_enrolled c0 (enrolled c0 + 1))) with (c_id c0).
      rewrite E. apply (set_enrolled_back c0 1).
    + now rewrite E.
  - apply AppFacts.handleDrop_not_enrolled.
  - rewrite (handleEnroll_success st u today courseId c Hf Hlt).
    simpl. rewrite length_map, length_app. simpl. lia.
Qed.

Lemma enrol_then_drop_restores_courses_witness :
  courses
    (db (handleDrop
           (handleEnroll Props.first_render Props.johndoe "2025-11-12" 3)
           Props.johndoe 3))
  = courses (db Props.first_render)
  /\ isEnrolled
       (db (handleDrop
              (handleEnroll Props.first_render Props.johndoe "2025-11-12" 3)
              Props.johndoe 3))
       Props.johndoe 3 = false
  /\ List.length
       (enrollments
          (db (handleDrop
                 (handleEnroll Props.first_render Props.johndoe "2025-11-12" 3)
                 Props.johndoe 3)))
     = S (List.length (enrollments (db Props.first_render))).
Proof.
  apply (enrol_then_drop_restores_courses Props.first_render Props.johndoe
           "2025-11-12"%string 3
           {| c_id := 3; code := "CMSC220"; title := "Data Structures";
              credits := 3; department := "Computer Science";
              description := "Data structures";
              capacity := 30; enrolled := 22;
              prerequisites := ["CMSC210"%string] |}).
  - reflexivity.
  - simpl. lia.
Defined.

(** *** Seats, records and counters *)








(** *** Deleting and adding courses *)

Lemma find_after_delete (courseId courseId' : Z) (l : list course) :
  find (fun c => c_id c =? courseId')
       (filter (fun c => negb (c_id c =? courseId)) l)
  = if courseId' =? courseId then None
    else find (fun c => c_id c =? courseId') l.
Proof.
  induction l as [|c l IH]; simpl.
  - destruct (courseId' =? courseId); reflexivity.
  - destruct (Z.eqb_spec (c_id c) courseId) as [Hc|Hc]; simpl.
    + rewrite IH. destruct (Z.eqb_spec courseId' courseId) as [->|Hne];
        [reflexivity|].
      assert ((c_id c =? courseId') = false) as ->
        by (apply Z.eqb_neq; congruence).
      reflexivity.
    + rewrite IH. destruct (Z.eqb_spec (c_id c) courseId') as [Hc'|Hc'].
      * assert ((courseId' =? courseId) = false) as ->
          by (apply Z.eqb_neq; congruence).
        reflexivity.
      * reflexivity.
Qed.

(** X10: deleting a course leaves its enrollment records behind.  After
    [handleDeleteCourse] the enrollment list is untouched, so [isEnrolled]
    answers as before for the deleted id, yet no course with that id is
    found any more: the student's [getEnrolledCourses] lists none (so no
    Drop button is offered for the record) and [handleEnroll] on that id
    does nothing. *)
Theorem deleted_course_leaves_records st courseId u today :
  enrollments (db (Client.handleDeleteCourse st courseId))
  = enrollments (db st)
  /\ isEnrolled (db (Client.handleDeleteCourse st courseId)) u courseId
     = isEnrolled (db st) u courseId
  /\ ClientProps.lookup (db (Client.handleDeleteCourse st courseId)) courseId
     = None
  /\ existsb (fun c => c_id c =? courseId)
       (Client.getEnrolledCourses
          (db (Client.handleDeleteCourse st courseId)) (Some u))
     = false
  /\ handleEnroll (Client.handleDeleteCourse st courseId) u today courseId
     = Client.handleDeleteCourse st courseId.
Proof.
  assert (Hlk : ClientProps.lookup
                  (db (Client.handleDeleteCourse st courseId)) courseId = None).
  { unfold ClientProps.lookup. simpl courses.
    rewrite find_after_delete, Z.eqb_refl. reflexivity. }
  split; [reflexivity|]. split; [reflexivity|]. split; [exact Hlk|]. split.
  - destruct (existsb _ _) eqn:E; [|reflexivity].
    apply existsb_exists in E as (c & Hin & Hid). apply Z.eqb_eq in Hid.
    apply listed_iff_enrolled in Hin as (courseId' & _ & Hf).
    assert (c_id c = courseId').
    { unfold ClientProps.lookup in Hf. apply find_some in Hf as [_ H].
      now apply Z.eqb_eq. }
    congruence.
  - apply AppFacts.handleEnroll_missing. exact Hlk.
Qed.

Lemma filter_ids_length (courseId : Z) (l : list course) :
  List.length (filter (fun c => negb (c_id c =? courseId)) l)
  = List.length (filter (fun x => negb (x =? courseId)) (map c_id l)).
Proof.
  induction l as [|c l IH]; simpl; [reflexivity|].
  destruct (c_id c =? courseId); simpl; now rewrite IH.
Qed.

Lemma filter_one_to_above (courseId : Z) (n : nat) :
  Z.of_nat n < courseId ->
  filter (fun x => negb (x =? courseId)) (Props.one_to n) = Props.one_to n.
Proof.
  intros Hlt. induction n as [|n IH]; [reflexivity|].
  rewrite SchemaFacts.one_to_S, filter_app, IH by lia. cbn [filter].
  assert ((Z.of_nat (S n) =? courseId) = false) as ->
    by (apply Z.eqb_neq; lia).
  reflexivity.
Qed.

Lemma filter_one_to_length (courseId : Z) (n : nat) :
  1 <= courseId <= Z.of_nat n ->
  S (List.length (filter (fun x => negb (x =? courseId)) (Props.one_to n)))
  = n.
Proof.
  induction n as [|n IH]; intros H; [lia|].
  rewrite SchemaFacts.one_to_S, filter_app, length_app.
  destruct (Z.eqb_spec (Z.of_nat (S n)) courseId) as [He|Hne].
  - rewrite filter_one_to_above by lia.
    rewrite SchemaFacts.length_one_to. cbn [filter]. rewrite He, Z.eqb_refl.
    simpl. lia.
  - cbn [filter]. assert ((Z.of_nat (S n) =? courseId) = false) as ->
      by (now apply Z.eqb_neq).
    simpl. rewrite Nat.add_1_r. f_equal. apply IH. lia.
Qed.

Lemma find_app_first {A : Type} (p : A -> bool) (l1 l2 : list A) (x : A) :
  find p l1 = Some x -> find p (l1 ++ l2) = Some x.
Proof.
  induction l1 as [|a l1 IH]; simpl; [discriminate|].
  destruct (p a); [trivial|exact IH].
Qed.

Lemma find_present (courseId : Z) (l : list course) :
  In courseId (map c_id l) ->
  exists c, find (fun c => c_id c =? courseId) l = Some c.
Proof.
  induction l as [|c l IH]; simpl; [intros []|].
  intros [Hc|Hin].
  - rewrite Hc, Z.eqb_refl. eexists; reflexivity.
  - destruct (c_id c =? courseId); [eexists; reflexivity|now apply IH].
Qed.

(** X11: a course added after a deletion can take the id of a course
    that is still there.  When the course ids are 1..n and a course other
    than the last is deleted, the next [handleAddCourse] gives the new
    course the id n again ([db.courses.length + 1]); the course that
    already had id n stays in the list ahead of it, so looking the id up
    ([handleEnroll]'s [find]) still returns the older course. *)
Theorem added_course_takes_existing_id st courseId form :
  ClientProps.course_ids_sequential (db st) ->
  1 <= courseId < Z.of_nat (List.length (courses (db st))) ->
  Client.cf_code form <> EmptyString ->
  Client.cf_title form <> EmptyString ->
  Client.cf_department form <> EmptyString ->
  exists older,
    ClientProps.lookup (db st) (Z.of_nat (List.length (courses (db st))))
    = Some older
    /\ courses
         (db (Client.handleAddCourse (Client.handleDeleteCourse st courseId)
                form))
       = filter (fun c => negb (c_id c =? courseId)) (courses (db st))
         ++ [Client.newCourse (db (Client.handleDeleteCourse st courseId)) form]
    /\ c_id (Client.newCourse (db (Client.handleDeleteCourse st courseId)) form)
       = Z.of_nat (List.length (courses (db st)))
    /\ ClientProps.lookup
         (db (Client.handleAddCourse (Client.handleDeleteCourse st courseId)
                form))
         (Z.of_nat (List.length (courses (db st))))
       = Some older.
Proof.
  intros Hseq Hrange Hcode Htitle Hdept.
  set (n := List.length (courses (db st))) in *.
  assert (Hin : In (Z.of_nat n) (map c_id (courses (db st)))).
  { unfold ClientProps.course_ids_sequential in Hseq. rewrite Hseq.
    fold n. destruct n as [|m]; [lia|].
    rewrite SchemaFacts.one_to_S. apply in_or_app. right. now left. }
  destruct (find_present _ _ Hin) as [older Hold].
  exists older. split; [exact Hold|].
  assert (Hadd : Client.handleAddCourse (Client.handleDeleteCourse st courseId)
                   form
                 = showNotification
                     (setDb (Client.handleDeleteCourse st courseId)
                        (fun prev =>
                           Client.set_courses prev
                             (courses prev ++
                                [Client.newCourse
                                   (db (Client.handleDeleteCourse st courseId))
                                   form])))
                     "Course added successfully" "success").
  { unfold Client.handleAddCourse.
    assert ((Client.cf_code form =? EmptyString)%string = false) as ->
      by (now apply String.eqb_neq).
    assert ((Client.cf_title form =? EmptyString)%string = false) as ->
      by (now apply String.eqb_neq).
    assert ((Client.cf_department form =? EmptyString)%string = false) as ->
      by (now apply String.eqb_neq).
    reflexivity. }
  rewrite Hadd. split; [reflexivity|]. split.
  - unfold Client.newCourse. cbn [c_id]. simpl courses.
    rewrite filter_ids_length. unfold ClientProps.course_ids_sequential in Hseq.
    rewrite Hseq. fold n.
    pose proof (filter_one_to_length courseId n ltac:(lia)) as Hlen. lia.
  - unfold ClientProps.lookup. simpl courses.
    apply find_app_first. rewrite find_after_delete.
    assert ((Z.of_nat n =? courseId) = false) as ->
      by (apply Z.eqb_neq; lia).
    exact Hold.
Qed.

Lemma seed_course_ids_sequential :
  ClientProps.course_ids_sequential initializeDatabase.
Proof. reflexivity. Qed.

Lemma added_course_takes_existing_id_witness :
  exists older,
    ClientProps.lookup (db Props.first_render)
      (Z.of_nat (List.length (courses (db Props.first_render))))
    = Some older
    /\ courses
         (db (Client.handleAddCourse
                (Client.handleDeleteCourse Props.first_render 2)
                ClientProps.capstone2_form))
       = filter (fun c => negb (c_id c =? 2)) (courses (db Props.first_render))
         ++ [Client.newCourse
               (db (Client.handleDeleteCourse Props.first_render 2))
               ClientProps.capstone2_form]
    /\ c_id (Client.newCourse
               (db (Client.handleDeleteCourse Props.first_render 2))
               ClientProps.capstone2_form)
       = Z.of_nat (List.length (courses (db Props.first_render)))
    /\ ClientProps.lookup
         (db (Client.handleAddCourse
                (Client.handleDeleteCourse Props.first_render 2)
                ClientProps.capstone2_form))
         (Z.of_nat (List.length (courses (db Props.first_render))))
       = Some older.
Proof.
  apply (added_course_takes_existing_id Props.first_render 2
           ClientProps.capstone2_form).
  - exact seed_course_ids_sequential.
  - simpl. lia.
  - discriminate.
  - discriminate.
  - discriminate.
Defined.

(** *** Recommendations *)

Lemma sliced_from {A : Type} (l : list A) (x : A) :
  In x (Client.slice_0_3 l) -> In x l.
Proof.
  unfold Client.slice_0_3. intros Hx.
  rewrite <- (firstn_skipn 3 l). apply in_or_app. now left.
Qed.

(** X12: what [getCourseRecommendations] recommends.  It never returns
    more than three courses, and every one of them is a course of [db]
    recommended to a logged-in user of role "student" who is not enrolled
    in it, has completed each of its prerequisites and has its department
    as major; the reason is "Foundation course" exactly for a course
    without prerequisites. *)
Theorem recommendations_are_sound d currentUser :
  (List.length (Client.getCourseRecommendations d currentUser) <= 3)%nat
  /\ forall c reason,
       In (c, reason) (Client.getCourseRecommendations d currentUser) ->
       exists u,
         currentUser = Some u
         /\ Client.role u = "student"%string
         /\ In c (courses d)
         /\ isEnrolled d (Client.to_user u) (c_id c) = false
         /\ (forall p, In p (prerequisites c) ->
                       In p (match Client.completedCourses u with
                             | Some l => l
                             | None => []
                             end))
         /\ Client.major u = Some (department c)
         /\ reason = match prerequisites c with
                     | [] => "Foundation course"%string
                     | _ :: _ => "Prerequisites met"%string
                     end.
Proof.
  unfold Client.getCourseRecommendations.
  destruct currentUser as [u|]; [|split; [simpl; lia|intros c r []]].
  destruct (Client.role u =? "student")%string eqn:Er;
    [|split; [simpl; lia|intros c r []]].
  cbn [negb]. split.
  - rewrite length_map. unfold Client.slice_0_3.
    rewrite length_firstn. lia.
  - intros c reason Hin. apply in_map_iff in Hin as (c0 & Heq & Hin).
    injection Heq as -> <-.
    apply sliced_from in Hin.
    apply filter_In in Hin as [Hc Hp].
    apply andb_prop in Hp as [Hp Hm]. apply andb_prop in Hp as [Hne Hpre].
    exists u. split; [reflexivity|].
    split; [now apply String.eqb_eq|]. split; [exact Hc|]. split; [|split].
    + apply negb_true_iff in Hne. exact Hne.
    + intros p Hp. rewrite forallb_forall in Hpre. specialize (Hpre p Hp).
      apply existsb_exists in Hpre as (q & Hq & Heq).
      apply String.eqb_eq in Heq. now subst q.
    + split.
      * destruct (Client.major u) as [m|]; [|discriminate].
        apply String.eqb_eq in Hm. now rewrite Hm.
      * destruct (prerequisites c); reflexivity.
Qed.

Lemma recommendations_are_sound_witness :
  exists u,
    Some ClientProps.johndoe = Some u
    /\ Client.role u = "student"%string
    /\ In {| c_id := 3; code := "CMSC220"; title := "Data Structures";
             credits := 3; department := "Computer Science";
             description := "Data structures";
             capacity := 30; enrolled := 22;
             prerequisites := ["CMSC210"%string] |}
          (courses initializeDatabase)
    /\ isEnrolled initializeDatabase (Client.to_user u) 3 = false
    /\ (forall p, In p ["CMSC210"%string] ->
                  In p (match Client.completedCourses u with
                        | Some l => l
                        | None => []
                        end))
    /\ Client.major u = Some "Computer Science"%string
    /\ "Prerequisites met"%string = "Prerequisites met"%string.
Proof.
  apply (proj2 (recommendations_are_sound initializeDatabase
                  (Some ClientProps.johndoe))
           {| c_id := 3; code := "CMSC220"; title := "Data Structures";
              credits := 3; department := "Computer Science";
              description := "Data structures";
              capacity := 30; enrolled := 22;
              prerequisites := ["CMSC210"%string] |}
           "Prerequisites met"%string).
  simpl. left. reflexivity.
Defined.

(** *** Dropping what was never enrolled *)

(** X20: [handleDrop] does not look for a record.  Called for a course
    the student has no enrollment record for, it changes no record and
    reports success, and still lowers the [enrolled] counter of the
    course by one. *)
Theorem drop_without_record_lowers_counter st u courseId c :
  ClientProps.lookup (db st) courseId = Some c ->
  existsb (Props.same_pair u courseId) (enrollments (db st)) = false ->
  enrollments (db (handleDrop st u courseId)) = enrollments (db st)
  /\ ClientProps.lookup (db (handleDrop st u courseId)) courseId
     = Some (set_enrolled c (enrolled c - 1))
  /\ notification (handleDrop st u courseId)
     = Some {| message := "Course dropped"; type := "success" |}.
Proof.
  intros Hf Hnone. split; [|split; [|reflexivity]].
  - rewrite AppFacts.handleDrop_enrollments.
    now apply SchemaMore.map_unmatched.
  - unfold ClientProps.lookup at 1. simpl courses.
    change (fun c => if c_id c =? courseId
                     then set_enrolled c (enrolled c - 1) else c)
      with (fun c => if c_id c =? courseId
                     then set_enrolled c (enrolled c + (-1)) else c).
    rewrite lookup_after_bump, Hf. simpl.
    unfold ClientProps.lookup in Hf. apply find_some in Hf as [_ Hid].
    rewrite Hid. reflexivity.
Qed.

Lemma drop_without_record_lowers_counter_witness :
  enrollments (db (handleDrop Props.first_render Props.johndoe 2))
  = enrollments (db Props.first_render)
  /\ ClientProps.lookup (db (handleDrop Props.first_render Props.johndoe 2)) 2
     = Some (set_enrolled
               {| c_id := 2; code := "CMSC330";
                  title := "Programming Languages"; credits := 3;
                  department := "Computer Science";
                  description := "Language concepts";
                  capacity := 25; enrolled := 20;
                  prerequisites := ["CMSC220"%string] |} (20 - 1))
  /\ notification (handleDrop Props.first_render Props.johndoe 2)
     = Some {| message := "Course dropped"; type := "success" |}.
Proof.
  apply (drop_without_record_lowers_counter Props.first_render Props.johndoe 2
           {| c_id := 2; code := "CMSC330";
              title := "Programming Languages"; credits := 3;
              department := "Computer Science";
              description := "Language concepts";
              capacity := 25; enrolled := 20;
              prerequisites := ["CMSC220"%string] |}).
  - reflexivity.
  - reflexivity.
Defined.

End ListingFacts.

(* ====================================================================== *)
(** ** More about the client: accounts and passwords                       *)
(* ====================================================================== *)

Module AccountFacts.

Import Client ClientProps.
Local Open Scope list_scope.
Local Open Scope Z_scope.

(** *** The models at work on known values *)

(** The base-64 test vectors of RFC 4648, and the seed password. *)
Example btoa_vectors :
  Text.btoa EmptyString = EmptyString
  /\ Text.btoa "f" = "Zg=="%string
  /\ Text.btoa "fo" = "Zm8="%string
  /\ Text.btoa "foo" = "Zm9v"%string
  /\ Text.btoa "foob" = "Zm9vYg=="%string
  /\ Text.btoa "fooba" = "Zm9vYmE="%string
  /\ Text.btoa "foobar" = "Zm9vYmFy"%string
  /\ hashPassword "StudentPass123!" = "$2b$10$U3R1ZGVudFBhc3MxMjMh"%string.
Proof. repeat split; reflexivity. Qed.

Example regex_samples :
  Text.email_regex "student@umgc.edu" = true
  /\ Text.email_regex "a@b.c.d" = true
  /\ Text.email_regex "student@umgc" = false
  /\ Text.email_regex "stu dent@umgc.edu" = false
  /\ Text.email_regex "a@b@c.d" = false
  /\ Text.email_regex "@umgc.edu" = false
  /\ Text.email_regex "a@.edu" = false
  /\ Text.email_regex "a@umgc." = false
  /\ Text.username_regex "johndoe" = true
  /\ Text.username_regex "jo" = false
  /\ Text.username_regex "john.doe" = false
  /\ Text.username_regex "abcdefghijklmnopqrstu" = false.
Proof. repeat split; reflexivity. Qed.

(** The enrollment handlers' view of the seed data is the [db] they were
    verified on. *)
Example seed_databases_agree :
  to_database initializeDatabase = App.initializeDatabase
  /\ to_user johndoe = Props.johndoe.
Proof. split; reflexivity. Qed.

(** *** What the two regular expressions say about the at sign *)

Lemma plus_lit_has c class k s :
  Text.plus class (Text.lit c k) s = true -> In c (Text.chars s).
Proof.
  induction s as [|a r IH]; simpl; [discriminate|].
  intros H. apply andb_prop in H as [_ H].
  apply orb_prop in H as [H|H].
  - right. destruct r as [|c' r']; simpl in *; [discriminate|].
    apply andb_prop in H as [H _]. apply Ascii.eqb_eq in H. now left.
  - right. now apply IH.
Qed.

Lemma email_has_at s :
  Text.email_regex s = true -> In "@"%char (Text.chars s).
Proof. apply plus_lit_has. Qed.

Lemma username_has_no_at s :
  Text.username_regex s = true -> ~ In "@"%char (Text.chars s).
Proof.
  unfold Text.username_regex. intros H Hin.
  apply andb_prop in H as [_ H]. rewrite forallb_forall in H.
  specialize (H _ Hin). discriminate.
Qed.

Lemma email_is_no_username e u :
  Text.email_regex e = true -> Text.username_regex u = true -> e <> u.
Proof.
  intros He Hu ->. apply (username_has_no_at u Hu). now apply email_has_at.
Qed.

(** *** Registering *)

(** What a registration that goes through has checked. *)
Lemma handleRegister_accepted st now userData :
  snd (handleRegister st now userData) = true ->
  Text.email_regex (r_email userData) = true
  /\ Text.username_regex (r_username userData) = true
  /\ existsb (fun u => (email u =? r_email userData)%string) (users (db st))
     = false
  /\ existsb (fun u => (username u =? r_username userData)%string)
       (users (db st)) = false
  /\ validatePassword (r_password userData) = []
  /\ r_password userData = r_confirmPassword userData
  /\ fst (handleRegister st now userData)
     = showNotification
         (setDb st (fun prev =>
            set_users prev (users prev ++ [newUser (db st) now userData])))
         "Registration successful!" "success".
Proof.
  unfold handleRegister.
  destruct (Text.email_regex (r_email userData)); simpl; [|discriminate].
  destruct (Text.username_regex (r_username userData)); simpl; [|discriminate].
  destruct (existsb _ _); [discriminate|].
  destruct (existsb _ _); [discriminate|].
  destruct (validatePassword (r_password userData)); [|discriminate].
  destruct (r_password userData =? r_confirmPassword userData)%string eqn:E;
    simpl; [|discriminate].
  apply String.eqb_eq in E. intros _. repeat split; auto.
Qed.

Lemma handleRegister_refused st now userData :
  snd (handleRegister st now userData) = false ->
  db (fst (handleRegister st now userData)) = db st.
Proof.
  unfold handleRegister.
  destruct (Text.email_regex _); simpl; [|reflexivity].
  destruct (Text.username_regex _); simpl; [|reflexivity].
  destruct (existsb _ _); [reflexivity|].
  destruct (existsb _ _); [reflexivity|].
  destruct (validatePassword _); [|reflexivity].
  destruct (_ =? _)%string; simpl; [discriminate|reflexivity].
Qed.

Lemma not_held {A : Type} (f : A -> string) (l : list A) (x : string) :
  existsb (fun u => (f u =? x)%string) l = false -> ~ In x (map f l).
Proof.
  intros Hex Hin. apply in_map_iff in Hin as (u & Hu & Hin).
  assert (existsb (fun u => (f u =? x)%string) l = true) as Habs.
  { apply existsb_exists. exists u. split; [exact Hin|].
    now apply String.eqb_eq. }
  congruence.
Qed.

(** X13: registration keeps the accounts well formed.  If the user ids
    are 1..n and the e-mail addresses and usernames are well formed and
    held once each, the same is true after any [handleRegister]; a
    refused registration changes nothing in [db], an accepted one appends
    exactly the new user, and neither logs anybody in. *)
Theorem registration_keeps_accounts_ok st now userData :
  accounts_ok (db st) ->
  accounts_ok (db (fst (handleRegister st now userData)))
  /\ (snd (handleRegister st now userData) = false ->
      db (fst (handleRegister st now userData)) = db st)
  /\ (snd (handleRegister st now userData) = true ->
      users (db (fst (handleRegister st now userData)))
      = users (db st) ++ [newUser (db st) now userData])
  /\ currentUser (fst (handleRegister st now userData)) = currentUser st
  /\ view (fst (handleRegister st now userData)) = view st.
Proof.
  intros (Hids & Hem & Hun & Hde & Hdu).
  destruct (snd (handleRegister st now userData)) eqn:Hres.
  - destruct (handleRegister_accepted st now userData Hres)
      as (He & Hu & Hne & Hnu & _ & _ & ->).
    split; [|repeat split; discriminate]. simpl.
    unfold accounts_ok. simpl users.
    rewrite !map_app, length_app. simpl.
    split; [|split; [|split; [|split]]].
    + rewrite Hids, Nat.add_1_r, SchemaFacts.one_to_S.
      f_equal. f_equal. lia.
    + apply Forall_app. split; [exact Hem|]. constructor; [exact He|constructor].
    + apply Forall_app. split; [exact Hun|]. constructor; [exact Hu|constructor].
    + apply SchemaMore.NoDup_snoc; [exact Hde|]. now apply not_held.
    + apply SchemaMore.NoDup_snoc; [exact Hdu|]. now apply not_held.
  - rewrite (handleRegister_refused st now userData Hres).
    split; [repeat split; assumption|].
    split; [reflexivity|]. split; [discriminate|].
    unfold handleRegister.
    destruct (Text.email_regex _); simpl; [|split; reflexivity].
    destruct (Text.username_regex _); simpl; [|split; reflexivity].
    destruct (existsb _ _); [split; reflexivity|].
    destruct (existsb _ _); [split; reflexivity|].
    destruct (validatePassword _); [|split; reflexivity].
    destruct (_ =? _)%string; simpl; split; reflexivity.
Qed.

Lemma seed_accounts_ok : accounts_ok initializeDatabase.
Proof.
  unfold accounts_ok. simpl.
  split; [reflexivity|].
  split; [repeat constructor|]. split; [repeat constructor|].
  split; repeat constructor; simpl; intuition discriminate.
Qed.

Lemma registration_keeps_accounts_ok_witness :
  accounts_ok (db (fst (handleRegister first_render "2025-11-12" jane_form)))
  /\ users (db (fst (handleRegister first_render "2025-11-12" jane_form)))
     = users (db first_render)
       ++ [newUser (db first_render) "2025-11-12" jane_form]
  /\ currentUser (fst (handleRegister first_render "2025-11-12" jane_form))
     = None.
Proof.
  destruct (registration_keeps_accounts_ok first_render "2025-11-12" jane_form
              seed_accounts_ok) as (Hok & _ & Happ & Hcu & _).
  split; [exact Hok|]. split; [|exact Hcu].
  apply Happ. reflexivity.
Defined.

(** *** Logging in *)

Lemma find_app_none {A : Type} (p : A -> bool) (l1 l2 : list A) :
  (forall x, In x l1 -> p x = false) ->
  find p (l1 ++ l2) = find p l2.
Proof.
  induction l1 as [|a l1 IH]; simpl; intros H; [reflexivity|].
  rewrite (H a (or_introl eq_refl)). apply IH. intros x Hx. apply H. now right.
Qed.

Lemma handleLogin_success st now username password u :
  find (fun u => (Client.username u =? username)%string
                 || (email u =? username)%string) (users (db st)) = Some u ->
  verifyPassword password (Client.password u) = true ->
  handleLogin st now username password
  = showNotification
      {| db := db st;
         currentUser := Some u;
         view := if (role u =? "admin")%string then "admin" else "dashboard";
         notification := notification st |}
      ("Welcome " ++ name u ++ "!") "success".
Proof. unfold handleLogin. now intros -> ->. Qed.

(** The new account is the one a login with its username or its e-mail
    address finds. *)
Lemma new_account_found st now userData key :
  accounts_ok (db st) ->
  snd (handleRegister st now userData) = true ->
  key = r_username userData \/ key = r_email userData ->
  find (fun u => (Client.username u =? key)%string || (email u =? key)%string)
       (users (db (fst (handleRegister st now userData))))
  = Some (newUser (db st) now userData).
Proof.
  intros (_ & Hem & Hun & _ & _) Hres Hkey.
  destruct (handleRegister_accepted st now userData Hres)
    as (He & Hu & Hne & Hnu & _ & _ & ->).
  simpl users. rewrite find_app_none.
  - simpl. destruct Hkey as [->| ->]; rewrite String.eqb_refl;
      [reflexivity|now rewrite orb_true_r].
  - intros x Hx.
    rewrite Forall_forall in Hem, Hun.
    specialize (Hem x Hx). specialize (Hun x Hx).
    assert (Hxe : email x <> r_email userData).
    { intros Heq. apply (not_held email _ _ Hne).
      rewrite <- Heq. now apply in_map. }
    assert (Hxu : Client.username x <> r_username userData).
    { intros Heq. apply (not_held Client.username _ _ Hnu).
      rewrite <- Heq. now apply in_map. }
    apply orb_false_intro; apply String.eqb_neq; destruct Hkey as [->| ->];
      try assumption.
    + intros Heq. apply (email_is_no_username _ _ He Hun). now symmetry.
    + now apply email_is_no_username.
Qed.

(** X14: registering and then logging in.  After a registration that
    goes through on well-formed accounts, [handleLogin] with the new
    username or with the new e-mail address and the chosen password logs
    in exactly the new user, leaves [db] alone (no failed login is
    recorded), and shows the admin view when the chosen role is "admin"
    and the dashboard otherwise. *)
Theorem register_then_login st now later userData key :
  accounts_ok (db st) ->
  snd (handleRegister st now userData) = true ->
  key = r_username userData \/ key = r_email userData ->
  currentUser
    (handleLogin (fst (handleRegister st now userData)) later key
       (r_password userData))
  = Some (newUser (db st) now userData)
  /\ db (handleLogin (fst (handleRegister st now userData)) later key
           (r_password userData))
     = db (fst (handleRegister st now userData))
  /\ view (handleLogin (fst (handleRegister st now userData)) later key
             (r_password userData))
     = (if (r_role userData =? "admin")%string then "admin" else "dashboard")%string.
Proof.
  intros Hok Hres Hkey.
  pose proof (new_account_found st now userData key Hok Hres Hkey) as Hfind.
  rewrite (handleLogin_success _ later key (r_password userData) _ Hfind).
  - split; [reflexivity|]. split; [reflexivity|]. simpl.
    destruct (r_role userData =? EmptyString)%string eqn:E.
    + apply String.eqb_eq in E. rewrite E. reflexivity.
    + reflexivity.
  - unfold verifyPassword. simpl. apply String.eqb_refl.
Qed.

Lemma register_then_login_witness :
  currentUser
    (handleLogin (fst (handleRegister first_render "2025-11-12" jane_form))
       "2025-11-13" "jane@umgc.edu" "Correct.Horse.42!")
  = Some (newUser (db first_render) "2025-11-12" jane_form)
  /\ db (handleLogin (fst (handleRegister first_render "2025-11-12" jane_form))
           "2025-11-13" "jane@umgc.edu" "Correct.Horse.42!")
     = db (fst (handleRegister first_render "2025-11-12" jane_form))
  /\ view (handleLogin (fst (handleRegister first_render "2025-11-12" jane_form))
             "2025-11-13" "jane@umgc.edu" "Correct.Horse.42!")
     = "dashboard"%string.
Proof.
  apply (register_then_login first_render "2025-11-12" "2025-11-13" jane_form
           "jane@umgc.edu").
  - exact seed_accounts_ok.
  - reflexivity.
  - right. reflexivity.
Defined.

(** *** The password hash *)

Lemma btoa_step a b c r :
  Text.btoa (String a (String b (String c r)))
  = (Text.btoa (String a (String b (String c EmptyString))) ++ Text.btoa r)%string.
Proof. destruct a, b, c. reflexivity. Qed.

Lemma btoa_triple_length a b c :
  String.length (Text.btoa (String a (String b (String c EmptyString)))) = 4%nat.
Proof. destruct a, b, c. reflexivity. Qed.

Lemma append_assoc (a b c : string) :
  ((a ++ b) ++ c = a ++ (b ++ c))%string.
Proof. induction a as [|x a IH]; simpl; [reflexivity|now rewrite IH]. Qed.

Lemma append_length (a b : string) :
  String.length (a ++ b)%string = (String.length a + String.length b)%nat.
Proof. induction a as [|x a IH]; simpl; [reflexivity|now rewrite IH]. Qed.

(** Whole groups of three characters are encoded on their own. *)
Lemma btoa_app (k : nat) :
  forall p r,
    String.length p = (3 * k)%nat ->
    Text.btoa (p ++ r)%string = (Text.btoa p ++ Text.btoa r)%string
    /\ String.length (Text.btoa p) = (4 * k)%nat.
Proof.
  induction k as [|k IH]; intros p r Hlen.
  - destruct p; [split; reflexivity|discriminate].
  - destruct p as [|a [|b [|c p]]]; try (simpl in Hlen; lia).
    assert (String.length p = (3 * k)%nat) as Hp by (simpl in Hlen; lia).
    destruct (IH p r Hp) as [Happ Hl].
    change (String a (String b (String c p)) ++ r)%string
      with (String a (String b (String c (p ++ r)%string))).
    rewrite (btoa_step a b c (p ++ r)), (btoa_step a b c p), Happ.
    split.
    + now rewrite append_assoc.
    + rewrite append_length, btoa_triple_length, Hl. lia.
Qed.

(** The first character of the encoding depends on the first character
    of the input only. *)
Lemma btoa_head x t :
  substring 0 1 (Text.btoa (String x t))
  = substring 0 1 (Text.btoa (String x EmptyString)).
Proof.
  destruct t as [|y [|z t]]; destruct x; try destruct y; try destruct z;
    reflexivity.
Qed.

Lemma substring_app (a b : string) (m : nat) :
  substring 0 (String.length a + m) (a ++ b)%string
  = (a ++ substring 0 m b)%string.
Proof. induction a as [|x a IH]; simpl; [reflexivity|now rewrite IH]. Qed.

Lemma split_last (s : string) (n : nat) :
  String.length s = S n ->
  exists s' x, s = (s' ++ String x EmptyString)%string /\ String.length s' = n.
Proof.
  revert n. induction s as [|a s IH]; intros n Hlen; [discriminate|].
  destruct s as [|b s].
  - exists EmptyString, a. simpl in Hlen. split; [reflexivity|simpl; lia].
  - destruct n as [|n]; [simpl in Hlen; lia|].
    destruct (IH n) as (s' & x & Hs & Hl); [simpl in *; lia|].
    exists (String a s'), x. rewrite Hs. split; [reflexivity|simpl; lia].
Qed.

(** Passwords that share their first 40 characters share their hash. *)
Lemma hash_reads_40 (prefix t1 t2 : string) :
  String.length prefix = 40%nat ->
  hashPassword (prefix ++ t1) = hashPassword (prefix ++ t2).
Proof.
  intros Hlen. destruct (split_last prefix 39 Hlen) as (p & x & -> & Hp).
  unfold hashPassword. f_equal.
  rewrite !append_assoc. simpl append.
  destruct (btoa_app 13 p (String x t1) Hp) as [-> Hl].
  destruct (btoa_app 13 p (String x t2) Hp) as [-> _].
  change 53%nat with (4 * 13 + 1)%nat. rewrite <- Hl.
  rewrite !substring_app, (btoa_head x t1), (btoa_head x t2). reflexivity.
Qed.

(** *** Short passwords can be read back from the hash *)

Lemma base64_sextet_char (s : Text.sextet) :
  Text.base64_sextet (Text.base64_char s) = Some s.
Proof.
  destruct s as [[[[[b5 b4] b3] b2] b1] b0].
  destruct b5, b4, b3, b2, b1, b0; vm_compute; reflexivity.
Qed.

Lemma base64_char_inj (s1 s2 : Text.sextet) :
  Text.base64_char s1 = Text.base64_char s2 -> s1 = s2.
Proof.
  intros H. apply (f_equal Text.base64_sextet) in H.
  rewrite !base64_sextet_char in H. now injection H.
Qed.

Lemma base64_char_not_pad (s : Text.sextet) :
  Text.base64_char s <> "="%char.
Proof.
  intros H. apply (f_equal Text.base64_sextet) in H.
  rewrite base64_sextet_char in H. vm_compute in H. discriminate.
Qed.

Lemma string_ind3 (P : string -> Prop) :
  P EmptyString ->
  (forall a, P (String a EmptyString)) ->
  (forall a b, P (String a (String b EmptyString))) ->
  (forall a b c r, P r -> P (String a (String b (String c r)))) ->
  forall s, P s.
Proof.
  intros H0 H1 H2 H3.
  assert (forall s, P s /\ (forall a, P (String a s))
                    /\ (forall a b, P (String a (String b s)))) as H.
  { induction s as [|c s (IHs & IH1 & IH2)].
    - repeat split; auto.
    - split; [apply IH1|]. split; [intros a; apply IH2|].
      intros a b. now apply H3. }
  intros s. apply H.
Qed.

Ltac sextets :=
  repeat match goal with
    | H : Text.base64_char _ = "="%char |- _ =>
        destruct (base64_char_not_pad _ H)
    | H : "="%char = Text.base64_char _ |- _ =>
        symmetry in H; destruct (base64_char_not_pad _ H)
    | H : Text.base64_char _ = Text.base64_char _ |- _ =>
        apply base64_char_inj in H; injection H as ?; subst
    end.

Lemma btoa_inj : forall p1 p2, Text.btoa p1 = Text.btoa p2 -> p1 = p2.
Proof.
  induction p1 as [|a|a b|a b c r IH] using string_ind3;
    intros [|a' [|b' [|c' r']]] H;
    try destruct a; try destruct b; try destruct c;
    try destruct a'; try destruct b'; try destruct c';
    cbn [Text.btoa] in H; try discriminate; try reflexivity;
    injection H as ?; sextets; try discriminate; try reflexivity.
  f_equal. f_equal. f_equal. now apply IH.
Qed.

Lemma btoa_length_le (k : nat) :
  forall p, (String.length p <= 3 * k)%nat ->
            (String.length (Text.btoa p) <= 4 * k)%nat.
Proof.
  induction k as [|k IH]; intros p Hlen.
  - destruct p; [simpl; lia|simpl in Hlen; lia].
  - destruct p as [|a [|b [|c p]]].
    + simpl. lia.
    + destruct a. simpl. lia.
    + destruct a, b. simpl. lia.
    + rewrite btoa_step, append_length, btoa_triple_length.
      assert (String.length (Text.btoa p) <= 4 * k)%nat
        by (apply IH; simpl in Hlen; lia).
      lia.
Qed.

Lemma substring_all (s : string) (n : nat) :
  (String.length s <= n)%nat -> substring 0 n s = s.
Proof.
  revert n. induction s as [|a s IH]; intros n Hlen.
  - destruct n; reflexivity.
  - destruct n; [simpl in Hlen; lia|]. simpl. f_equal. apply IH.
    simpl in Hlen. lia.
Qed.

(** X18: for passwords of at most 39 characters the hash is an encoding,
    not a digest: two such passwords with the same [hashPassword] are the
    same password, so [verifyPassword] against the hash of one accepts
    the other only if they are equal. *)
Theorem short_passwords_hash_apart (p1 p2 : string) :
  (String.length p1 <= 39)%nat ->
  (String.length p2 <= 39)%nat ->
  (hashPassword p1 = hashPassword p2 -> p1 = p2)
  /\ (verifyPassword p2 (hashPassword p1) = true <-> p1 = p2).
Proof.
  intros H1 H2.
  assert (Hinj : hashPassword p1 = hashPassword p2 -> p1 = p2).
  { unfold hashPassword. intros H.
    rewrite !substring_all in H
      by (apply Nat.le_trans with (4 * 13)%nat;
          [now apply btoa_length_le|lia]).
    simpl in H. injection H as H. now apply btoa_inj. }
  split; [exact Hinj|]. unfold verifyPassword. split.
  - intros H. apply String.eqb_eq in H. apply Hinj. now symmetry.
  - intros ->. apply String.eqb_refl.
Qed.

Lemma short_passwords_hash_apart_witness :
  verifyPassword "AdminPass123!" (hashPassword "StudentPass123!") = true
  <-> "StudentPass123!"%string = "AdminPass123!"%string.
Proof.
  apply (proj2 (short_passwords_hash_apart "StudentPass123!" "AdminPass123!"
                  ltac:(simpl; lia) ltac:(simpl; lia))).
Defined.

(** *** Common passwords *)

Lemma toLowerCase_app (a b : string) :
  Text.toLowerCase (a ++ b)
  = (Text.toLowerCase a ++ Text.toLowerCase b)%string.
Proof. induction a as [|x a IH]; simpl; [reflexivity|now rewrite IH]. Qed.

Lemma prefix_app (t b : string) : prefix t (t ++ b) = true.
Proof.
  induction t as [|x t IH]; simpl; [now destruct b|].
  destruct (ascii_dec x x) as [_|Hne]; [exact IH|now destruct Hne].
Qed.

Lemma includes_app (a t b : string) :
  Text.includes (a ++ t ++ b) t = true.
Proof.
  induction a as [|x a IH].
  - simpl append. pose proof (prefix_app t b) as H.
    destruct (t ++ b)%string; cbn [Text.includes]; now rewrite H.
  - simpl append. simpl Text.includes. rewrite IH. apply orb_true_r.
Qed.

(** X21: common passwords are caught in any letter case and at any
    position.  A password that contains one of the [COMMON_PASSWORDS]
    written with any mix of upper and lower case gets the "Too common"
    error from [validatePassword], and [handleRegister] refuses it. *)
Theorem common_passwords_are_refused st now userData (a w b c : string) :
  In c COMMON_PASSWORDS ->
  Text.toLowerCase w = c ->
  r_password userData = (a ++ w ++ b)%string ->
  In "Too common"%string (validatePassword (r_password userData))
  /\ snd (handleRegister st now userData) = false
  /\ db (fst (handleRegister st now userData)) = db st.
Proof.
  intros Hc Hw Hpw.
  assert (Hin : In "Too common"%string (validatePassword (r_password userData))).
  { unfold validatePassword. repeat (apply in_or_app; right).
    assert (existsb
              (fun c => Text.includes (Text.toLowerCase (r_password userData)) c)
              COMMON_PASSWORDS = true) as ->.
    { apply existsb_exists. exists c. split; [exact Hc|].
      rewrite Hpw, !toLowerCase_app, Hw. apply includes_app. }
    now left. }
  split; [exact Hin|].
  assert (Hres : snd (handleRegister st now userData) = false).
  { destruct (snd (handleRegister st now userData)) eqn:E; [|reflexivity].
    destruct (handleRegister_accepted st now userData E)
      as (_ & _ & _ & _ & Hv & _).
    rewrite Hv in Hin. destruct Hin. }
  split; [exact Hres|]. now apply handleRegister_refused.
Qed.

Lemma common_passwords_are_refused_witness :
  In "Too common"%string (validatePassword "My-PassWord-2025!")
  /\ snd (handleRegister first_render "2025-11-12"
            {| r_email := "max@umgc.edu"; r_username := "max";
               r_password := "My-PassWord-2025!";
               r_confirmPassword := "My-PassWord-2025!";
               r_name := "Max"; r_role := "student" |}) = false
  /\ db (fst (handleRegister first_render "2025-11-12"
                {| r_email := "max@umgc.edu"; r_username := "max";
                   r_password := "My-PassWord-2025!";
                   r_confirmPassword := "My-PassWord-2025!";
                   r_name := "Max"; r_role := "student" |}))
     = db first_render.
Proof.
  apply (common_passwords_are_refused first_render "2025-11-12"
           {| r_email := "max@umgc.edu"; r_username := "max";
              r_password := "My-PassWord-2025!";
              r_confirmPassword := "My-PassWord-2025!";
              r_name := "Max"; r_role := "student" |}
           "My-" "PassWord" "-2025!" "password").
  - left. reflexivity.
  - reflexivity.
  - reflexivity.
Defined.

End AccountFacts.

(* ====================================================================== *)
(** ** Logging in with any password, code units above 255 included        *)
(* ====================================================================== *)

Module WideFacts.

Import Client ClientProps.
Local Open Scope list_scope.

(** *** Wide and narrow strings *)

Lemma narrow_cons c l :
  Wide.narrow (c :: l)
  = if (c <? 256)%N
    then option_map (String (ascii_of_N c)) (Wide.narrow l)
    else None.
Proof.
  unfold Wide.narrow. cbn [forallb map string_of_list_ascii].
  destruct (c <? 256)%N; [|reflexivity].
  cbn [andb]. destruct (forallb _ l); reflexivity.
Qed.

Lemma narrow_widen s : Wide.narrow (Wide.widen s) = Some s.
Proof.
  induction s as [|a s IH]; [reflexivity|].
  change (Wide.widen (String a s)) with (N_of_ascii a :: Wide.widen s).
  rewrite narrow_cons, IH, ascii_N_embedding.
  assert ((N_of_ascii a <? 256)%N = true) as ->
    by (apply N.ltb_lt, N_ascii_bounded).
  reflexivity.
Qed.

Lemma widen_length s : List.length (Wide.widen s) = String.length s.
Proof.
  induction s as [|a s IH]; [reflexivity|].
  change (Wide.widen (String a s)) with (N_of_ascii a :: Wide.widen s).
  simpl. now rewrite IH.
Qed.

Lemma narrow_app a b :
  Wide.narrow (a ++ b)
  = match Wide.narrow a with
    | Some x => option_map (append x) (Wide.narrow b)
    | None => None
    end.
Proof.
  induction a as [|c a IH].
  - simpl. destruct (Wide.narrow b); reflexivity.
  - simpl app. rewrite !narrow_cons, IH.
    destruct (c <? 256)%N; [|reflexivity].
    destruct (Wide.narrow a); [|reflexivity].
    destruct (Wide.narrow b); reflexivity.
Qed.

Lemma narrow_length p : forall s,
  Wide.narrow p = Some s -> String.length s = List.length p.
Proof.
  induction p as [|c p IH]; intros s H.
  - injection H as <-. reflexivity.
  - rewrite narrow_cons in H. destruct (c <? 256)%N; [|discriminate].
    destruct (Wide.narrow p) as [x|]; [|discriminate].
    injection H as <-. simpl. now rewrite (IH x).
Qed.

(** A wide password that has a narrow reading splits as its reading
    does. *)
Lemma narrow_split (n : nat) p s :
  Wide.narrow p = Some s ->
  exists x t,
    Wide.narrow (firstn n p) = Some x /\ s = (x ++ t)%string.
Proof.
  intros H. rewrite <- (firstn_skipn n p), narrow_app in H.
  destruct (Wide.narrow (firstn n p)) as [x|]; [|discriminate].
  destruct (Wide.narrow (skipn n p)) as [t|]; [|discriminate].
  injection H as <-. now exists x, t.
Qed.

(** *** The hash of a wide password *)

Lemma hashPassword_narrow p s :
  Wide.narrow p = Some s ->
  Wide.hashPassword p = Some (hashPassword s).
Proof.
  intros H. unfold Wide.hashPassword, Wide.btoa. rewrite H. reflexivity.
Qed.

Lemma hashPassword_throws p :
  Wide.narrow p = None <-> Wide.hashPassword p = None.
Proof.
  unfold Wide.hashPassword, Wide.btoa.
  destruct (Wide.narrow p); simpl; split; intros H;
    try discriminate; reflexivity.
Qed.

Lemma verifyPassword_narrow p s hash :
  Wide.narrow p = Some s ->
  Wide.verifyPassword p hash = Some (verifyPassword s hash).
Proof.
  intros H. unfold Wide.verifyPassword.
  rewrite (hashPassword_narrow p s H). reflexivity.
Qed.

Lemma verifyPassword_throws p hash :
  Wide.narrow p = None <-> Wide.verifyPassword p hash = None.
Proof.
  unfold Wide.verifyPassword. rewrite hashPassword_throws.
  destruct (Wide.hashPassword p); simpl; split; intros H;
    try discriminate; reflexivity.
Qed.

(** Narrow passwords that share their first 40 code units share their
    hash. *)
Lemma wide_hash_reads_40 p1 p2 s1 s2 :
  (40 <= List.length p1)%nat ->
  firstn 40 p2 = firstn 40 p1 ->
  Wide.narrow p1 = Some s1 ->
  Wide.narrow p2 = Some s2 ->
  hashPassword s2 = hashPassword s1.
Proof.
  intros Hlen Hfirst H1 H2.
  destruct (narrow_split 40 p1 s1 H1) as (x1 & t1 & Hx1 & ->).
  destruct (narrow_split 40 p2 s2 H2) as (x2 & t2 & Hx2 & ->).
  rewrite Hfirst, Hx1 in Hx2. injection Hx2 as <-.
  apply AccountFacts.hash_reads_40.
  rewrite (narrow_length _ _ Hx1), length_firstn. lia.
Qed.

(** *** Logging in *)

Lemma answers_to_name (username : string) (l : list account) u :
  find (fun u => (Client.username u =? username)%string
                 || (email u =? username)%string) l = Some u ->
  In u l /\ (Client.username u = username \/ email u = username).
Proof.
  intros Hf. apply find_some in Hf as [Hin Hp]. split; [exact Hin|].
  apply orb_prop in Hp as [Hp|Hp]; apply String.eqb_eq in Hp; auto.
Qed.

Lemma nobody_answers (username : string) (l : list account) u :
  find (fun u => (Client.username u =? username)%string
                 || (email u =? username)%string) l = None ->
  In u l ->
  Client.username u = username \/ email u = username ->
  False.
Proof.
  intros Hf Hin Hname. pose proof (find_none _ _ Hf u Hin) as Hp.
  apply orb_false_elim in Hp as [Hp1 Hp2].
  apply String.eqb_neq in Hp1, Hp2. tauto.
Qed.

(** X15: what a login attempt can do, for a password of any code units.
    [handleLogin] has three outcomes.  It throws, writing nothing,
    exactly when an account of [db] answers to the given name (as
    username or e-mail address) and the password holds a code unit above
    255, on which [btoa] throws.  Otherwise it changes no account, course
    or enrollment, and either logs in an account that answers to the name
    and whose stored hash verifies the password, recording nothing, or
    leaves [currentUser] and [view] as they were and appends exactly one
    entry for that name to [failedLogins]. *)
Theorem login_attempt_outcomes st now username (password : Wide.text) :
  (Wide.handleLogin st now username password = None
   <-> Wide.narrow password = None
       /\ exists u,
            In u (users (db st))
            /\ (Client.username u = username \/ email u = username))
  /\ (forall st',
        Wide.handleLogin st now username password = Some st' ->
        users (db st') = users (db st)
        /\ courses (db st') = courses (db st)
        /\ enrollments (db st') = enrollments (db st)
        /\ ((exists u,
               In u (users (db st))
               /\ (Client.username u = username \/ email u = username)
               /\ Wide.verifyPassword password (Client.password u)
                  = Some true
               /\ currentUser st' = Some u
               /\ failedLogins (db st') = failedLogins (db st))
            \/ (currentUser st' = currentUser st
                /\ view st' = view st
                /\ exists reason,
                     failedLogins (db st')
                     = failedLogins (db st)
                       ++ [ {| App.timestamp := now;
                               App.f_username := username;
                               App.ipAddress := "192.168.1.100";
                               App.reason := reason |} ]))).
Proof.
  unfold Wide.handleLogin.
  destruct (find _ (users (db st))) as [u|] eqn:Hf.
  - destruct (answers_to_name username _ u Hf) as [Hin Hname].
    destruct (Wide.verifyPassword password (Client.password u))
      as [[|]|] eqn:Hv.
    + split.
      * split; [discriminate|]. intros [Hn _].
        apply (verifyPassword_throws password (Client.password u)) in Hn.
        congruence.
      * intros st' H. injection H as <-. repeat split.
        left. exists u. repeat split; auto.
    + split.
      * split; [discriminate|]. intros [Hn _].
        apply (verifyPassword_throws password (Client.password u)) in Hn.
        congruence.
      * intros st' H. injection H as <-. repeat split.
        right. repeat split. eexists; reflexivity.
    + split.
      * split; [|reflexivity]. intros _. split.
        -- now apply (verifyPassword_throws password (Client.password u)).
        -- exists u. split; assumption.
      * discriminate.
  - split.
    + split; [discriminate|]. intros [_ (u & Hin & Hname)].
      destruct (nobody_answers username _ u Hf Hin Hname).
    + intros st' H. injection H as <-. repeat split.
      right. repeat split. eexists; reflexivity.
Qed.

Lemma login_attempt_outcomes_witness :
  Wide.handleLogin first_render "2025-11-13" "johndoe" Wide.euro_password
  = None.
Proof.
  apply (proj2 (proj1 (login_attempt_outcomes first_render "2025-11-13"
                         "johndoe" Wide.euro_password))).
  split; [reflexivity|]. exists johndoe. split.
  - left. reflexivity.
  - left. reflexivity.
Defined.

(** X16: the hash reads only the first 40 code units of a password.  Of
    two passwords that agree on their first 40 code units and hold none
    above 255, each has the [hashPassword] of the other, so
    [verifyPassword] accepts either against the hash of the other,
    whatever follows the 40th.  A password that holds a code unit above
    255 has no hash at all: [btoa] throws, and so do [hashPassword] and
    [verifyPassword]. *)
Theorem long_passwords_share_a_hash (p1 p2 : Wide.text) (s1 : string) :
  (40 <= List.length p1)%nat ->
  firstn 40 p2 = firstn 40 p1 ->
  Wide.narrow p1 = Some s1 ->
  Wide.hashPassword p1 = Some (hashPassword s1)
  /\ (forall s2,
        Wide.narrow p2 = Some s2 ->
        Wide.hashPassword p2 = Wide.hashPassword p1
        /\ Wide.verifyPassword p2 (hashPassword s1) = Some true
        /\ Wide.verifyPassword p1 (hashPassword s2) = Some true)
  /\ (Wide.narrow p2 = None ->
        Wide.hashPassword p2 = None
        /\ Wide.verifyPassword p2 (hashPassword s1) = None).
Proof.
  intros Hlen Hfirst H1.
  split; [now apply hashPassword_narrow|]. split.
  - intros s2 H2.
    pose proof (wide_hash_reads_40 p1 p2 s1 s2 Hlen Hfirst H1 H2) as Hh.
    rewrite (hashPassword_narrow p1 s1 H1), (hashPassword_narrow p2 s2 H2),
      (verifyPassword_narrow p2 s2 _ H2), (verifyPassword_narrow p1 s1 _ H1).
    unfold verifyPassword. rewrite Hh, String.eqb_refl. repeat split.
  - intros H2. split.
    + now apply hashPassword_throws.
    + now apply verifyPassword_throws.
Qed.

Lemma long_passwords_share_a_hash_witness :
  Wide.verifyPassword (Wide.widen other_long_password)
    (hashPassword long_password) = Some true
  /\ Wide.verifyPassword Wide.euro_long_password
       (hashPassword long_password) = None.
Proof.
  split.
  - apply (proj1 (proj2 (long_passwords_share_a_hash
                           (Wide.widen long_password)
                           (Wide.widen other_long_password) long_password
                           ltac:(simpl; lia) eq_refl eq_refl))
             other_long_password).
    reflexivity.
  - apply (proj2 (proj2 (long_passwords_share_a_hash
                           (Wide.widen long_password)
                           Wide.euro_long_password long_password
                           ltac:(simpl; lia) eq_refl eq_refl))).
    reflexivity.
Defined.

(** X17: a login with a different password.  After a registration that
    goes through with a password of 40 characters or more, [handleLogin]
    with the new username (or e-mail address) and any other password that
    agrees with the chosen one on the first 40 code units logs the new
    user in and records nothing, provided it holds no code unit above
    255; if it holds one, [btoa] throws and nobody is logged in. *)
Theorem login_with_another_long_password st now later userData key
    (p2 : Wide.text) :
  accounts_ok (db st) ->
  snd (handleRegister st now userData) = true ->
  key = r_username userData \/ key = r_email userData ->
  (40 <= String.length (r_password userData))%nat ->
  firstn 40 p2 = firstn 40 (Wide.widen (r_password userData)) ->
  (forall s2,
      Wide.narrow p2 = Some s2 ->
      exists st',
        Wide.handleLogin (fst (handleRegister st now userData)) later key p2
        = Some st'
        /\ currentUser st' = Some (newUser (db st) now userData)
        /\ db st' = db (fst (handleRegister st now userData)))
  /\ (Wide.narrow p2 = None ->
      Wide.handleLogin (fst (handleRegister st now userData)) later key p2
      = None).
Proof.
  intros Hok Hres Hkey Hlen Hfirst.
  pose proof (AccountFacts.new_account_found st now userData key Hok Hres Hkey)
    as Hfind.
  unfold Wide.handleLogin. rewrite Hfind. split.
  - intros s2 H2.
    rewrite (verifyPassword_narrow p2 s2 _ H2).
    assert (verifyPassword s2 (Client.password (newUser (db st) now userData))
            = true) as ->.
    { unfold verifyPassword, newUser. cbn [Client.password].
      rewrite (wide_hash_reads_40 (Wide.widen (r_password userData)) p2
                 (r_password userData) s2).
      - apply String.eqb_refl.
      - rewrite widen_length. exact Hlen.
      - exact Hfirst.
      - apply narrow_widen.
      - exact H2. }
    eexists. split; [reflexivity|]. split; reflexivity.
  - intros H2.
    apply (verifyPassword_throws p2
             (Client.password (newUser (db st) now userData))) in H2.
    now rewrite H2.
Qed.

Lemma login_with_another_long_password_witness :
  (exists st',
     Wide.handleLogin (fst (handleRegister first_render "2025-11-12" long_form))
       "2025-11-13" "lena" (Wide.widen other_long_password)
     = Some st'
     /\ currentUser st'
        = Some (newUser (db first_render) "2025-11-12" long_form)
     /\ db st' = db (fst (handleRegister first_render "2025-11-12" long_form)))
  /\ Wide.handleLogin (fst (handleRegister first_render "2025-11-12" long_form))
       "2025-11-13" "lena" Wide.euro_long_password
     = None.
Proof.
  split.
  - apply (proj1 (login_with_another_long_password first_render "2025-11-12"
                    "2025-11-13" long_form "lena"
                    (Wide.widen other_long_password)
                    AccountFacts.seed_accounts_ok eq_refl
                    (or_introl eq_refl) ltac:(simpl; lia) eq_refl)
             other_long_password).
    reflexivity.
  - apply (proj2 (login_with_another_long_password first_render "2025-11-12"
                    "2025-11-13" long_form "lena"
                    Wide.euro_long_password
                    AccountFacts.seed_accounts_ok eq_refl
                    (or_introl eq_refl) ltac:(simpl; lia) eq_refl)).
    reflexivity.
Defined.

End WideFacts.
